(** * KeyMaster: the API key manager (src/models.py, src/security.py,
      src/redis_client.py, src/main.py) as a shallow embedding.

    Python [str] is modelled as [string] (a sequence of 8-bit code units; the
    separator ['.'] is a single code unit, so splitting is the same on the
    UTF-8 encoding).  Python [float] timestamps are modelled by the rationals
    [Q] (every finite float is one), Python [int] by [Z].  The Redis server is
    an explicit store threaded through a state-and-exception monad; every
    round-trip is logged and may raise [RedisError] as decided by an oracle. *)

From Stdlib Require Import Ascii String QArith Qround DecimalString.
From stdpp Require Import gmap strings list fin_maps.

Local Open Scope string_scope.
Local Open Scope Z_scope.

(** ** Python strings *)

Module PyStr.

(** [s.startswith(p)] *)
Fixpoint startswith (s p : string) {struct p} : bool :=
  match p with
  | EmptyString => true
  | String c p' =>
      match s with
      | EmptyString => false
      | String d s' => Ascii.eqb d c && startswith s' p'
      end
  end.

(** First occurrence of the one-character separator: the text before it and
    the text after it, or [None] when the separator does not occur. *)
Fixpoint partition (sep : ascii) (s : string) : option (string * string) :=
  match s with
  | EmptyString => None
  | String c r =>
      if Ascii.eqb c sep then Some (EmptyString, r)
      else match partition sep r with
           | Some (a, b) => Some (String c a, b)
           | None => None
           end
  end.

(** [s.split(sep, maxsplit)] for a one-character separator: at most
    [maxsplit] cuts, scanning from the left; the rest is kept whole. *)
Fixpoint split (sep : ascii) (maxsplit : nat) (s : string) : list string :=
  match maxsplit with
  | O => [s]
  | S n => match partition sep s with
           | None => [s]
           | Some (a, b) => a :: split sep n b
           end
  end.

(** Number of occurrences of a character. *)
Fixpoint count (c : ascii) (s : string) : nat :=
  match s with
  | EmptyString => O
  | String d r => ((if Ascii.eqb d c then 1 else 0) + count c r)%nat
  end.

(** [c in s] *)
Definition contains (c : ascii) (s : string) : bool :=
  negb (Nat.eqb (count c s) 0).

(** [s[i]] for an index in range. *)
Fixpoint index (s : string) (i : nat) : option ascii :=
  match s, i with
  | EmptyString, _ => None
  | String c _, O => Some c
  | String _ r, S j => index r j
  end.

(** [str(n)] for a Python [int]. *)
Definition of_int (n : Z) : string := NilZero.string_of_int (Z.to_int n).

(** [l[start:stop]] with Python's treatment of negative and out-of-range
    bounds. *)
Definition clamp_index (n i : Z) : Z :=
  if i <? 0 then Z.max 0 (i + n) else Z.min i n.

Definition slice {A} (l : list A) (start stop : Z) : list A :=
  let n := Z.of_nat (length l) in
  let a := clamp_index n start in
  let b := clamp_index n stop in
  take (Z.to_nat (b - a)) (drop (Z.to_nat a) l).

(** [all(c in alphabet for c in s)] *)
Fixpoint all_in (alphabet s : string) : bool :=
  match s with
  | EmptyString => true
  | String c r => contains c alphabet && all_in alphabet r
  end.

End PyStr.

(** ** Exceptions and results *)

(** The subclasses of [redis.exceptions.RedisError] the client can raise. *)
Inductive RedisFault := ConnectionFault | TimeoutFault | ResponseFault.

Inductive Exn :=
| ValueError (msg : string)
| ValidationError            (* pydantic; a subclass of ValueError *)
| InvalidHashError           (* argon2; a subclass of ValueError *)
| VerificationError          (* argon2 *)
| VerifyMismatchError        (* argon2; a subclass of VerificationError *)
| RedisError (f : RedisFault)
| IndexError
| HTTPException (status : Z) (detail : string).

Definition is_ValueError (e : Exn) : bool :=
  match e with
  | ValueError _ | ValidationError | InvalidHashError => true
  | _ => false
  end.

Definition is_RedisError (e : Exn) : bool :=
  match e with RedisError _ => true | _ => false end.

Definition is_ConnectionError (e : Exn) : bool :=
  match e with RedisError ConnectionFault => true | _ => false end.

Definition is_VerifyMismatchError (e : Exn) : bool :=
  match e with VerifyMismatchError => true | _ => false end.

(** [except Exception] *)
Definition is_Exception (e : Exn) : bool := true.

Inductive Result (A : Type) :=
| Ok (a : A)
| Raise (e : Exn).
Arguments Ok {A} a.
Arguments Raise {A} e.

(** ** src/models.py *)

Record ParsedAPIKey := {
  pk_project_id : string;
  pk_key_id : string;
  pk_secret : string
}.

Module ParsedAPIKey.

(** [ParsedAPIKey.parse] *)
Definition parse (api_key : string) : Result ParsedAPIKey :=
  if negb (PyStr.startswith api_key "sk-proj.") then
    Raise (ValueError "Invalid API key format")
  else
    match PyStr.split "." 3 api_key with
    | [_; p1; p2; p3] =>
        Ok {| pk_project_id := p1; pk_key_id := p2; pk_secret := p3 |}
    | _ => Raise (ValueError "Invalid API key format")
    end.

(** [ParsedAPIKey.format_key] *)
Definition format_key (p : ParsedAPIKey) : string :=
  "sk-proj." +:+ pk_project_id p +:+ "." +:+ pk_key_id p +:+ "." +:+ pk_secret p.

End ParsedAPIKey.

Record APIKeyDocument := {
  key_id : string;
  project_id : string;
  owner : string;
  metadata : string;
  secret_hash : string;
  disabled : bool;
  created_at : Q;
  expires_at : option Q
}.

Record ProjectDocument := {
  proj_project_id : string;
  proj_label : string;
  proj_owner : string;
  proj_created_at : Q
}.

Record AuditEvent := {
  ev_ts : Q;
  ev_project_id : string;
  ev_key_id : string;
  ev_result : string;   (* "ok", "denied", "rate_limited" *)
  ev_client : string
}.

Record KeyMetadata := {
  km_key_id : string;
  km_owner : string;
  km_metadata : string;
  km_created_at : Q;
  km_disabled : bool;
  km_expires_at : option Q
}.

(** [a > b] on timestamps *)
Definition Qgtb (a b : Q) : bool := negb (Qle_bool a b).

(** The derived predicates of [APIKeyDocument], at a given reading of the
    clock. *)
Definition expired_at (now : Q) (d : APIKeyDocument) : bool :=
  match expires_at d with
  | None => false
  | Some e => Qgtb now e
  end.

Definition valid_at (now : Q) (d : APIKeyDocument) : bool :=
  negb (disabled d) && negb (expired_at now d).

(** ** The backing store *)

(** One command of the store. *)
Inductive Command :=
| PING
| JSON_GET (key : string)
| JSON_SET (key path : string)
| SMEMBERS (key : string)
| XADD (key : string)
| INCR (key : string)
| EXPIRE (key : string) (seconds : Z)
| HINCRBY (key field : string) (amount : Z)
| HSET (key : string)
| SADD (key member : string).

(** One round-trip on the wire: a single command, or a pipeline executed
    as one batch. *)
Inductive RoundTrip :=
| Single (c : Command)
| Pipeline (batch : list Command).

(** A RedisJSON value: a document that validates as an API key, one that
    validates as a project, or anything else (an object or not). *)
Inductive StoredJson :=
| KeyJson (d : APIKeyDocument)
| ProjectJson (p : ProjectDocument)
| OtherJson (is_object : bool).

(** The sidecar hash [apimeta:{pid}:{kid}]. *)
Record UsageMeta := {
  usage_count : Z;
  last_used : string
}.

Record World := {
  json_docs : gmap string StoredJson;
  sets : gmap string (gset string);
  hashes : gmap string UsageMeta;
  counters : gmap string Z;
  expiries : gmap string Z;
  streams : gmap string (list AuditEvent);
  wire : list RoundTrip;    (* round-trips issued so far, oldest first *)
  ticks : nat;              (* readings of the clock so far *)
  draws : nat               (* draws from the random source so far *)
}.

Definition with_json_docs (f : gmap string StoredJson -> gmap string StoredJson) (w : World) : World :=
  {| json_docs := f (json_docs w); sets := sets w; hashes := hashes w;
     counters := counters w; expiries := expiries w; streams := streams w;
     wire := wire w; ticks := ticks w; draws := draws w |}.

Definition with_sets (f : gmap string (gset string) -> gmap string (gset string)) (w : World) : World :=
  {| json_docs := json_docs w; sets := f (sets w); hashes := hashes w;
     counters := counters w; expiries := expiries w; streams := streams w;
     wire := wire w; ticks := ticks w; draws := draws w |}.

Definition with_hashes (f : gmap string UsageMeta -> gmap string UsageMeta) (w : World) : World :=
  {| json_docs := json_docs w; sets := sets w; hashes := f (hashes w);
     counters := counters w; expiries := expiries w; streams := streams w;
     wire := wire w; ticks := ticks w; draws := draws w |}.

Definition with_counters (f : gmap string Z -> gmap string Z) (w : World) : World :=
  {| json_docs := json_docs w; sets := sets w; hashes := hashes w;
     counters := f (counters w); expiries := expiries w; streams := streams w;
     wire := wire w; ticks := ticks w; draws := draws w |}.

Definition with_expiries (f : gmap string Z -> gmap string Z) (w : World) : World :=
  {| json_docs := json_docs w; sets := sets w; hashes := hashes w;
     counters := counters w; expiries := f (expiries w); streams := streams w;
     wire := wire w; ticks := ticks w; draws := draws w |}.

Definition with_streams (f : gmap string (list AuditEvent) -> gmap string (list AuditEvent)) (w : World) : World :=
  {| json_docs := json_docs w; sets := sets w; hashes := hashes w;
     counters := counters w; expiries := expiries w; streams := f (streams w);
     wire := wire w; ticks := ticks w; draws := draws w |}.

Definition sent (c : RoundTrip) (w : World) : World :=
  {| json_docs := json_docs w; sets := sets w; hashes := hashes w;
     counters := counters w; expiries := expiries w; streams := streams w;
     wire := wire w ++ [c]; ticks := ticks w; draws := draws w |}.

Definition tick (w : World) : World :=
  {| json_docs := json_docs w; sets := sets w; hashes := hashes w;
     counters := counters w; expiries := expiries w; streams := streams w;
     wire := wire w; ticks := S (ticks w); draws := draws w |}.

Definition drawn (w : World) : World :=
  {| json_docs := json_docs w; sets := sets w; hashes := hashes w;
     counters := counters w; expiries := expiries w; streams := streams w;
     wire := wire w; ticks := ticks w; draws := S (draws w) |}.

(** Reading a key that may be absent. *)
Definition usage_of (w : World) (meta_key : string) : Z :=
  match hashes w !! meta_key with
  | Some m => usage_count m
  | None => 0
  end.

Definition counter_of (w : World) (rate_key : string) : Z :=
  default 0 (counters w !! rate_key).

Definition stream_of (w : World) (stream_key : string) : list AuditEvent :=
  default [] (streams w !! stream_key).

(** ** The argon2 dependency (argon2-cffi, outside the repository)

    [argon2.PasswordHasher.verify] first looks the hash's nine-character
    header up in its table of Argon2 types and raises [InvalidHashError]
    when it is not there; it then calls the low-level [verify_secret],
    which returns, raises [VerifyMismatchError] when the secret does not
    match, and raises [VerificationError] for any other failure (a hash
    that does not decode).  The low-level primitives are parameters. *)

Inductive VerifyOutcome := Verified | Mismatch | DecodeFailure.

Record Argon2 := {
  hash_secret : string -> nat -> string;         (* secret, salt *)
  verify_secret : string -> string -> VerifyOutcome   (* hash, secret *)
}.

Module PasswordHasher.

Definition header_known (hash : string) : bool :=
  let header := String.substring 0 9 hash in
  String.eqb header "$argon2i$" || String.eqb header "$argon2d$"
  || String.eqb header "$argon2id".

Definition verify (a2 : Argon2) (hash password : string) : Result bool :=
  if negb (header_known hash) then Raise InvalidHashError
  else match verify_secret a2 hash password with
       | Verified => Ok true
       | Mismatch => Raise VerifyMismatchError
       | DecodeFailure => Raise VerificationError
       end.

End PasswordHasher.

(** ** The environment of one request *)

Record Env := {
  raises : RoundTrip -> option RedisFault;  (* which round-trips fail *)
  applied : RoundTrip -> list bool;       (* of a failed batch: which commands ran *)
  clock : nat -> Q;                       (* successive readings of now() *)
  entropy : nat -> nat;                   (* successive random draws *)
  isoformat : Q -> string;                (* datetime.isoformat() *)
  argon2 : Argon2;
  ADMIN_SECRET : option string
}.

(** ** State and exceptions *)

Definition M (A : Type) : Type := World -> Result A * World.

Definition ret {A} (a : A) : M A := fun w => (Ok a, w).

Definition raise {A} (e : Exn) : M A := fun w => (Raise e, w).

Definition bind {A B} (m : M A) (k : A -> M B) : M B :=
  fun w => match m w with
           | (Ok a, w') => k a w'
           | (Raise e, w') => (Raise e, w')
           end.

Definition lift {A} (r : Result A) : M A := fun w => (r, w).

Notation "x <- m ;; k" := (bind m (fun x => k))
  (at level 100, m at next level, right associativity).
Notation "m ;;; k" := (bind m (fun _ => k))
  (at level 100, right associativity).

(** [try: body except C1: h1 except C2: h2 ...]: the first clause whose
    class matches handles the exception. *)
Fixpoint select_handler {A} (clauses : list ((Exn -> bool) * (Exn -> M A)))
    (e : Exn) : option (M A) :=
  match clauses with
  | [] => None
  | (cls, h) :: rest => if cls e then Some (h e) else select_handler rest e
  end.

Definition try_except {A} (body : M A)
    (clauses : list ((Exn -> bool) * (Exn -> M A))) : M A :=
  fun w => match body w with
           | (Ok a, w') => (Ok a, w')
           | (Raise e, w') =>
               match select_handler clauses e with
               | Some h => h w'
               | None => (Raise e, w')
               end
           end.

(** The writes of a batch, one per command.  [apply_all] runs them in
    order; [apply_some] runs those a list of flags selects (none beyond the
    end of the flags). *)
Definition apply_all (steps : list (World -> World)) (w : World) : World :=
  fold_left (fun acc step => step acc) steps w.

Fixpoint apply_some (flags : list bool) (steps : list (World -> World)) (w : World) : World :=
  match steps, flags with
  | step :: rest, true :: flags' => apply_some flags' rest (step w)
  | _ :: rest, false :: flags' => apply_some flags' rest w
  | _, _ => w
  end.

(** ** src/security.py *)

Module Security.

Definition ascii_letters : string :=
  "abcdefghijklmnopqrstuvwxyzABCDEFGHIJKLMNOPQRSTUVWXYZ".

Definition digits : string := "0123456789".

(** [secrets.choice(chars)] *)
Definition secrets_choice (env : Env) (chars : string) : M ascii :=
  fun w =>
    let i := (entropy env (draws w) mod String.length chars)%nat in
    match PyStr.index chars i with
    | Some c => (Ok c, drawn w)
    | None => (Raise IndexError, drawn w)
    end.

(** [''.join(secrets.choice(chars) for _ in range(n))] *)
Fixpoint choices (env : Env) (chars : string) (n : nat) : M string :=
  match n with
  | O => ret ""
  | S k =>
      c <- secrets_choice env chars;;
      rest <- choices env chars k;;
      ret (String c rest)
  end.

Definition generate_key_id (env : Env) : M string :=
  random_part <- choices env (ascii_letters +:+ digits) 7;;
  ret ("k_" +:+ random_part).

Definition generate_secret (env : Env) (length : Z) : M string :=
  choices env (ascii_letters +:+ digits +:+ "-_") (Z.to_nat length).

(** [PasswordManager.hash_password]: the salt is fresh randomness. *)
Definition hash_password (env : Env) (password : string) : M string :=
  fun w => (Ok (hash_secret (argon2 env) password (entropy env (draws w))), drawn w).

(** [PasswordManager.verify_password]: only [VerifyMismatchError] is
    caught. *)
Definition verify_password (a2 : Argon2) (password hash_str : string) : Result bool :=
  match PasswordHasher.verify a2 hash_str password with
  | Ok _ => Ok true
  | Raise e => if is_VerifyMismatchError e then Ok false else Raise e
  end.

End Security.

(** ** src/redis_client.py *)

Module RedisKeyManager.

Definition _project_key (project_id : string) : string :=
  "project:" +:+ project_id.

Definition _apikey_key (project_id key_id : string) : string :=
  "apikey:" +:+ project_id +:+ ":" +:+ key_id.

Definition _apiprojectkeys_key (project_id : string) : string :=
  "apiprojectkeys:" +:+ project_id.

Definition _apimeta_key (project_id key_id : string) : string :=
  "apimeta:" +:+ project_id +:+ ":" +:+ key_id.

Definition _ratelimit_key (project_id key_id : string) (minute : Z) : string :=
  "ratelimit:key:" +:+ project_id +:+ ":" +:+ key_id +:+ ":" +:+ PyStr.of_int minute.

Definition audit_stream : string := "audit:keylookup".

Section Client.

Context (env : Env).

(** [datetime.now().timestamp()] *)
Definition datetime_now : M Q :=
  fun w => (Ok (clock env (ticks w)), tick w).

(** A round-trip of one command, or of a pipeline on one counter: it is put
    on the wire, then either fails with a [RedisError] and leaves the store
    as it was, or takes effect. *)
Definition round_trip {A} (c : RoundTrip) (effect : World -> Result A * World) : M A :=
  fun w =>
    let w1 := sent c w in
    match raises env c with
    | Some f => (Raise (RedisError f), w1)
    | None => effect w1
    end.

(** A batch of writes of different keys sent as one MULTI/EXEC pipeline.
    When [execute()] returns, every command has taken effect, in order.
    When it raises, nothing is rolled back: the commands the server ran have
    taken effect (an error reply of one command does not undo the others),
    and none has when the batch never reached the server. *)
Definition batch_trip (c : RoundTrip) (steps : list (World -> World)) : M unit :=
  fun w =>
    let w1 := sent c w in
    match raises env c with
    | Some f => (Raise (RedisError f), apply_some (applied env c) steps w1)
    | None => (Ok tt, apply_all steps w1)
    end.

Definition ping : M bool :=
  try_except (round_trip (Single PING) (fun w => (Ok true, w)))
    [(is_ConnectionError, fun _ => ret false)].

Definition client_json_get (key : string) : M (option StoredJson) :=
  round_trip (Single (JSON_GET key)) (fun w => (Ok (json_docs w !! key), w)).

(** [APIKeyDocument.model_validate] and [ProjectDocument.model_validate] *)
Definition APIKeyDocument_model_validate (data : StoredJson) : Result APIKeyDocument :=
  match data with
  | KeyJson d => Ok d
  | _ => Raise ValidationError
  end.

Definition ProjectDocument_model_validate (data : StoredJson) : Result ProjectDocument :=
  match data with
  | ProjectJson p => Ok p
  | _ => Raise ValidationError
  end.

Definition get_api_key (project_id key_id : string) : M (option APIKeyDocument) :=
  try_except
    (let key := _apikey_key project_id key_id in
     data <- client_json_get key;;
     match data with
     | None => ret None
     | Some j => d <- lift (APIKeyDocument_model_validate j);; ret (Some d)
     end)
    [(fun e => is_RedisError e || is_ValueError e, fun _ => ret None)].

(** The three writes of [store_api_key], in the order they are queued:
    [JSON.SET key $ data], [SADD project_keys key_id],
    [HSET meta_key usage_count 0 last_used ""]. *)
Definition store_writes (api_key_doc : APIKeyDocument) : list (World -> World) :=
  let key := _apikey_key (project_id api_key_doc) (key_id api_key_doc) in
  let project_keys := _apiprojectkeys_key (project_id api_key_doc) in
  let meta_key := _apimeta_key (project_id api_key_doc) (key_id api_key_doc) in
  [with_json_docs (insert key (KeyJson api_key_doc));
   (fun w => with_sets (insert project_keys
                          ({[ key_id api_key_doc ]} ∪ default ∅ (sets w !! project_keys))) w);
   with_hashes (insert meta_key {| usage_count := 0; last_used := "" |})].

Definition store_api_key (api_key_doc : APIKeyDocument) : M bool :=
  try_except
    (let key := _apikey_key (project_id api_key_doc) (key_id api_key_doc) in
     let project_keys := _apiprojectkeys_key (project_id api_key_doc) in
     let meta_key := _apimeta_key (project_id api_key_doc) (key_id api_key_doc) in
     batch_trip
       (Pipeline [JSON_SET key "$"; SADD project_keys (key_id api_key_doc); HSET meta_key])
       (store_writes api_key_doc);;;
     ret true)
    [(is_RedisError, fun _ => ret false)].

Definition disable (d : APIKeyDocument) : APIKeyDocument :=
  {| key_id := key_id d; project_id := project_id d; owner := owner d;
     metadata := metadata d; secret_hash := secret_hash d; disabled := true;
     created_at := created_at d; expires_at := expires_at d |}.

(** [JSON.SET key $.disabled true]: an error on a key that does not exist,
    a new member on an object that has none, nothing on a non-object. *)
Definition client_json_set_disabled (key : string) : M (option bool) :=
  round_trip (Single (JSON_SET key "$.disabled"))
    (fun w =>
       match json_docs w !! key with
       | None => (Raise (RedisError ResponseFault), w)
       | Some (KeyJson d) =>
           (Ok (Some true), with_json_docs (insert key (KeyJson (disable d))) w)
       | Some (ProjectJson _) =>
           (Ok (Some true), with_json_docs (insert key (OtherJson true)) w)
       | Some (OtherJson true) => (Ok (Some true), w)
       | Some (OtherJson false) => (Ok None, w)
       end).

Definition revoke_api_key (project_id key_id : string) : M bool :=
  try_except
    (let key := _apikey_key project_id key_id in
     result <- client_json_set_disabled key;;
     ret (bool_decide (is_Some result)))
    [(is_RedisError, fun _ => ret false)].

(** The loop of [list_project_keys]: documents that cannot be fetched are
    skipped. *)
Fixpoint fetch_docs (project_id : string) (key_ids : list string) : M (list APIKeyDocument) :=
  match key_ids with
  | [] => ret []
  | key_id :: rest =>
      api_key_doc <- get_api_key project_id key_id;;
      keys <- fetch_docs project_id rest;;
      ret (match api_key_doc with
           | Some d => d :: keys
           | None => keys
           end)
  end.

Definition client_smembers (key : string) : M (list string) :=
  round_trip (Single (SMEMBERS key))
    (fun w => (Ok (elements (default ∅ (sets w !! key))), w)).

Definition list_project_keys (project_id : string) (offset limit : Z) : M (list APIKeyDocument) :=
  try_except
    (let project_keys := _apiprojectkeys_key project_id in
     key_ids <- client_smembers project_keys;;
     let paginated_key_ids := PyStr.slice key_ids offset (offset + limit) in
     fetch_docs project_id paginated_key_ids)
    [(is_RedisError, fun _ => ret [])].

Definition get_project (project_id : string) : M (option ProjectDocument) :=
  try_except
    (let key := _project_key project_id in
     data <- client_json_get key;;
     match data with
     | None => ret None
     | Some j => p <- lift (ProjectDocument_model_validate j);; ret (Some p)
     end)
    [(fun e => is_RedisError e || is_ValueError e, fun _ => ret None)].

Definition store_project (project_doc : ProjectDocument) : M bool :=
  try_except
    (let key := _project_key (proj_project_id project_doc) in
     round_trip (Single (JSON_SET key "$"))
       (fun w => (Ok tt, with_json_docs (insert key (ProjectJson project_doc)) w));;;
     ret true)
    [(is_RedisError, fun _ => ret false)].

(** [AuditEvent(project_id=..., key_id=..., result=...)]: [ts] defaults to
    the clock at construction, [client] to ["keymanager"]. *)
Definition AuditEvent_new (project_id key_id result : string) : M AuditEvent :=
  now <- datetime_now;;
  ret {| ev_ts := now; ev_project_id := project_id; ev_key_id := key_id;
         ev_result := result; ev_client := "keymanager" |}.

Definition log_audit_event (event : AuditEvent) : M bool :=
  try_except
    (round_trip (Single (XADD audit_stream))
       (fun w =>
          (Ok tt,
           with_streams (insert audit_stream (stream_of w audit_stream ++ [event])%list) w));;;
     ret true)
    [(is_RedisError, fun _ => ret false)].

Definition check_rate_limit (project_id key_id : string) (limit_per_minute : Z) : M bool :=
  try_except
    (now <- datetime_now;;
     let current_minute := Qfloor (now / inject_Z 60) in
     let rate_key := _ratelimit_key project_id key_id current_minute in
     current_count <-
       round_trip (Pipeline [INCR rate_key; EXPIRE rate_key 120])
         (fun w =>
            let n := counter_of w rate_key + 1 in
            (Ok n,
             with_expiries (insert rate_key 120)
               (with_counters (insert rate_key n) w)));;
     ret (current_count <=? limit_per_minute))
    [(is_RedisError, fun _ => ret true)].

(** The default of [limit_per_minute]. *)
Definition default_limit_per_minute : Z := 100.

Definition update_key_usage (project_id key_id : string) : M unit :=
  try_except
    (let meta_key := _apimeta_key project_id key_id in
     now <- datetime_now;;
     let current_time := isoformat env now in
     round_trip (Pipeline [HINCRBY meta_key "usage_count" 1; HSET meta_key])
       (fun w =>
          (Ok tt,
           with_hashes
             (insert meta_key
                {| usage_count := usage_of w meta_key + 1; last_used := current_time |})
             w)))
    [(is_RedisError, fun _ => ret tt)].

(** [APIKeyDocument.is_expired] and [is_valid]; [and] evaluates its second
    operand only when the first is true. *)
Definition is_expired (d : APIKeyDocument) : M bool :=
  match expires_at d with
  | None => ret false
  | Some e => now <- datetime_now;; ret (Qgtb now e)
  end.

Definition is_valid (d : APIKeyDocument) : M bool :=
  if negb (disabled d) then
    e <- is_expired d;; ret (negb e)
  else ret false.

(** Log one audit event with the given result and return [None]. *)
Definition deny (parsed_key : ParsedAPIKey) (result : string) : M (option APIKeyDocument) :=
  ev <- AuditEvent_new (pk_project_id parsed_key) (pk_key_id parsed_key) result;;
  log_audit_event ev;;;
  ret None.

Definition validate_api_key (api_key : string) : M (option APIKeyDocument) :=
  try_except
    (parsed_key <- lift (ParsedAPIKey.parse api_key);;
     api_key_doc <- get_api_key (pk_project_id parsed_key) (pk_key_id parsed_key);;
     match api_key_doc with
     | None => deny parsed_key "denied"
     | Some doc =>
         valid <- is_valid doc;;
         if negb valid then deny parsed_key "denied"
         else
           verified <- lift (Security.verify_password (argon2 env)
                               (pk_secret parsed_key) (secret_hash doc));;
           if negb verified then deny parsed_key "denied"
           else
             allowed <- check_rate_limit (pk_project_id parsed_key)
                          (pk_key_id parsed_key) default_limit_per_minute;;
             if negb allowed then deny parsed_key "rate_limited"
             else
               ev <- AuditEvent_new (pk_project_id parsed_key)
                       (pk_key_id parsed_key) "ok";;
               log_audit_event ev;;;
               update_key_usage (pk_project_id parsed_key) (pk_key_id parsed_key);;;
               ret (Some doc)
     end)
    [(is_ValueError, fun _ => ret None);
     (is_Exception, fun _ => ret None)].

End Client.

End RedisKeyManager.

(** ** src/main.py *)

(** A JSON payload. *)
#[local] Unset Elimination Schemes.
Inductive Json :=
| JNull
| JBool (b : bool)
| JInt (z : Z)
| JNum (q : Q)
| JStr (s : string)
| JArr (items : list Json)
| JObj (members : list (string * Json)).
#[local] Set Elimination Schemes.

(** Does an object with a member called [name] occur anywhere in [j]? *)
Fixpoint mentions (name : string) (j : Json) : bool :=
  match j with
  | JArr items => existsb (mentions name) items
  | JObj members =>
      existsb (fun kv => let '(k, v) := kv in String.eqb k name || mentions name v)
        members
  | _ => false
  end.

(** The member names of an object, and the value of one of them. *)
Definition member_names (j : Json) : list string :=
  match j with
  | JObj members => map fst members
  | _ => []
  end.

Fixpoint assoc (name : string) (members : list (string * Json)) : option Json :=
  match members with
  | [] => None
  | (k, v) :: rest => if String.eqb k name then Some v else assoc name rest
  end.

Definition member (name : string) (j : Json) : option Json :=
  match j with
  | JObj members => assoc name members
  | _ => None
  end.

Definition optional {A} (f : A -> Json) (o : option A) : Json :=
  match o with
  | Some a => f a
  | None => JNull
  end.

Record Response := {
  status_code : Z;
  content : Json
}.

Module Main.

(** [ErrorResponse(error=ErrorDetail(code, message)).model_dump()] inside a
    [JSONResponse]. *)
Definition create_error_response (code message : string) (status : Z) : Response :=
  {| status_code := status;
     content := JObj [("error", JObj [("code", JStr code); ("message", JStr message)])] |}.

(** A model returned from a handler is serialised with status 200. *)
Definition ok_response (body : Json) : Response :=
  {| status_code := 200; content := body |}.

Definition ValidateKeyResponse (project_id key_id owner metadata : string) : Json :=
  JObj [("project_id", JStr project_id); ("key_id", JStr key_id);
        ("owner", JStr owner); ("metadata", JStr metadata)].

Definition MintKeyResponse (api_key : string) : Json :=
  JObj [("api_key", JStr api_key)].

Definition RevokeKeyResponse (revoked : bool) : Json :=
  JObj [("revoked", JBool revoked)].

Definition KeyMetadata_dump (m : KeyMetadata) : Json :=
  JObj [("key_id", JStr (km_key_id m)); ("owner", JStr (km_owner m));
        ("metadata", JStr (km_metadata m)); ("created_at", JNum (km_created_at m));
        ("disabled", JBool (km_disabled m));
        ("expires_at", optional JNum (km_expires_at m))].

Definition ListKeysResponse (items : list KeyMetadata) (next : option string) : Json :=
  JObj [("items", JArr (map KeyMetadata_dump items)); ("next", optional JStr next)].

Definition ProjectDocument_dump (p : ProjectDocument) : Json :=
  JObj [("project_id", JStr (proj_project_id p)); ("label", JStr (proj_label p));
        ("owner", JStr (proj_owner p)); ("created_at", JNum (proj_created_at p))].

(** What the framework answers for an [HTTPException] raised by a handler or
    a dependency, and for any other exception that escapes. *)
Definition exception_response (e : Exn) : Response :=
  match e with
  | HTTPException status detail =>
      {| status_code := status; content := JObj [("detail", JStr detail)] |}
  | _ => {| status_code := 500; content := JStr "Internal Server Error" |}
  end.

(** What the framework answers when a query parameter violates its declared
    bounds. *)
Definition query_error_response (param : string) (input : Z) : Response :=
  {| status_code := 422;
     content := JObj [("detail",
                  JArr [JObj [("loc", JArr [JStr "query"; JStr param]);
                              ("input", JStr (PyStr.of_int input))]])] |}.

(** What the framework answers when a request does not validate against
    the declared body model or parameters (a missing or ill-typed field):
    a 422 whose detail lists, for each issue, its kind, its location, a
    message, and the offending part of the client's own input. *)
Record ValidationIssue := {
  issue_type : string;
  issue_loc : list string;
  issue_msg : string;
  issue_input : Json
}.

Definition issue_dump (i : ValidationIssue) : Json :=
  JObj [("type", JStr (issue_type i)); ("loc", JArr (map JStr (issue_loc i)));
        ("msg", JStr (issue_msg i)); ("input", issue_input i)].

Definition validation_error_response (issues : list ValidationIssue) : Response :=
  {| status_code := 422; content := JObj [("detail", JArr (map issue_dump issues))] |}.

Definition internal_error : Response :=
  create_error_response "internal_error" "Internal server error" 500.

Section App.

Context (env : Env).

(** [not ADMIN_SECRET]: unset or empty. *)
Definition admin_secret_missing : bool :=
  match ADMIN_SECRET env with
  | None => true
  | Some s => String.eqb s ""
  end.

(** [verify_admin_auth]; [credentials] is the bearer token of the request,
    when it has one. *)
Definition verify_admin_auth (credentials : option string) : Result bool :=
  if admin_secret_missing then
    Raise (HTTPException 503 "Admin endpoints are disabled (ADMIN_SECRET not configured)")
  else
    match credentials with
    | None => Raise (HTTPException 401 "Missing authorization header")
    | Some token =>
        if negb (bool_decide (Some token = ADMIN_SECRET env)) then
          Raise (HTTPException 401 "Invalid admin credentials")
        else Ok true
    end.

(** [Depends(verify_admin_auth)] in front of a handler. *)
Definition admin_only (credentials : option string) (handler : M Response) : M Response :=
  match verify_admin_auth credentials with
  | Ok _ => handler
  | Raise e => ret (exception_response e)
  end.

Definition health_check : M Response :=
  fun w =>
    match RedisKeyManager.ping env w with
    | (Ok true, w') =>
        let '(now, w'') := (clock env (ticks w'), tick w') in
        (Ok (ok_response (JObj [("status", JStr "healthy");
                                ("timestamp", JStr (isoformat env now))])), w'')
    | (Ok false, w') =>
        (Ok (exception_response (HTTPException 503 "Redis connection failed")), w')
    | (Raise e, w') => (Ok (exception_response e), w')
    end.

Definition validate_key (api_key : string) : M Response :=
  try_except
    (api_key_doc <- RedisKeyManager.validate_api_key env api_key;;
     match api_key_doc with
     | None =>
         ret (create_error_response "invalid_key" "Invalid or expired API key" 401)
     | Some doc =>
         ret (ok_response (ValidateKeyResponse (project_id doc) (key_id doc)
                             (owner doc) (metadata doc)))
     end)
    [(is_Exception, fun _ => ret internal_error)].

Record MintKeyRequest := {
  mint_project_id : string;
  mint_owner : string;
  mint_metadata : string;
  mint_expires_at : option Q
}.

Definition mint_key (request : MintKeyRequest) : M Response :=
  try_except
    (key_id <- Security.generate_key_id env;;
     secret <- Security.generate_secret env 32;;
     secret_hash <- Security.hash_password env secret;;
     current_time <- RedisKeyManager.datetime_now env;;
     let api_key_doc :=
       {| key_id := key_id; project_id := mint_project_id request;
          owner := mint_owner request; metadata := mint_metadata request;
          secret_hash := secret_hash; disabled := false;
          created_at := current_time; expires_at := mint_expires_at request |} in
     stored <- RedisKeyManager.store_api_key env api_key_doc;;
     if negb stored then
       ret (create_error_response "storage_error" "Failed to store API key" 500)
     else
       let parsed_key :=
         {| pk_project_id := mint_project_id request; pk_key_id := key_id;
            pk_secret := secret |} in
       let api_key := ParsedAPIKey.format_key parsed_key in
       ret (ok_response (MintKeyResponse api_key)))
    [(is_Exception, fun _ => ret internal_error)].

Definition revoke_key (project_id key_id : string) : M Response :=
  try_except
    (api_key_doc <- RedisKeyManager.get_api_key env project_id key_id;;
     match api_key_doc with
     | None => ret (create_error_response "key_not_found" "API key not found" 404)
     | Some _ =>
         revoked <- RedisKeyManager.revoke_api_key env project_id key_id;;
         if negb revoked then
           ret (create_error_response "revocation_error" "Failed to revoke API key" 500)
         else ret (ok_response (RevokeKeyResponse true))
     end)
    [(is_Exception, fun _ => ret internal_error)].

(** The metadata view of a document. *)
Definition to_metadata (doc : APIKeyDocument) : KeyMetadata :=
  {| km_key_id := key_id doc; km_owner := owner doc; km_metadata := metadata doc;
     km_created_at := created_at doc; km_disabled := disabled doc;
     km_expires_at := expires_at doc |}.

Definition list_keys (project_id : string) (offset limit : Z) : M Response :=
  try_except
    (api_key_docs <- RedisKeyManager.list_project_keys env project_id offset limit;;
     let items := map to_metadata api_key_docs in
     let next_token :=
       if Z.of_nat (length items) =? limit then Some (PyStr.of_int (offset + limit))
       else None in
     ret (ok_response (ListKeysResponse items next_token)))
    [(is_Exception, fun _ => ret internal_error)].

(** The route [GET /v1/list-keys]: the admin gate, then the declared bounds
    [offset >= 0] and [1 <= limit <= 100], then the handler. *)
Definition list_keys_route (credentials : option string) (project_id : string)
    (offset limit : Z) : M Response :=
  admin_only credentials
    (if offset <? 0 then ret (query_error_response "offset" offset)
     else if (limit <? 1) || (100 <? limit) then ret (query_error_response "limit" limit)
     else list_keys project_id offset limit).

Definition create_project (project_id label owner : string) : M Response :=
  try_except
    (existing_project <- RedisKeyManager.get_project env project_id;;
     match existing_project with
     | Some _ => ret (create_error_response "project_exists" "Project already exists" 409)
     | None =>
         current_time <- RedisKeyManager.datetime_now env;;
         let project_doc :=
           {| proj_project_id := project_id; proj_label := label;
              proj_owner := owner; proj_created_at := current_time |} in
         stored <- RedisKeyManager.store_project env project_doc;;
         if negb stored then
           ret (create_error_response "storage_error" "Failed to create project" 500)
         else
           ret (ok_response (JObj [("project_id", JStr project_id);
                                   ("created", JBool true)]))
     end)
    [(is_Exception, fun _ => ret internal_error)].

Definition get_project (project_id : string) : M Response :=
  try_except
    (project_doc <- RedisKeyManager.get_project env project_id;;
     match project_doc with
     | None => ret (create_error_response "project_not_found" "Project not found" 404)
     | Some p => ret (ok_response (ProjectDocument_dump p))
     end)
    [(is_Exception, fun _ => ret internal_error)].

(** The requests the service answers: those that reach a handler, with
    their decoded arguments, and those the framework turns away in request
    validation, with the issues it found in them. *)
Inductive Request :=
| Unprocessable (issues : list ValidationIssue)
| GetHealth
| PostValidateKey (api_key : string)
| PostMintKey (credentials : option string) (request : MintKeyRequest)
| PostRevokeKey (credentials : option string) (project_id key_id : string)
| GetListKeys (credentials : option string) (project_id : string) (offset limit : Z)
| PostCreateProject (credentials : option string) (project_id label owner : string)
| GetProject (credentials : option string) (project_id : string).

Definition serve (r : Request) : M Response :=
  match r with
  | Unprocessable issues => ret (validation_error_response issues)
  | GetHealth => health_check
  | PostValidateKey api_key => validate_key api_key
  | PostMintKey c request => admin_only c (mint_key request)
  | PostRevokeKey c project_id key_id => admin_only c (revoke_key project_id key_id)
  | GetListKeys c project_id offset limit => list_keys_route c project_id offset limit
  | PostCreateProject c project_id label owner =>
      admin_only c (create_project project_id label owner)
  | GetProject c project_id => admin_only c (get_project project_id)
  end.

End App.

End Main.

(** ** The validation state machine as the specification words it

    From a credential that parsed: lookup, liveness, secret verification,
    rate gate.  [fetched] is what the lookup yields, [now] the clock at the
    liveness check, [verified] and [allowed] the answers of the hash
    verification and of the rate gate. *)

Module Spec.

Inductive Outcome := Accepted | Denied | RateLimited.

Definition outcome (fetched : option APIKeyDocument) (now : Q)
    (verified allowed : bool) : Outcome :=
  match fetched with
  | None => Denied
  | Some d =>
      if negb (valid_at now d) then Denied
      else if negb verified then Denied
      else if negb allowed then RateLimited
      else Accepted
  end.

(** The [result] field of the audit event for an outcome. *)
Definition audit_result (o : Outcome) : string :=
  match o with
  | Accepted => "ok"
  | Denied => "denied"
  | RateLimited => "rate_limited"
  end.

End Spec.

(** What the lookup of a validate yields in a given world: a failed
    round-trip and a document that does not validate both count as absent. *)
Definition fetched (env : Env) (w : World) (project_id key_id : string) : option APIKeyDocument :=
  match raises env (Single (JSON_GET (RedisKeyManager._apikey_key project_id key_id))) with
  | Some _ => None
  | None =>
      match json_docs w !! RedisKeyManager._apikey_key project_id key_id with
      | Some (KeyJson d) => Some d
      | _ => None
      end
  end.

(** The clock reading at which the rate gate of a validate computes its
    minute: the liveness check reads the clock once when the document is
    enabled and has an expiry, and not at all otherwise. *)
Definition gate_tick (w : World) (d : APIKeyDocument) : nat :=
  match expires_at d with
  | Some _ => S (ticks w)
  | None => ticks w
  end.

Definition gate_key (env : Env) (w : World) (d : APIKeyDocument) (p : ParsedAPIKey) : string :=
  RedisKeyManager._ratelimit_key (pk_project_id p) (pk_key_id p)
    (Qfloor (clock env (gate_tick w d) / inject_Z 60)).

Definition rate_pipeline (rate_key : string) : RoundTrip :=
  Pipeline [INCR rate_key; EXPIRE rate_key 120].

Definition usage_pipeline (meta_key : string) : RoundTrip :=
  Pipeline [HINCRBY meta_key "usage_count" 1; HSET meta_key].

(** The answer of the rate gate of a validate. *)
Definition gate_allows (env : Env) (w : World) (d : APIKeyDocument) (p : ParsedAPIKey) : bool :=
  match raises env (rate_pipeline (gate_key env w d p)) with
  | Some _ => true
  | None => counter_of w (gate_key env w d p) + 1 <=? 100
  end.

(** ** The run of a validate, step by step

    The worlds a validate passes through, written out: these are what the
    monadic code computes once its exception handlers are resolved
    (lemma [validate_api_key_run]). *)

Definition audit_trip : RoundTrip := Single (XADD RedisKeyManager.audit_stream).

Definition fetch_trip (p : ParsedAPIKey) : RoundTrip :=
  Single (JSON_GET (RedisKeyManager._apikey_key (pk_project_id p) (pk_key_id p))).

(** After [log_audit_event]. *)
Definition after_audit (env : Env) (ev : AuditEvent) (w : World) : World :=
  match raises env audit_trip with
  | Some _ => sent audit_trip w
  | None =>
      with_streams
        (insert RedisKeyManager.audit_stream
           (stream_of w RedisKeyManager.audit_stream ++ [ev])%list)
        (sent audit_trip w)
  end.

(** The event a validate builds in world [w]. *)
Definition event_at (env : Env) (p : ParsedAPIKey) (result : string) (w : World) : AuditEvent :=
  {| ev_ts := clock env (ticks w); ev_project_id := pk_project_id p;
     ev_key_id := pk_key_id p; ev_result := result; ev_client := "keymanager" |}.

(** After building an event and logging it. *)
Definition after_event (env : Env) (p : ParsedAPIKey) (result : string) (w : World) : World :=
  after_audit env (event_at env p result w) (tick w).

(** After [is_valid]. *)
Definition after_liveness (d : APIKeyDocument) (w : World) : World :=
  if disabled d then w
  else match expires_at d with
       | Some _ => tick w
       | None => w
       end.

(** The rate key [check_rate_limit] computes in world [w], its answer and
    the world after it. *)
Definition rate_key_at (env : Env) (project_id key_id : string) (w : World) : string :=
  RedisKeyManager._ratelimit_key project_id key_id
    (Qfloor (clock env (ticks w) / inject_Z 60)).

Definition allows_at (env : Env) (project_id key_id : string) (limit : Z) (w : World) : bool :=
  match raises env (rate_pipeline (rate_key_at env project_id key_id w)) with
  | Some _ => true
  | None => counter_of w (rate_key_at env project_id key_id w) + 1 <=? limit
  end.

Definition after_gate (env : Env) (project_id key_id : string) (w : World) : World :=
  let rate_key := rate_key_at env project_id key_id w in
  match raises env (rate_pipeline rate_key) with
  | Some _ => sent (rate_pipeline rate_key) (tick w)
  | None =>
      with_expiries (insert rate_key 120)
        (with_counters (insert rate_key (counter_of w rate_key + 1))
           (sent (rate_pipeline rate_key) (tick w)))
  end.

(** After [update_key_usage]. *)
Definition after_usage (env : Env) (project_id key_id : string) (w : World) : World :=
  let meta_key := RedisKeyManager._apimeta_key project_id key_id in
  match raises env (usage_pipeline meta_key) with
  | Some _ => sent (usage_pipeline meta_key) (tick w)
  | None =>
      with_hashes
        (insert meta_key
           {| usage_count := usage_of w meta_key + 1;
              last_used := isoformat env (clock env (ticks w)) |})
        (sent (usage_pipeline meta_key) (tick w))
  end.

(** The whole run, for a credential that parsed to [p]. *)
Definition validate_run (env : Env) (p : ParsedAPIKey) (w : World)
    : option APIKeyDocument * World :=
  let w1 := sent (fetch_trip p) w in
  match fetched env w (pk_project_id p) (pk_key_id p) with
  | None => (None, after_event env p "denied" w1)
  | Some d =>
      let w2 := after_liveness d w1 in
      if negb (valid_at (clock env (ticks w)) d) then
        (None, after_event env p "denied" w2)
      else
        match Security.verify_password (argon2 env) (pk_secret p) (secret_hash d) with
        | Raise _ => (None, w2)
        | Ok false => (None, after_event env p "denied" w2)
        | Ok true =>
            let w3 := after_gate env (pk_project_id p) (pk_key_id p) w2 in
            if negb (allows_at env (pk_project_id p) (pk_key_id p) 100 w2) then
              (None, after_event env p "rate_limited" w3)
            else
              (Some d,
               after_usage env (pk_project_id p) (pk_key_id p)
                 (after_event env p "ok" w3))
        end
  end.

(** The two answers of [validate_key] that are not [internal_error]. *)
Definition invalid_key_response : Response :=
  Main.create_error_response "invalid_key" "Invalid or expired API key" 401.

Definition validate_response (r : option APIKeyDocument) : Response :=
  match r with
  | None => invalid_key_response
  | Some doc =>
      Main.ok_response
        (Main.ValidateKeyResponse (project_id doc) (key_id doc) (owner doc) (metadata doc))
  end.

(** Round-trips that append to a stream. *)
Definition is_xadd (c : RoundTrip) : bool :=
  match c with
  | Single (XADD _) => true
  | _ => false
  end.

(** The outcome of a validate of the parsed credential [p] in world [w],
    by the state machine of the specification; [None] when the hash
    verification raises instead of answering. *)
Definition verdict (env : Env) (p : ParsedAPIKey) (w : World) : option Spec.Outcome :=
  let now := clock env (ticks w) in
  match fetched env w (pk_project_id p) (pk_key_id p) with
  | None => Some Spec.Denied
  | Some d =>
      if negb (valid_at now d) then Some Spec.Denied
      else
        match Security.verify_password (argon2 env) (pk_secret p) (secret_hash d) with
        | Raise _ => None
        | Ok verified =>
            Some (Spec.outcome (Some d) now verified (gate_allows env w d p))
        end
  end.

(** The pipeline [store_api_key] sends. *)
Definition store_trip (pid kid : string) : RoundTrip :=
  Pipeline [JSON_SET (RedisKeyManager._apikey_key pid kid) "$";
            SADD (RedisKeyManager._apiprojectkeys_key pid) kid;
            HSET (RedisKeyManager._apimeta_key pid kid)].

(** The key ids of a project, in the order the store iterates them. *)
Definition key_ids_of (w : World) (project_id : string) : gset string :=
  default ∅ (sets w !! RedisKeyManager._apiprojectkeys_key project_id).

(** The documents [list_project_keys] returns: none when the set cannot be
    read; otherwise those of the slice that can be fetched. *)
Definition listed (env : Env) (w : World) (project_id : string) (offset limit : Z)
    : list APIKeyDocument :=
  match raises env (Single (SMEMBERS (RedisKeyManager._apiprojectkeys_key project_id))) with
  | Some _ => []
  | None =>
      omap (fetched env w project_id)
        (PyStr.slice (elements (key_ids_of w project_id)) offset (offset + limit))
  end.

(** The pagination cursor of [list_keys] for a page of [n] items. *)
Definition cursor (n : nat) (offset limit : Z) : option string :=
  if Z.of_nat n =? limit then Some (PyStr.of_int (offset + limit)) else None.

(** The same environment with another hasher. *)
Definition with_argon2 (a2 : Argon2) (env : Env) : Env :=
  {| raises := raises env; applied := applied env; clock := clock env;
     entropy := entropy env; isoformat := isoformat env; argon2 := a2;
     ADMIN_SECRET := ADMIN_SECRET env |}.

(** A request that reaches a route: its answer is composed by the service,
    not echoed from the client's input. *)
Definition reaches_a_route (r : Main.Request) : Prop :=
  match r with
  | Main.Unprocessable _ => False
  | _ => True
  end.

(** A response in which no object has a member called [secret_hash]. *)
Definition clean (resp : Response) : Prop :=
  mentions "secret_hash" (content resp) = false.

(** The store with every stored secret hash rewritten by [h]. *)
Definition rehash_doc (h : string -> string) (d : APIKeyDocument) : APIKeyDocument :=
  {| key_id := key_id d; project_id := project_id d; owner := owner d;
     metadata := metadata d; secret_hash := h (secret_hash d);
     disabled := disabled d; created_at := created_at d;
     expires_at := expires_at d |}.

Definition rehash_json (h : string -> string) (j : StoredJson) : StoredJson :=
  match j with
  | KeyJson d => KeyJson (rehash_doc h d)
  | _ => j
  end.

Definition rehash (h : string -> string) (w : World) : World :=
  with_json_docs (fmap (rehash_json h)) w.

(** What holds of the value of a computation whenever it returns one. *)
Definition post {A} (m : M A) (P : A -> Prop) : Prop :=
  forall w a w', m w = (Ok a, w') -> P a.

(** What [get_project] of the store adapter yields in a given world. *)
Definition fetched_project (env : Env) (w : World) (project_id : string) : option ProjectDocument :=
  match raises env (Single (JSON_GET (RedisKeyManager._project_key project_id))) with
  | Some _ => None
  | None =>
      match json_docs w !! RedisKeyManager._project_key project_id with
      | Some (ProjectJson p) => Some p
      | _ => None
      end
  end.

(** The alphabets of [generate_key_id] and [generate_secret]. *)
Definition key_id_alphabet : string := Security.ascii_letters +:+ Security.digits.

Definition secret_alphabet : string :=
  Security.ascii_letters +:+ Security.digits +:+ "-_".

(** A request that passes the admin gate. *)
Definition authorized (env : Env) (credentials : option string) : Prop :=
  exists s, ADMIN_SECRET env = Some s /\ s <> "" /\ credentials = Some s.

(** ** Concrete environments and stores *)

Module Demo.

(** A stand-in for Argon2: the encoded hash is the header followed by the
    secret. *)
Definition toy_argon2 : Argon2 :=
  {| hash_secret := fun secret _ => "$argon2id$" +:+ secret;
     verify_secret := fun hash secret =>
       if String.eqb hash ("$argon2id$" +:+ secret) then Verified else Mismatch |}.

Definition no_faults : RoundTrip -> option RedisFault := fun _ => None.

Definition env_with (faults : RoundTrip -> option RedisFault) : Env :=
  {| raises := faults;
     applied := fun _ => [];
     clock := fun _ => inject_Z 1000;
     entropy := fun n => n;
     isoformat := fun _ => "1970-01-01T00:16:40";
     argon2 := toy_argon2;
     ADMIN_SECRET := Some "admin" |}.

Definition empty_world : World :=
  {| json_docs := ∅; sets := ∅; hashes := ∅; counters := ∅; expiries := ∅;
     streams := ∅; wire := []; ticks := 0; draws := 0 |}.

Definition alice_doc (is_disabled : bool) (expiry : option Q) : APIKeyDocument :=
  {| key_id := "k1"; project_id := "p1"; owner := "alice"; metadata := "srv-a";
     secret_hash := "$argon2id$s3cret"; disabled := is_disabled;
     created_at := inject_Z 900; expires_at := expiry |}.

(** A store holding one key of project [p1]. *)
Definition one_key_world (d : APIKeyDocument) : World :=
  {| json_docs := {[ "apikey:p1:k1" := KeyJson d ]};
     sets := {[ "apiprojectkeys:p1" := {[ "k1" ]} ]};
     hashes := {[ "apimeta:p1:k1" := {| usage_count := 0; last_used := "" |} ]};
     counters := ∅; expiries := ∅; streams := ∅; wire := []; ticks := 0; draws := 0 |}.

Definition alice_key : string := "sk-proj.p1.k1.s3cret".

(** Fault oracles: the document fetch, the audit append, or the usage
    update fails. *)
Definition fetch_fails : RoundTrip -> option RedisFault :=
  fun c => match c with
           | Single (JSON_GET _) => Some ConnectionFault
           | _ => None
           end.

Definition audit_fails : RoundTrip -> option RedisFault :=
  fun c => match c with
           | Single (XADD _) => Some ConnectionFault
           | _ => None
           end.

Definition usage_fails : RoundTrip -> option RedisFault :=
  fun c => match c with
           | Pipeline (HINCRBY _ _ _ :: _) => Some ConnectionFault
           | _ => None
           end.

End Demo.

(** * Properties *)

(** ** Strings *)

Lemma append_nil (b : string) : "" +:+ b = b.
Proof. reflexivity. Qed.

Lemma append_cons (c : ascii) (a b : string) :
  String c a +:+ b = String c (a +:+ b).
Proof. reflexivity. Qed.

Lemma startswith_app (p s : string) :
  PyStr.startswith s p = true -> exists r, s = p +:+ r.
Proof.
  revert s. induction p as [|c p IH]; intros s H.
  - exists s. reflexivity.
  - destruct s as [|d s]; simpl in H; [discriminate|].
    apply andb_prop in H. destruct H as [E H]. apply Ascii.eqb_eq in E. subst d.
    destruct (IH _ H) as [r ->]. exists r. reflexivity.
Qed.

Lemma partition_some (sep : ascii) (s a b : string) :
  PyStr.partition sep s = Some (a, b) -> s = a +:+ String sep b.
Proof.
  revert a. induction s as [|c s IH]; intros a H; simpl in H; [discriminate|].
  destruct (Ascii.eqb c sep) eqn:E.
  - apply Ascii.eqb_eq in E. injection H as <- <-. subst. reflexivity.
  - destruct (PyStr.partition sep s) as [[a' b']|]; [|discriminate].
    injection H as <- <-. rewrite append_cons. f_equal. exact (IH a' eq_refl).
Qed.

Lemma partition_app (sep : ascii) (a b : string) :
  PyStr.count sep a = O ->
  PyStr.partition sep (a +:+ String sep b) = Some (a, b).
Proof.
  induction a as [|c a IH]; intros H.
  - rewrite append_nil. simpl. rewrite Ascii.eqb_refl. reflexivity.
  - rewrite append_cons. simpl in *.
    destruct (Ascii.eqb c sep); [discriminate|].
    rewrite IH by exact H. reflexivity.
Qed.

Lemma partition_count (sep : ascii) (s : string) :
  (1 <= PyStr.count sep s)%nat ->
  exists a b, PyStr.partition sep s = Some (a, b)
              /\ S (PyStr.count sep b) = PyStr.count sep s.
Proof.
  induction s as [|c s IH]; simpl; intros H; [lia|].
  destruct (Ascii.eqb c sep).
  - eexists _, _. split; reflexivity.
  - destruct (IH H) as (a & b & -> & Hc). eexists _, _. split; [reflexivity|exact Hc].
Qed.

Lemma count_app (sep : ascii) (a b : string) :
  PyStr.count sep (a +:+ b) = (PyStr.count sep a + PyStr.count sep b)%nat.
Proof.
  induction a as [|c a IH]; [reflexivity|].
  rewrite append_cons. simpl. rewrite IH. lia.
Qed.

Lemma contains_false (c : ascii) (s : string) :
  PyStr.contains c s = false <-> PyStr.count c s = O.
Proof.
  unfold PyStr.contains. destruct (PyStr.count c s); simpl; split; congruence.
Qed.

Lemma index_lt (s : string) (i : nat) :
  (i < String.length s)%nat -> exists c, PyStr.index s i = Some c.
Proof.
  revert i. induction s as [|d s IH]; simpl; intros i H; [lia|].
  destruct i; [eauto|]. apply IH. lia.
Qed.

Lemma index_count (sep : ascii) (s : string) (i : nat) (c : ascii) :
  PyStr.count sep s = O -> PyStr.index s i = Some c -> c <> sep.
Proof.
  revert i. induction s as [|d s IH]; simpl; intros i H Hi; [discriminate|].
  destruct (Ascii.eqb d sep) eqn:E; [discriminate|].
  destruct i.
  - injection Hi as <-. apply Ascii.eqb_neq. exact E.
  - eapply IH; eauto.
Qed.

(** ** The credential codec *)

Example parse_ok :
  ParsedAPIKey.parse "sk-proj.p1.k_abc.s.e.c" =
  Ok {| pk_project_id := "p1"; pk_key_id := "k_abc"; pk_secret := "s.e.c" |}.
Proof. reflexivity. Qed.

Example parse_short : ParsedAPIKey.parse "sk-proj.p1.k_abc" =
  Raise (ValueError "Invalid API key format").
Proof. reflexivity. Qed.

Lemma partition_prefix (r : string) :
  PyStr.partition "." ("sk-proj." +:+ r) = Some ("sk-proj", r).
Proof. reflexivity. Qed.

Lemma startswith_prefix (r : string) :
  PyStr.startswith ("sk-proj." +:+ r) "sk-proj." = true.
Proof. reflexivity. Qed.

Lemma partition_dot (a b : string) :
  PyStr.count "." a = O -> PyStr.partition "." (a +:+ "." +:+ b) = Some (a, b).
Proof. exact (partition_app "." a b). Qed.

Lemma format_key_eq (p : ParsedAPIKey) :
  ParsedAPIKey.format_key p =
  "sk-proj." +:+ (pk_project_id p +:+ "." +:+ pk_key_id p +:+ "." +:+ pk_secret p).
Proof. reflexivity. Qed.

(** Parsing what [format_key] wrote gives the components back as long as
    the project id and the key id hold no dot. *)
Lemma parse_format (p : ParsedAPIKey) :
  PyStr.count "." (pk_project_id p) = O ->
  PyStr.count "." (pk_key_id p) = O ->
  ParsedAPIKey.parse (ParsedAPIKey.format_key p) = Ok p.
Proof.
  intros Hp Hk. destruct p as [pid kid sec]; simpl in Hp, Hk.
  unfold ParsedAPIKey.parse. rewrite format_key_eq, startswith_prefix.
  cbn [negb pk_project_id pk_key_id pk_secret].
  unfold PyStr.split. rewrite partition_prefix.
  rewrite (partition_dot pid _ Hp), (partition_dot kid _ Hk). reflexivity.
Qed.

(** Formatting what [parse] accepted gives the string back. *)
Lemma format_parse (s : string) (p : ParsedAPIKey) :
  ParsedAPIKey.parse s = Ok p -> ParsedAPIKey.format_key p = s.
Proof.
  unfold ParsedAPIKey.parse. intros H.
  destruct (PyStr.startswith s "sk-proj.") eqn:Hs; [|discriminate].
  apply startswith_app in Hs. destruct Hs as [r ->].
  cbn [negb] in H. unfold PyStr.split in H. rewrite partition_prefix in H.
  destruct (PyStr.partition "." r) as [[a b]|] eqn:Hr; [|discriminate].
  destruct (PyStr.partition "." b) as [[c d]|] eqn:Hb; [|discriminate].
  injection H as <-. rewrite format_key_eq. cbn [pk_project_id pk_key_id pk_secret].
  apply partition_some in Hr, Hb. subst r b. reflexivity.
Qed.

(** A remainder with two dots or more always parses. *)
Lemma parse_two_dots (r : string) :
  (2 <= PyStr.count "." r)%nat ->
  exists p, ParsedAPIKey.parse ("sk-proj." +:+ r) = Ok p.
Proof.
  intros H. unfold ParsedAPIKey.parse. rewrite startswith_prefix. cbn [negb].
  unfold PyStr.split. rewrite partition_prefix.
  destruct (partition_count "." r) as (a & b & -> & Hb); [lia|].
  destruct (partition_count "." b) as (c & d & -> & _); [lia|].
  eexists. reflexivity.
Qed.

(** ** Random identifiers *)

Section Generators.

Context (env : Env).

Lemma secrets_choice_run (chars : string) (w : World) :
  (0 < String.length chars)%nat ->
  exists c, Security.secrets_choice env chars w = (Ok c, drawn w)
            /\ forall sep, PyStr.count sep chars = O -> c <> sep.
Proof.
  intros Hlen. unfold Security.secrets_choice.
  destruct (index_lt chars (entropy env (draws w) mod String.length chars)) as [c Hc].
  { apply Nat.mod_upper_bound. lia. }
  rewrite Hc. exists c. split; [reflexivity|].
  intros sep Hsep. exact (index_count sep _ _ _ Hsep Hc).
Qed.

Lemma choices_run (chars : string) (n : nat) (w : World) :
  (0 < String.length chars)%nat ->
  exists s, Security.choices env chars n w = (Ok s, Nat.iter n drawn w)
            /\ String.length s = n
            /\ forall sep, PyStr.count sep chars = O -> PyStr.count sep s = O.
Proof.
  intros Hlen. revert w. induction n as [|n IH]; intros w.
  - exists "". repeat split.
  - destruct (secrets_choice_run chars w Hlen) as (c & Hc & Hsep).
    destruct (IH (drawn w)) as (s & Hs & Hl & Hcount).
    exists (String c s). split; [|split].
    + cbn [Security.choices]. unfold bind. rewrite Hc, Hs. unfold ret.
      f_equal. rewrite Nat.iter_succ_r. reflexivity.
    + simpl. f_equal. exact Hl.
    + intros sep H0. simpl. rewrite (Hcount sep H0).
      destruct (Ascii.eqb c sep) eqn:E; [|reflexivity].
      apply Ascii.eqb_eq in E. destruct (Hsep sep H0 E).
Qed.

(** [generate_key_id] returns ["k_"] and seven characters, none a dot. *)
Lemma generate_key_id_run (w : World) :
  exists s, Security.generate_key_id env w = (Ok ("k_" +:+ s), Nat.iter 7 drawn w)
            /\ String.length s = 7%nat /\ PyStr.count "." ("k_" +:+ s) = O.
Proof.
  destruct (choices_run (Security.ascii_letters +:+ Security.digits) 7 w) as (s & Hs & Hl & Hc).
  { vm_compute. lia. }
  exists s. split; [|split].
  - unfold Security.generate_key_id, bind. rewrite Hs. reflexivity.
  - exact Hl.
  - rewrite count_app, (Hc "."%char); reflexivity.
Qed.

(** [generate_secret(n)] returns [n] characters. *)
Lemma generate_secret_run (n : Z) (w : World) :
  exists s, Security.generate_secret env n w = (Ok s, Nat.iter (Z.to_nat n) drawn w)
            /\ String.length s = Z.to_nat n.
Proof.
  destruct (choices_run (Security.ascii_letters +:+ Security.digits +:+ "-_")
              (Z.to_nat n) w) as (s & Hs & Hl & _).
  { vm_compute. lia. }
  exists s. split; [exact Hs|exact Hl].
Qed.

End Generators.

(** ** The store adapter, operation by operation *)

Section Runs.

Context (env : Env).

Lemma get_api_key_run (pid kid : string) (w : World) :
  RedisKeyManager.get_api_key env pid kid w =
  (Ok (fetched env w pid kid),
   sent (Single (JSON_GET (RedisKeyManager._apikey_key pid kid))) w).
Proof.
  unfold RedisKeyManager.get_api_key, fetched, try_except, bind,
    RedisKeyManager.client_json_get, RedisKeyManager.round_trip, lift, ret.
  destruct (raises env _); [reflexivity|].
  cbn [json_docs sent].
  destruct (json_docs w !! _) as [[d|q|b]|]; reflexivity.
Qed.

Lemma log_audit_event_run (ev : AuditEvent) (w : World) :
  RedisKeyManager.log_audit_event env ev w =
  (Ok (bool_decide (raises env audit_trip = None)), after_audit env ev w).
Proof.
  unfold RedisKeyManager.log_audit_event, after_audit, try_except, bind,
    RedisKeyManager.round_trip, ret, audit_trip.
  destruct (raises env _); reflexivity.
Qed.

Lemma deny_run (p : ParsedAPIKey) (result : string) (w : World) :
  RedisKeyManager.deny env p result w = (Ok None, after_event env p result w).
Proof.
  unfold RedisKeyManager.deny, bind, RedisKeyManager.AuditEvent_new,
    RedisKeyManager.datetime_now, bind, ret.
  rewrite log_audit_event_run. reflexivity.
Qed.

Lemma is_expired_run (d : APIKeyDocument) (w : World) :
  RedisKeyManager.is_expired env d w =
  (Ok (expired_at (clock env (ticks w)) d),
   match expires_at d with Some _ => tick w | None => w end).
Proof.
  unfold RedisKeyManager.is_expired, expired_at.
  destruct (expires_at d); reflexivity.
Qed.

Lemma is_valid_run (d : APIKeyDocument) (w : World) :
  RedisKeyManager.is_valid env d w =
  (Ok (valid_at (clock env (ticks w)) d), after_liveness d w).
Proof.
  unfold RedisKeyManager.is_valid, valid_at, after_liveness.
  destruct (disabled d); cbn [negb andb]; [reflexivity|].
  unfold bind. rewrite is_expired_run. reflexivity.
Qed.

Lemma check_rate_limit_run (pid kid : string) (limit : Z) (w : World) :
  RedisKeyManager.check_rate_limit env pid kid limit w =
  (Ok (allows_at env pid kid limit w), after_gate env pid kid w).
Proof.
  unfold RedisKeyManager.check_rate_limit, allows_at, after_gate, rate_key_at,
    try_except, bind, RedisKeyManager.datetime_now, RedisKeyManager.round_trip,
    ret, rate_pipeline.
  destruct (raises env _); reflexivity.
Qed.

Lemma update_key_usage_run (pid kid : string) (w : World) :
  RedisKeyManager.update_key_usage env pid kid w = (Ok tt, after_usage env pid kid w).
Proof.
  unfold RedisKeyManager.update_key_usage, after_usage, try_except, bind,
    RedisKeyManager.datetime_now, RedisKeyManager.round_trip, ret, usage_pipeline.
  destruct (raises env _); reflexivity.
Qed.

(** A credential that does not parse: nothing is sent, nothing changes. *)
Lemma validate_api_key_malformed (api_key : string) (e : Exn) (w : World) :
  ParsedAPIKey.parse api_key = Raise e ->
  RedisKeyManager.validate_api_key env api_key w = (Ok None, w).
Proof.
  intros H. unfold RedisKeyManager.validate_api_key, try_except, bind, lift.
  rewrite H. cbn [select_handler].
  destruct (is_ValueError e); reflexivity.
Qed.

(** A credential that parses: the code computes [validate_run]. *)
Lemma validate_api_key_run (api_key : string) (p : ParsedAPIKey) (w : World) :
  ParsedAPIKey.parse api_key = Ok p ->
  RedisKeyManager.validate_api_key env api_key w =
  (Ok (fst (validate_run env p w)), snd (validate_run env p w)).
Proof.
  intros H. unfold RedisKeyManager.validate_api_key, validate_run, try_except.
  unfold bind at 1. unfold lift. rewrite H.
  unfold bind at 1. rewrite get_api_key_run. fold (fetch_trip p).
  destruct (fetched env w (pk_project_id p) (pk_key_id p)) as [d|].
  2:{ rewrite deny_run. reflexivity. }
  unfold bind at 1. rewrite is_valid_run. cbn [ticks sent].
  destruct (valid_at (clock env (ticks w)) d); cbn [negb].
  2:{ rewrite deny_run. reflexivity. }
  unfold bind at 1.
  destruct (Security.verify_password (argon2 env) (pk_secret p) (secret_hash d))
    as [[|]|e].
  - cbn [negb]. unfold bind at 1. rewrite check_rate_limit_run.
    unfold RedisKeyManager.default_limit_per_minute.
    destruct (allows_at env (pk_project_id p) (pk_key_id p) 100 _); cbn [negb].
    + unfold bind at 1. unfold RedisKeyManager.AuditEvent_new, bind at 1,
        RedisKeyManager.datetime_now, ret.
      unfold bind at 1. rewrite log_audit_event_run.
      unfold bind at 1. rewrite update_key_usage_run. reflexivity.
    + rewrite deny_run. reflexivity.
  - cbn [negb]. rewrite deny_run. reflexivity.
  - cbn [select_handler]. destruct (is_ValueError e); reflexivity.
Qed.

End Runs.

(** ** The validate endpoint *)

Section Validate.

Context (env : Env).

Lemma validate_key_malformed (api_key : string) (e : Exn) (w : World) :
  ParsedAPIKey.parse api_key = Raise e ->
  Main.validate_key env api_key w = (Ok invalid_key_response, w).
Proof.
  intros H. unfold Main.validate_key, try_except, bind.
  rewrite (validate_api_key_malformed env _ _ _ H). reflexivity.
Qed.

Lemma validate_key_run (api_key : string) (p : ParsedAPIKey) (w : World) :
  ParsedAPIKey.parse api_key = Ok p ->
  Main.validate_key env api_key w =
  (Ok (validate_response (fst (validate_run env p w))), snd (validate_run env p w)).
Proof.
  intros H. unfold Main.validate_key, try_except, bind.
  rewrite (validate_api_key_run env _ _ _ H).
  destruct (fst (validate_run env p w)); reflexivity.
Qed.

(** [validate_key] answers 200 or 401 [invalid_key]; its own
    [internal_error] branch is never taken. *)
Lemma validate_key_total (api_key : string) (w : World) :
  exists r w', Main.validate_key env api_key w = (Ok (validate_response r), w').
Proof.
  destruct (ParsedAPIKey.parse api_key) as [p|e] eqn:H.
  - eexists _, _. apply validate_key_run. exact H.
  - exists None, w. eapply validate_key_malformed. exact H.
Qed.

Lemma validate_run_dead (p : ParsedAPIKey) (d : APIKeyDocument) (w : World) :
  json_docs w !! RedisKeyManager._apikey_key (pk_project_id p) (pk_key_id p)
    = Some (KeyJson d) ->
  valid_at (clock env (ticks w)) d = false ->
  fst (validate_run env p w) = None.
Proof.
  intros Hdoc Hdead. unfold validate_run, fetched. rewrite Hdoc.
  destruct (raises env _); [reflexivity|]. rewrite Hdead. reflexivity.
Qed.

Lemma validate_run_fetch_failed (p : ParsedAPIKey) (f : RedisFault) (w : World) :
  raises env (fetch_trip p) = Some f ->
  validate_run env p w =
  (None, after_event env p "denied" (sent (fetch_trip p) w)).
Proof.
  intros Hf. unfold validate_run, fetched. unfold fetch_trip in Hf. rewrite Hf.
  reflexivity.
Qed.

End Validate.

Lemma expired_at_iff (now : Q) (d : APIKeyDocument) :
  expired_at now d = true <-> exists e, expires_at d = Some e /\ (e < now)%Q.
Proof.
  unfold expired_at, Qgtb. destruct (expires_at d) as [e|].
  - rewrite negb_true_iff. split.
    + intros H. exists e. split; [reflexivity|].
      apply Qnot_le_lt. intros Hle. apply Qle_bool_iff in Hle. congruence.
    + intros (e' & [= <-] & Hlt). destruct (Qle_bool now e) eqn:E; [|reflexivity].
      apply Qle_bool_iff in E. destruct (Qlt_not_le _ _ Hlt E).
  - split; [discriminate|]. intros (e & He & _). discriminate.
Qed.

(** C1. An API key is expired iff it has an expiry and the clock is past
    it, and valid iff it is neither disabled nor expired; this is what
    [is_expired] and [is_valid] compute.  A validate of a credential whose
    stored document is disabled or expired answers [invalid_key] (401),
    whatever the presented secret and whatever the hasher says about it. *)
Theorem dead_key_is_invalid_key :
  (forall (env : Env) (d : APIKeyDocument) (w : World),
      let now := clock env (ticks w) in
      fst (RedisKeyManager.is_expired env d w) = Ok (expired_at now d)
      /\ fst (RedisKeyManager.is_valid env d w) = Ok (valid_at now d)
      /\ (expired_at now d = true <-> exists e, expires_at d = Some e /\ (e < now)%Q)
      /\ (valid_at now d = true <-> disabled d = false /\ expired_at now d = false))
  /\ (forall (env : Env) (api_key : string) (p : ParsedAPIKey)
             (d : APIKeyDocument) (w : World),
         ParsedAPIKey.parse api_key = Ok p ->
         json_docs w !! RedisKeyManager._apikey_key (pk_project_id p) (pk_key_id p)
           = Some (KeyJson d) ->
         disabled d = true \/ expired_at (clock env (ticks w)) d = true ->
         fst (Main.validate_key env api_key w) = Ok invalid_key_response).
Proof.
  split.
  - intros env d w now. repeat split.
    + rewrite is_expired_run. reflexivity.
    + rewrite is_valid_run. reflexivity.
    + apply expired_at_iff.
    + apply expired_at_iff.
    + unfold valid_at in H. apply andb_prop in H. destruct H as [H _].
      apply negb_true_iff. exact H.
    + unfold valid_at in H. apply andb_prop in H. destruct H as [_ H].
      apply negb_true_iff. exact H.
    + intros [Hd He]. unfold valid_at. rewrite Hd, He. reflexivity.
  - intros env api_key p d w Hparse Hdoc Hdead.
    rewrite (validate_key_run env _ _ _ Hparse). cbn [fst].
    rewrite (validate_run_dead env p d w Hdoc); [reflexivity|].
    unfold valid_at. destruct Hdead as [-> | ->]; [reflexivity|].
    apply andb_false_r.
Qed.

(** The revoked key of Alice is rejected although the secret is right. *)
Lemma dead_key_is_invalid_key_witness :
  fst (Main.validate_key (Demo.env_with Demo.no_faults) Demo.alice_key
         (Demo.one_key_world (Demo.alice_doc true None)))
  = Ok invalid_key_response.
Proof.
  apply (proj2 dead_key_is_invalid_key (Demo.env_with Demo.no_faults) Demo.alice_key
           {| pk_project_id := "p1"; pk_key_id := "k1"; pk_secret := "s3cret" |}
           (Demo.alice_doc true None)).
  - reflexivity.
  - reflexivity.
  - left. reflexivity.
Defined.

(** ** What each step of a validate leaves in the store *)

Section Footprint.

Context (env : Env).

Lemma hashes_after_audit ev w : hashes (after_audit env ev w) = hashes w.
Proof. unfold after_audit. destruct (raises env _); reflexivity. Qed.

Lemma hashes_after_event p r w : hashes (after_event env p r w) = hashes w.
Proof. unfold after_event. rewrite hashes_after_audit. reflexivity. Qed.

Lemma hashes_after_liveness d w : hashes (after_liveness d w) = hashes w.
Proof. unfold after_liveness. destruct (disabled d), (expires_at d); reflexivity. Qed.

Lemma hashes_after_gate pid kid w : hashes (after_gate env pid kid w) = hashes w.
Proof. unfold after_gate. destruct (raises env _); reflexivity. Qed.

Lemma wire_after_event p r w : wire (after_event env p r w) = (wire w ++ [audit_trip])%list.
Proof. unfold after_event, after_audit. destruct (raises env _); reflexivity. Qed.

Lemma wire_after_liveness d w : wire (after_liveness d w) = wire w.
Proof. unfold after_liveness. destruct (disabled d), (expires_at d); reflexivity. Qed.

Lemma wire_after_gate pid kid w :
  wire (after_gate env pid kid w)
  = (wire w ++ [rate_pipeline (rate_key_at env pid kid w)])%list.
Proof. unfold after_gate. destruct (raises env _); reflexivity. Qed.

Lemma wire_after_usage pid kid w :
  wire (after_usage env pid kid w)
  = (wire w ++ [usage_pipeline (RedisKeyManager._apimeta_key pid kid)])%list.
Proof. unfold after_usage. destruct (raises env _); reflexivity. Qed.

Lemma streams_after_liveness d w : streams (after_liveness d w) = streams w.
Proof. unfold after_liveness. destruct (disabled d), (expires_at d); reflexivity. Qed.

Lemma ticks_after_liveness d w :
  disabled d = false -> ticks (after_liveness d w) = gate_tick w d.
Proof.
  intros Hd. unfold after_liveness, gate_tick. rewrite Hd.
  destruct (expires_at d); reflexivity.
Qed.

Lemma counters_after_liveness d w : counters (after_liveness d w) = counters w.
Proof. unfold after_liveness. destruct (disabled d), (expires_at d); reflexivity. Qed.

Lemma streams_after_gate pid kid w : streams (after_gate env pid kid w) = streams w.
Proof. unfold after_gate. destruct (raises env _); reflexivity. Qed.

Lemma streams_after_usage pid kid w : streams (after_usage env pid kid w) = streams w.
Proof. unfold after_usage. destruct (raises env _); reflexivity. Qed.

Lemma stream_of_streams w1 w2 k : streams w1 = streams w2 -> stream_of w1 k = stream_of w2 k.
Proof. unfold stream_of. intros ->. reflexivity. Qed.

(** The audit stream after an event: one more entry when the append goes
    through, the same entries when it fails. *)
Lemma stream_after_event p r w :
  stream_of (after_event env p r w) RedisKeyManager.audit_stream
  = match raises env audit_trip with
    | None => (stream_of w RedisKeyManager.audit_stream ++ [event_at env p r w])%list
    | Some _ => stream_of w RedisKeyManager.audit_stream
    end.
Proof.
  unfold after_event, after_audit. destruct (raises env audit_trip); [reflexivity|].
  unfold stream_of at 1. cbn [streams with_streams]. rewrite lookup_insert_eq.
  reflexivity.
Qed.

(** The rate gate of a validate, seen from the world the validate started
    in. *)
Lemma allows_at_gate (p : ParsedAPIKey) (d : APIKeyDocument) (w : World) (c : RoundTrip) :
  valid_at (clock env (ticks w)) d = true ->
  allows_at env (pk_project_id p) (pk_key_id p) 100 (after_liveness d (sent c w))
  = gate_allows env w d p.
Proof.
  intros Hv. unfold valid_at in Hv. apply andb_prop in Hv. destruct Hv as [Hd _].
  apply negb_true_iff in Hd.
  unfold allows_at, gate_allows, gate_key, rate_key_at, counter_of.
  rewrite counters_after_liveness, (ticks_after_liveness d _ Hd). reflexivity.
Qed.

End Footprint.


(** ** Store failures during the lookup *)

(** C3, as the code has it.  When the document fetch of a validate fails,
    [get_api_key] swallows the error and answers "absent": the validate
    sends the fetch and one [denied] audit append and answers
    [invalid_key] (401).  No validate ever answers [internal_error]. *)
Theorem fetch_failure_is_invalid_key (env : Env) (api_key : string)
    (p : ParsedAPIKey) (f : RedisFault) (w : World) :
  ParsedAPIKey.parse api_key = Ok p ->
  raises env (fetch_trip p) = Some f ->
  let r := Main.validate_key env api_key w in
  fst r = Ok invalid_key_response
  /\ fst r <> Ok Main.internal_error
  /\ wire (snd r) = (wire w ++ [fetch_trip p; audit_trip])%list
  /\ (raises env audit_trip = None ->
      stream_of (snd r) RedisKeyManager.audit_stream
      = (stream_of w RedisKeyManager.audit_stream
           ++ [event_at env p "denied" w])%list)
  /\ (forall (api_key' : string) (w0 : World),
        exists resp, fst (Main.validate_key env api_key' w0) = Ok resp
                     /\ (status_code resp = 200 \/ resp = invalid_key_response)).
Proof.
  intros Hparse Hfail r. subst r.
  rewrite (validate_key_run env _ _ _ Hparse).
  rewrite (validate_run_fetch_failed env p f w Hfail). cbn [fst snd validate_response].
  split; [reflexivity|]. split; [discriminate|]. split.
  - rewrite wire_after_event. cbn [wire sent]. rewrite <- app_assoc. reflexivity.
  - split.
    + intros Hx. rewrite stream_after_event, Hx. reflexivity.
    + intros api_key' w0.
      destruct (validate_key_total env api_key' w0) as (o & w' & ->).
      exists (validate_response o). split; [reflexivity|].
      destruct o; [left|right]; reflexivity.
Qed.

Lemma fetch_failure_is_invalid_key_witness :
  fst (Main.validate_key (Demo.env_with Demo.fetch_fails) Demo.alice_key
         (Demo.one_key_world (Demo.alice_doc false None)))
  = Ok invalid_key_response.
Proof.
  apply (fetch_failure_is_invalid_key (Demo.env_with Demo.fetch_fails) Demo.alice_key
           {| pk_project_id := "p1"; pk_key_id := "k1"; pk_secret := "s3cret" |}
           ConnectionFault
           (Demo.one_key_world (Demo.alice_doc false None)));
    reflexivity.
Defined.

(** Against the specification as worded: the store is unreachable for the fetch, the
    credential parses, the stored key is live and the secret right, and the
    answer is 401 [invalid_key], not 500 [internal_error]. *)
Lemma fetch_failure_not_internal_error :
  let env := Demo.env_with Demo.fetch_fails in
  let w := Demo.one_key_world (Demo.alice_doc false None) in
  ParsedAPIKey.parse Demo.alice_key
    = Ok {| pk_project_id := "p1"; pk_key_id := "k1"; pk_secret := "s3cret" |}
  /\ raises env (Single (JSON_GET "apikey:p1:k1")) = Some ConnectionFault
  /\ fst (Main.validate_key env Demo.alice_key w)
     = Ok {| status_code := 401;
             content := JObj [("error", JObj [("code", JStr "invalid_key");
                                              ("message", JStr "Invalid or expired API key")])] |}
  /\ fst (Main.validate_key env Demo.alice_key w) <> Ok Main.internal_error.
Proof. repeat split. discriminate. Qed.

(** ** The rate gate *)



(** ** Usage counters *)

Section Usage.

Context (env : Env).

Lemma usage_after_usage_ok (pid kid : string) (w : World) :
  raises env (usage_pipeline (RedisKeyManager._apimeta_key pid kid)) = None ->
  usage_of (after_usage env pid kid w) (RedisKeyManager._apimeta_key pid kid)
  = usage_of w (RedisKeyManager._apimeta_key pid kid) + 1
  /\ forall k, k <> RedisKeyManager._apimeta_key pid kid ->
               hashes (after_usage env pid kid w) !! k = hashes w !! k.
Proof.
  intros Hok. unfold after_usage. rewrite Hok. split.
  - unfold usage_of at 1. cbn [hashes with_hashes]. rewrite lookup_insert_eq.
    reflexivity.
  - intros k Hk. cbn [hashes with_hashes sent tick].
    rewrite lookup_insert_ne by congruence. reflexivity.
Qed.

Lemma hashes_after_usage_failed (pid kid : string) (w : World) :
  raises env (usage_pipeline (RedisKeyManager._apimeta_key pid kid)) <> None ->
  hashes (after_usage env pid kid w) = hashes w.
Proof.
  intros Hf. unfold after_usage. destruct (raises env _); [reflexivity|congruence].
Qed.

(** A validate that is not accepted leaves every usage record alone. *)
Lemma validate_run_rejected (p : ParsedAPIKey) (w : World) :
  fst (validate_run env p w) = None ->
  hashes (snd (validate_run env p w)) = hashes w.
Proof.
  unfold validate_run.
  destruct (fetched env w _ _) as [d|]; cbn [fst snd].
  2:{ intros _. rewrite hashes_after_event. reflexivity. }
  destruct (valid_at _ d); cbn [negb fst snd].
  2:{ intros _. rewrite hashes_after_event, hashes_after_liveness. reflexivity. }
  destruct (Security.verify_password _ _ _) as [[|]|e]; cbn [fst snd].
  - destruct (allows_at _ _ _ _ _); cbn [negb fst snd]; [discriminate|].
    intros _. rewrite hashes_after_event, hashes_after_gate, hashes_after_liveness.
    reflexivity.
  - intros _. rewrite hashes_after_event, hashes_after_liveness. reflexivity.
  - intros _. rewrite hashes_after_liveness. reflexivity.
Qed.

(** A validate that is accepted ends with the usage update. *)
Lemma validate_run_accepted (p : ParsedAPIKey) (d : APIKeyDocument) (w : World) :
  fst (validate_run env p w) = Some d ->
  exists w3, hashes w3 = hashes w
             /\ snd (validate_run env p w)
                = after_usage env (pk_project_id p) (pk_key_id p) w3.
Proof.
  unfold validate_run.
  destruct (fetched env w _ _) as [d'|]; cbn [fst snd]; [|discriminate].
  destruct (valid_at _ d'); cbn [negb fst snd]; [|discriminate].
  destruct (Security.verify_password _ _ _) as [[|]|e]; cbn [fst snd];
    [|discriminate|discriminate].
  destruct (allows_at _ _ _ _ _); cbn [negb fst snd]; [|discriminate].
  intros _. eexists. split; [|reflexivity].
  rewrite hashes_after_event, hashes_after_gate, hashes_after_liveness. reflexivity.
Qed.

Lemma usage_of_hashes (w1 w2 : World) (k : string) :
  hashes w1 = hashes w2 -> usage_of w1 k = usage_of w2 k.
Proof. unfold usage_of. intros ->. reflexivity. Qed.

End Usage.

Lemma validate_response_200 (r : option APIKeyDocument) :
  status_code (validate_response r) = 200 <-> exists d, r = Some d.
Proof.
  destruct r as [d|]; cbn.
  - split; [eauto|reflexivity].
  - split; [discriminate|]. intros [d H]. discriminate.
Qed.

(** C6, as the code has it.  Every validate answers.  When it answers 200,
    the credential parsed and the usage update of its key was sent: if that
    pipeline goes through, [usage_count] of the key is one higher and no
    other usage record changes; if it fails, the failure is swallowed and no
    usage record changes.  When it answers anything else, no usage record
    changes. *)
Theorem usage_count_follows_success (env : Env) (api_key : string) (w : World) :
  exists resp w',
    Main.validate_key env api_key w = (Ok resp, w')
    /\ (status_code resp = 200 ->
        exists p, ParsedAPIKey.parse api_key = Ok p
          /\ let meta_key :=
               RedisKeyManager._apimeta_key (pk_project_id p) (pk_key_id p) in
             (raises env (usage_pipeline meta_key) = None ->
              usage_of w' meta_key = usage_of w meta_key + 1
              /\ forall k, k <> meta_key -> hashes w' !! k = hashes w !! k)
             /\ (raises env (usage_pipeline meta_key) <> None ->
                 hashes w' = hashes w))
    /\ (status_code resp <> 200 -> hashes w' = hashes w).
Proof.
  destruct (ParsedAPIKey.parse api_key) as [p|e] eqn:Hparse.
  - eexists _, _. split; [apply validate_key_run; exact Hparse|].
    destruct (fst (validate_run env p w)) as [d|] eqn:Hr.
    + destruct (validate_run_accepted env p d w Hr) as (w3 & Hw3 & ->).
      split; [|intros H; destruct H; reflexivity].
      intros _. exists p. split; [reflexivity|]. cbn zeta. split.
      * intros Hok.
        destruct (usage_after_usage_ok env (pk_project_id p) (pk_key_id p) w3 Hok)
          as [Hu Hk].
        split.
        -- rewrite Hu. f_equal. apply usage_of_hashes. exact Hw3.
        -- intros k Hne. rewrite (Hk k Hne), Hw3. reflexivity.
      * intros Hf. rewrite hashes_after_usage_failed by exact Hf. exact Hw3.
    + split; [discriminate|]. intros _. apply validate_run_rejected. exact Hr.
  - exists invalid_key_response, w. split; [eapply validate_key_malformed; exact Hparse|].
    split; [discriminate|reflexivity].
Qed.

(** Alice's key is accepted and its usage count goes from 0 to 1; with the
    wrong secret it stays at 0. *)
Lemma usage_count_follows_success_witness :
  let env := Demo.env_with Demo.no_faults in
  let w := Demo.one_key_world (Demo.alice_doc false None) in
  usage_of w "apimeta:p1:k1" = 0
  /\ usage_of (snd (Main.validate_key env Demo.alice_key w)) "apimeta:p1:k1" = 1
  /\ usage_of (snd (Main.validate_key env "sk-proj.p1.k1.wrong" w)) "apimeta:p1:k1" = 0.
Proof.
  intros env w. split; [reflexivity|]. split.
  - destruct (usage_count_follows_success env Demo.alice_key w)
      as (resp & w' & Hrun & H200 & _).
    rewrite Hrun. cbn [snd].
    assert (Hst : status_code resp = 200).
    { assert (Hf : fst (Main.validate_key env Demo.alice_key w) = Ok resp)
        by (rewrite Hrun; reflexivity).
      vm_compute in Hf. injection Hf as <-. reflexivity. }
    destruct (H200 Hst) as (p & Hp & Hok & _).
    vm_compute in Hp. injection Hp as <-.
    destruct (Hok eq_refl) as [Hu _]. exact Hu.
  - destruct (usage_count_follows_success env "sk-proj.p1.k1.wrong" w)
      as (resp & w' & Hrun & _ & Hrej).
    rewrite Hrun. cbn [snd].
    assert (Hst : status_code resp <> 200).
    { assert (Hf : fst (Main.validate_key env "sk-proj.p1.k1.wrong" w) = Ok resp)
        by (rewrite Hrun; reflexivity).
      vm_compute in Hf. injection Hf as <-. discriminate. }
    rewrite (usage_of_hashes w' w _ (Hrej Hst)). reflexivity.
Defined.

(** Against the specification as worded: the usage update of an accepted validate
    fails in the store, the answer is still 200, and [usage_count] has not
    moved. *)
Lemma accepted_without_usage_update :
  let env := Demo.env_with Demo.usage_fails in
  let w := Demo.one_key_world (Demo.alice_doc false None) in
  let r := Main.validate_key env Demo.alice_key w in
  fst r = Ok {| status_code := 200;
                content := JObj [("project_id", JStr "p1"); ("key_id", JStr "k1");
                                 ("owner", JStr "alice"); ("metadata", JStr "srv-a")] |}
  /\ usage_of w "apimeta:p1:k1" = 0
  /\ usage_of (snd r) "apimeta:p1:k1" = 0.
Proof. repeat split. Qed.

(** ** Audit events *)

Section Audit.

Context (env : Env).

(** Where a validate with a verdict logs its event: in a world [w0] reached
    without any stream append, after which no stream append follows. *)
Lemma validate_run_audit (p : ParsedAPIKey) (o : Spec.Outcome) (w : World) :
  verdict env p w = Some o ->
  exists w0 before after,
    wire w0 = (wire w ++ before)%list
    /\ streams w0 = streams w
    /\ filter is_xadd before = []
    /\ filter is_xadd after = []
    /\ wire (snd (validate_run env p w))
       = (wire (after_event env p (Spec.audit_result o) w0) ++ after)%list
    /\ streams (snd (validate_run env p w))
       = streams (after_event env p (Spec.audit_result o) w0)
    /\ (is_Some (fst (validate_run env p w)) <-> o = Spec.Accepted).
Proof.
  unfold verdict, validate_run. intros Hv.
  destruct (fetched env w _ _) as [d|].
  2:{ injection Hv as <-. exists (sent (fetch_trip p) w), [fetch_trip p], [].
      cbn [fst snd]. rewrite app_nil_r. repeat split; try discriminate.
      intros H. destruct H as [x H]. discriminate. }
  destruct (valid_at (clock env (ticks w)) d) eqn:Hvalid; cbn [negb] in Hv |- *.
  2:{ injection Hv as <-.
      exists (after_liveness d (sent (fetch_trip p) w)), [fetch_trip p], [].
      cbn [fst snd]. rewrite app_nil_r, wire_after_liveness, streams_after_liveness.
      repeat split; try discriminate.
      intros H. destruct H as [x H]. discriminate. }
  destruct (Security.verify_password _ _ _) as [[|]|e]; [| |discriminate].
  - injection Hv as <-. unfold Spec.outcome. rewrite Hvalid. cbn [negb].
    rewrite (allows_at_gate env p d w (fetch_trip p) Hvalid).
    set (w2 := after_liveness d (sent (fetch_trip p) w)).
    destruct (gate_allows env w d p); cbn [negb fst snd].
    + exists (after_gate env (pk_project_id p) (pk_key_id p) w2),
        [fetch_trip p; rate_pipeline (rate_key_at env (pk_project_id p) (pk_key_id p) w2)],
        [usage_pipeline (RedisKeyManager._apimeta_key (pk_project_id p) (pk_key_id p))].
      rewrite wire_after_gate, streams_after_gate, wire_after_usage, streams_after_usage.
      subst w2. rewrite wire_after_liveness, streams_after_liveness. cbn [wire sent streams].
      rewrite <- app_assoc. repeat split; eauto.
    + exists (after_gate env (pk_project_id p) (pk_key_id p) w2),
        [fetch_trip p; rate_pipeline (rate_key_at env (pk_project_id p) (pk_key_id p) w2)],
        [].
      rewrite wire_after_gate, streams_after_gate, app_nil_r.
      subst w2. rewrite wire_after_liveness, streams_after_liveness. cbn [wire sent streams].
      rewrite <- app_assoc. repeat split; try discriminate.
      intros H. destruct H as [x H]. discriminate.
  - injection Hv as <-. unfold Spec.outcome. rewrite Hvalid. cbn [negb fst snd].
    exists (after_liveness d (sent (fetch_trip p) w)), [fetch_trip p], [].
    rewrite app_nil_r, wire_after_liveness, streams_after_liveness.
    repeat split; try discriminate.
    intros H. destruct H as [x H]. discriminate.
Qed.

End Audit.

(** C7, as the code has it.  A credential that does not parse leaves the
    world as it was: nothing is sent, no event is appended.  For a
    credential that parses and a validate that reaches a verdict (the hash
    verification answers instead of raising), exactly one append to
    [audit:keylookup] is sent; its event names the project and the key and
    carries [ok], [denied] or [rate_limited] after the verdict, and the
    answer is 200 exactly for [ok].  The event is in the stream, once, when
    the append goes through, and the stream is as it was when the append
    fails. *)
Theorem one_audit_append_per_verdict (env : Env) (api_key : string) (w : World) :
  let r := Main.validate_key env api_key w in
  (forall e, ParsedAPIKey.parse api_key = Raise e -> snd r = w)
  /\ (forall p o,
        ParsedAPIKey.parse api_key = Ok p ->
        verdict env p w = Some o ->
        exists before after ev resp,
          wire (snd r) = (wire w ++ before ++ [audit_trip] ++ after)%list
          /\ filter is_xadd before = [] /\ filter is_xadd after = []
          /\ ev_project_id ev = pk_project_id p
          /\ ev_key_id ev = pk_key_id p
          /\ ev_result ev = Spec.audit_result o
          /\ fst r = Ok resp
          /\ (status_code resp = 200 <-> o = Spec.Accepted)
          /\ (raises env audit_trip = None ->
              stream_of (snd r) RedisKeyManager.audit_stream
              = (stream_of w RedisKeyManager.audit_stream ++ [ev])%list)
          /\ (raises env audit_trip <> None ->
              stream_of (snd r) RedisKeyManager.audit_stream
              = stream_of w RedisKeyManager.audit_stream)).
Proof.
  intros r. subst r. split.
  - intros e He. rewrite (validate_key_malformed env _ _ _ He). reflexivity.
  - intros p o Hparse Hv. rewrite (validate_key_run env _ _ _ Hparse). cbn [fst snd].
    destruct (validate_run_audit env p o w Hv)
      as (w0 & before & after & Hw0 & Hs0 & Hb & Ha & Hwire & Hstreams & Hacc).
    exists before, after, (event_at env p (Spec.audit_result o) w0),
      (validate_response (fst (validate_run env p w))).
    split.
    { rewrite Hwire, wire_after_event, Hw0. rewrite <- !app_assoc. reflexivity. }
    repeat (split; [first [assumption|reflexivity]|]).
    split.
    { rewrite validate_response_200. rewrite <- Hacc. reflexivity. }
    rewrite (stream_of_streams _ _ _ Hstreams), stream_after_event.
    rewrite (stream_of_streams w0 w _ Hs0).
    split; intros Hx.
    + rewrite Hx. reflexivity.
    + destruct (raises env audit_trip); [reflexivity|congruence].
Qed.

(** A wrong secret for Alice's key: one [denied] event in the stream. *)
Lemma one_audit_append_per_verdict_witness :
  let env := Demo.env_with Demo.no_faults in
  let w := Demo.one_key_world (Demo.alice_doc false None) in
  exists ev,
    ev_result ev = "denied"
    /\ stream_of (snd (Main.validate_key env "sk-proj.p1.k1.wrong" w)) "audit:keylookup"
       = [ev]
  /\ snd (Main.validate_key env "not-a-key" w) = w.
Proof.
  intros env w.
  destruct (one_audit_append_per_verdict env "sk-proj.p1.k1.wrong" w) as [_ H].
  destruct (H {| pk_project_id := "p1"; pk_key_id := "k1"; pk_secret := "wrong" |}
              Spec.Denied eq_refl eq_refl)
    as (before & after & ev & resp & _ & _ & _ & _ & _ & Hres & _ & _ & Hok & _).
  exists ev. split; [exact Hres|]. split; [exact (Hok eq_refl)|].
  destruct (one_audit_append_per_verdict env "not-a-key" w) as [Hbad _].
  exact (Hbad (ValueError "Invalid API key format") eq_refl).
Defined.

(** Against the specification as worded: the credential parses, the key is absent,
    the audit append fails in the store, and no event is appended. *)
Lemma parsed_credential_without_audit_event :
  let env := Demo.env_with Demo.audit_fails in
  let r := Main.validate_key env Demo.alice_key Demo.empty_world in
  ParsedAPIKey.parse Demo.alice_key
    = Ok {| pk_project_id := "p1"; pk_key_id := "k1"; pk_secret := "s3cret" |}
  /\ fst r = Ok invalid_key_response
  /\ stream_of Demo.empty_world "audit:keylookup" = []
  /\ stream_of (snd r) "audit:keylookup" = [].
Proof. repeat split. Qed.

(** ** Empty components *)

Lemma validate_run_wire (env : Env) (p : ParsedAPIKey) (w : World) :
  exists rest, wire (snd (validate_run env p w)) = (wire w ++ fetch_trip p :: rest)%list.
Proof.
  unfold validate_run.
  destruct (fetched env w _ _) as [d|]; cbn [snd].
  2:{ exists [audit_trip]. rewrite wire_after_event. cbn [wire sent].
      rewrite <- app_assoc. reflexivity. }
  destruct (valid_at _ d); cbn [negb snd].
  2:{ exists [audit_trip]. rewrite wire_after_event, wire_after_liveness.
      cbn [wire sent]. rewrite <- app_assoc. reflexivity. }
  destruct (Security.verify_password _ _ _) as [[|]|e]; cbn [snd].
  - destruct (allows_at _ _ _ _ _); cbn [negb snd]; eexists.
    + rewrite wire_after_usage, wire_after_event, wire_after_gate, wire_after_liveness.
      cbn [wire sent]. rewrite <- !app_assoc. reflexivity.
    + rewrite wire_after_event, wire_after_gate, wire_after_liveness.
      cbn [wire sent]. rewrite <- !app_assoc. reflexivity.
  - exists [audit_trip]. rewrite wire_after_event, wire_after_liveness.
    cbn [wire sent]. rewrite <- app_assoc. reflexivity.
  - exists []. rewrite wire_after_liveness. reflexivity.
Qed.

(** C10. The parser asks nothing of the components: whatever follows
    ["sk-proj."] parses as soon as it holds two dots.  ["sk-proj..."] parses
    to three empty components, the document key of two empty ids is
    ["apikey::"], and a validate of ["sk-proj..."] sends a fetch of that key
    as its first round-trip. *)
Theorem empty_components_are_accepted :
  (forall r : string,
      (2 <= PyStr.count "." r)%nat ->
      exists p, ParsedAPIKey.parse ("sk-proj." +:+ r) = Ok p)
  /\ ParsedAPIKey.parse "sk-proj..."
     = Ok {| pk_project_id := ""; pk_key_id := ""; pk_secret := "" |}
  /\ RedisKeyManager._apikey_key "" "" = "apikey::"
  /\ (forall (env : Env) (w : World),
        exists rest,
          wire (snd (RedisKeyManager.validate_api_key env "sk-proj..." w))
          = (wire w ++ Single (JSON_GET "apikey::") :: rest)%list).
Proof.
  split; [exact parse_two_dots|]. split; [reflexivity|]. split; [reflexivity|].
  intros env w.
  rewrite (validate_api_key_run env "sk-proj..."
             {| pk_project_id := ""; pk_key_id := ""; pk_secret := "" |} w eq_refl).
  cbn [snd]. apply validate_run_wire.
Qed.

Lemma empty_components_are_accepted_witness :
  exists p, ParsedAPIKey.parse "sk-proj.a..b.c" = Ok p.
Proof.
  apply (proj1 empty_components_are_accepted "a..b.c"). vm_compute. lia.
Defined.

(** ** Minting *)

Lemma mint_key_run (env : Env) (request : Main.MintKeyRequest) (w : World) :
  exists kid secret w1 w2 w',
    Security.generate_key_id env w = (Ok kid, w1)
    /\ Security.generate_secret env 32 w1 = (Ok secret, w2)
    /\ PyStr.count "." kid = O
    /\ Main.mint_key env request w
       = (Ok (match raises env (store_trip (Main.mint_project_id request) kid) with
              | None =>
                  Main.ok_response
                    (Main.MintKeyResponse
                       (ParsedAPIKey.format_key
                          {| pk_project_id := Main.mint_project_id request;
                             pk_key_id := kid; pk_secret := secret |}))
              | Some _ =>
                  Main.create_error_response "storage_error" "Failed to store API key" 500
              end), w').
Proof.
  destruct (generate_key_id_run env w) as (s & Hk & _ & Hc).
  destruct (generate_secret_run env 32 (Nat.iter 7 drawn w)) as (sec & Hs & _).
  exists ("k_" +:+ s), sec. do 2 eexists.
  unfold Main.mint_key, try_except.
  unfold bind at 1. rewrite Hk. unfold bind at 1. rewrite Hs.
  unfold bind at 1. unfold Security.hash_password.
  unfold bind at 1. unfold RedisKeyManager.datetime_now.
  unfold bind at 1. unfold RedisKeyManager.store_api_key, try_except, bind,
    RedisKeyManager.batch_trip, ret, store_trip.
  cbn [key_id project_id select_handler is_RedisError negb].
  destruct (raises env _); cbn [negb]; eexists; repeat split; try eassumption.
Qed.

(** C4, as the code has it.  Formatting what the parser accepted gives the
    string back.  Every mint draws a key id and a secret and answers; when
    it answers 200 the body is the wire form of the request's project id
    with that key id and that secret, and when the project id holds no
    dot, that wire form parses back to the same three components. *)
Theorem codec_round_trip :
  (forall (s : string) (p : ParsedAPIKey),
      ParsedAPIKey.parse s = Ok p -> ParsedAPIKey.format_key p = s)
  /\ (forall (env : Env) (request : Main.MintKeyRequest) (w : World),
        exists kid secret w1 w2 resp w',
          Security.generate_key_id env w = (Ok kid, w1)
          /\ Security.generate_secret env 32 w1 = (Ok secret, w2)
          /\ Main.mint_key env request w = (Ok resp, w')
          /\ (status_code resp = 200 <->
              raises env (store_trip (Main.mint_project_id request) kid) = None)
          /\ let minted := {| pk_project_id := Main.mint_project_id request;
                              pk_key_id := kid; pk_secret := secret |} in
             (status_code resp = 200 ->
              content resp = Main.MintKeyResponse (ParsedAPIKey.format_key minted))
             /\ (PyStr.contains "." (Main.mint_project_id request) = false ->
                 ParsedAPIKey.parse (ParsedAPIKey.format_key minted) = Ok minted)).
Proof.
  split; [exact format_parse|].
  intros env request w.
  destruct (mint_key_run env request w) as (kid & secret & w1 & w2 & w' & Hk & Hs & Hdot & Hm).
  exists kid, secret, w1, w2. eexists. exists w'.
  split; [exact Hk|]. split; [exact Hs|]. split; [exact Hm|].
  split; [|split].
  - destruct (raises env _); cbn; split; congruence.
  - destruct (raises env _); cbn; [discriminate|reflexivity].
  - intros Hp. apply parse_format; cbn [pk_project_id pk_key_id].
    + apply contains_false. exact Hp.
    + exact Hdot.
Qed.

(** A key minted for project [p1] parses back to what was minted. *)
Lemma codec_round_trip_witness :
  let env := Demo.env_with Demo.no_faults in
  let request := {| Main.mint_project_id := "p1"; Main.mint_owner := "alice";
                    Main.mint_metadata := "srv-a"; Main.mint_expires_at := None |} in
  ParsedAPIKey.format_key
    {| pk_project_id := "p1"; pk_key_id := "k1"; pk_secret := "s.3" |}
  = "sk-proj.p1.k1.s.3"
  /\ exists kid secret api_key,
       fst (Security.generate_key_id env Demo.empty_world) = Ok kid
       /\ content <$> (match fst (Main.mint_key env request Demo.empty_world) with
                       | Ok resp => Some resp
                       | Raise _ => None
                       end) = Some (Main.MintKeyResponse api_key)
       /\ ParsedAPIKey.parse api_key
          = Ok {| pk_project_id := "p1"; pk_key_id := kid; pk_secret := secret |}.
Proof.
  intros env request. split.
  - apply (proj1 codec_round_trip "sk-proj.p1.k1.s.3"). reflexivity.
  - destruct (proj2 codec_round_trip env request Demo.empty_world)
      as (kid & secret & w1 & w2 & resp & w' & Hk & Hs & Hm & Hst & Hbody & Hparse).
    exists kid, secret,
      (ParsedAPIKey.format_key
         {| pk_project_id := "p1"; pk_key_id := kid; pk_secret := secret |}).
    split; [rewrite Hk; reflexivity|]. split.
    + rewrite Hm. cbn [fst fmap option_fmap option_map].
      rewrite (Hbody (proj2 Hst eq_refl)). reflexivity.
    + apply Hparse. reflexivity.
Defined.

(** Against the specification as worded: a mint for the project id ["a.b"] answers a
    wire form that parses to project ["a"], key ["b"] and a secret that
    starts with the minted key id. *)
Lemma minted_key_of_dotted_project_does_not_round_trip :
  let env := Demo.env_with Demo.no_faults in
  let request := {| Main.mint_project_id := "a.b"; Main.mint_owner := "alice";
                    Main.mint_metadata := "srv-a"; Main.mint_expires_at := None |} in
  let w1 := snd (Security.generate_key_id env Demo.empty_world) in
  fst (Security.generate_key_id env Demo.empty_world) = Ok "k_abcdefg"
  /\ fst (Security.generate_secret env 32 w1) = Ok "hijklmnopqrstuvwxyzABCDEFGHIJKLM"
  /\ fst (Main.mint_key env request Demo.empty_world)
     = Ok {| status_code := 200;
             content := JObj [("api_key",
                               JStr "sk-proj.a.b.k_abcdefg.hijklmnopqrstuvwxyzABCDEFGHIJKLM")] |}
  /\ ParsedAPIKey.parse "sk-proj.a.b.k_abcdefg.hijklmnopqrstuvwxyzABCDEFGHIJKLM"
     = Ok {| pk_project_id := "a"; pk_key_id := "b";
             pk_secret := "k_abcdefg.hijklmnopqrstuvwxyzABCDEFGHIJKLM" |}
  /\ ParsedAPIKey.parse "sk-proj.a.b.k_abcdefg.hijklmnopqrstuvwxyzABCDEFGHIJKLM"
     <> Ok {| pk_project_id := "a.b"; pk_key_id := "k_abcdefg";
              pk_secret := "hijklmnopqrstuvwxyzABCDEFGHIJKLM" |}.
Proof. repeat split. discriminate. Qed.

(** ** Hash verification *)

(** What [verify_password] does with each answer of the hasher: true when
    it verifies, false on a mismatch, and any other exception goes through. *)
Lemma verify_password_cases (a2 : Argon2) (password hash_str : string) :
  match PasswordHasher.verify a2 hash_str password with
  | Ok _ => Security.verify_password a2 password hash_str = Ok true
  | Raise VerifyMismatchError =>
      Security.verify_password a2 password hash_str = Ok false
  | Raise e => Security.verify_password a2 password hash_str = Raise e
  end.
Proof.
  unfold Security.verify_password.
  destruct (PasswordHasher.verify a2 hash_str password) as [b|[]]; reflexivity.
Qed.

Lemma verify_password_mismatch (a2 : Argon2) (password hash_str : string) :
  PasswordHasher.header_known hash_str = true ->
  verify_secret a2 hash_str password = Mismatch ->
  Security.verify_password a2 password hash_str = Ok false.
Proof.
  intros Hh Hm. unfold Security.verify_password, PasswordHasher.verify.
  rewrite Hh, Hm. reflexivity.
Qed.

Lemma verify_password_unknown_header (a2 : Argon2) (password hash_str : string) :
  PasswordHasher.header_known hash_str = false ->
  Security.verify_password a2 password hash_str = Raise InvalidHashError.
Proof.
  intros Hh. unfold Security.verify_password, PasswordHasher.verify.
  rewrite Hh. reflexivity.
Qed.

(** A stored document whose hash has no Argon2 header: the validate is
    rejected after the fetch, and no audit append is sent. *)
Example malformed_stored_hash_skips_audit :
  let d := {| key_id := "k1"; project_id := "p1"; owner := "alice";
              metadata := "srv-a"; secret_hash := "invalid_hash_string";
              disabled := false; created_at := inject_Z 900; expires_at := None |} in
  let r := Main.validate_key (Demo.env_with Demo.no_faults) Demo.alice_key
             (Demo.one_key_world d) in
  fst r = Ok invalid_key_response
  /\ wire (snd r) = [Single (JSON_GET "apikey:p1:k1")]
  /\ stream_of (snd r) "audit:keylookup" = [].
Proof. repeat split. Qed.

(** C8, where the code departs from it.  For the hash of the repository's
    own test, ["invalid_hash_string"], [verify_password] does not answer
    false: the hasher raises [InvalidHashError], which is not a
    [VerifyMismatchError], and [verify_password] lets it through, whatever
    the Argon2 primitives are. *)
Theorem verify_password_raises_on_malformed_hash (a2 : Argon2) :
  Security.verify_password a2 "test_password_123" "invalid_hash_string"
  = Raise InvalidHashError.
Proof. reflexivity. Qed.

(** ** Listing *)

Section Listing.

Context (env : Env).

Lemma fetch_docs_run (pid : string) (ids : list string) (w : World) :
  exists w', RedisKeyManager.fetch_docs env pid ids w
             = (Ok (omap (fetched env w pid) ids), w')
             /\ json_docs w' = json_docs w /\ sets w' = sets w.
Proof.
  revert w. induction ids as [|kid ids IH]; intros w.
  - exists w. repeat split.
  - cbn [RedisKeyManager.fetch_docs]. unfold bind at 1. rewrite get_api_key_run.
    destruct (IH (sent (Single (JSON_GET (RedisKeyManager._apikey_key pid kid))) w))
      as (w' & Hrun & Hj & Hs).
    exists w'. unfold bind at 1. rewrite Hrun. split; [|split; assumption].
    unfold ret. cbn [omap list_omap].
    destruct (fetched env w pid kid); reflexivity.
Qed.

Lemma list_project_keys_run (pid : string) (offset limit : Z) (w : World) :
  exists w', RedisKeyManager.list_project_keys env pid offset limit w
             = (Ok (listed env w pid offset limit), w').
Proof.
  unfold RedisKeyManager.list_project_keys, listed, key_ids_of, try_except.
  unfold bind at 1. unfold RedisKeyManager.client_smembers, RedisKeyManager.round_trip.
  destruct (raises env _).
  - eexists. reflexivity.
  - cbn [sets sent].
    destruct (fetch_docs_run pid
                (PyStr.slice (elements (default ∅ (sets w !! RedisKeyManager._apiprojectkeys_key pid)))
                   offset (offset + limit))
                (sent (Single (SMEMBERS (RedisKeyManager._apiprojectkeys_key pid))) w))
      as (w' & Hrun & _).
    exists w'. rewrite Hrun. reflexivity.
Qed.

Lemma list_keys_run (pid : string) (offset limit : Z) (w : World) :
  exists w', Main.list_keys env pid offset limit w
             = (Ok (Main.ok_response
                      (Main.ListKeysResponse
                         (map Main.to_metadata (listed env w pid offset limit))
                         (cursor (length (listed env w pid offset limit)) offset limit))),
                w').
Proof.
  destruct (list_project_keys_run pid offset limit w) as (w' & Hrun).
  exists w'. unfold Main.list_keys, try_except, bind. rewrite Hrun.
  unfold ret, cursor. rewrite length_map. reflexivity.
Qed.

End Listing.

Lemma length_omap_le {A B} (f : A -> option B) (l : list A) :
  (length (omap f l) <= length l)%nat.
Proof.
  induction l as [|x l IH]; [reflexivity|].
  cbn [omap list_omap]. destruct (f x); cbn [length]; lia.
Qed.

(** A slice that reaches past the end is shorter than its width. *)
Lemma slice_past_end {A} (l : list A) (offset limit : Z) :
  1 <= limit ->
  Z.of_nat (length l) < offset + limit ->
  Z.of_nat (length (PyStr.slice l offset (offset + limit))) < limit.
Proof.
  intros Hl Hpast. unfold PyStr.slice, PyStr.clamp_index.
  rewrite length_take, length_drop.
  destruct (offset <? 0) eqn:Ho; destruct (offset + limit <? 0) eqn:Hb; lia.
Qed.

Lemma listed_past_end (env : Env) (w : World) (pid : string) (offset limit : Z) :
  1 <= limit ->
  Z.of_nat (size (key_ids_of w pid)) < offset + limit ->
  Z.of_nat (length (listed env w pid offset limit)) < limit.
Proof.
  intros Hl Hpast. unfold listed. destruct (raises env _); [cbn; lia|].
  pose proof (length_omap_le (fetched env w pid)
                (PyStr.slice (elements (key_ids_of w pid)) offset (offset + limit))).
  pose proof (slice_past_end (elements (key_ids_of w pid)) offset limit Hl Hpast).
  lia.
Qed.

(** C9, as the code has it.  [list_keys] always answers 200 with the
    metadata of the listed documents and a cursor that is
    [str(offset + limit)] when the page holds exactly [limit] items and null
    otherwise.  When [offset + limit] is greater than the number of key ids
    of the project (and [limit >= 1]), the page is shorter than [limit] and
    [next] is null. *)
Theorem list_keys_cursor (env : Env) (pid : string) (offset limit : Z) (w : World) :
  exists items w',
    Main.list_keys env pid offset limit w
    = (Ok (Main.ok_response
             (Main.ListKeysResponse items (cursor (length items) offset limit))), w')
    /\ (1 <= limit ->
        Z.of_nat (size (key_ids_of w pid)) < offset + limit ->
        member "next" (Main.ListKeysResponse items (cursor (length items) offset limit))
        = Some JNull).
Proof.
  destruct (list_keys_run env pid offset limit w) as (w' & Hrun).
  exists (map Main.to_metadata (listed env w pid offset limit)), w'.
  rewrite length_map. split; [exact Hrun|].
  intros Hl Hpast. pose proof (listed_past_end env w pid offset limit Hl Hpast) as Hlt.
  unfold cursor. destruct (Z.eqb_spec (Z.of_nat (length (listed env w pid offset limit))) limit);
    [lia|reflexivity].
Qed.

(** One key, a page of three: the cursor is null. *)
Lemma list_keys_cursor_witness :
  let env := Demo.env_with Demo.no_faults in
  let w := Demo.one_key_world (Demo.alice_doc false None) in
  exists resp,
    fst (Main.list_keys env "p1" 0 3 w) = Ok resp
    /\ member "next" (content resp) = Some JNull.
Proof.
  intros env w.
  destruct (list_keys_cursor env "p1" 0 3 w) as (items & w' & Hrun & Hnull).
  eexists. split; [rewrite Hrun; reflexivity|].
  apply Hnull; [lia|]. vm_compute. reflexivity.
Defined.

(** Against the specification as worded: one key, [offset = 0], [limit = 1], so
    [offset + limit] equals the number of key ids and no key remains, and
    [next] is ["1"]. *)
Lemma full_last_page_has_a_cursor :
  let env := Demo.env_with Demo.no_faults in
  let w := Demo.one_key_world (Demo.alice_doc false None) in
  size (key_ids_of w "p1") = 1%nat
  /\ 0 + 1 >= Z.of_nat (size (key_ids_of w "p1"))
  /\ fst (Main.list_keys env "p1" 0 1 w)
     = Ok {| status_code := 200;
             content :=
               JObj [("items",
                      JArr [JObj [("key_id", JStr "k1"); ("owner", JStr "alice");
                                  ("metadata", JStr "srv-a");
                                  ("created_at", JNum (inject_Z 900));
                                  ("disabled", JBool false); ("expires_at", JNull)]]);
                     ("next", JStr "1")] |}.
Proof. repeat split. vm_compute. discriminate. Qed.

(** ** The endpoints, run *)

Lemma revoke_api_key_run (env : Env) (pid kid : string) (w : World) :
  let key := RedisKeyManager._apikey_key pid kid in
  let trip := Single (JSON_SET key "$.disabled") in
  RedisKeyManager.revoke_api_key env pid kid w
  = match raises env trip with
    | Some _ => (Ok false, sent trip w)
    | None =>
        match json_docs w !! key with
        | None => (Ok false, sent trip w)
        | Some (KeyJson d) =>
            (Ok true,
             with_json_docs (insert key (KeyJson (RedisKeyManager.disable d)))
               (sent trip w))
        | Some (ProjectJson _) =>
            (Ok true, with_json_docs (insert key (OtherJson true)) (sent trip w))
        | Some (OtherJson true) => (Ok true, sent trip w)
        | Some (OtherJson false) => (Ok false, sent trip w)
        end
    end.
Proof.
  cbn zeta. unfold RedisKeyManager.revoke_api_key, try_except, bind,
    RedisKeyManager.client_json_set_disabled, RedisKeyManager.round_trip, ret.
  destruct (raises env _); [reflexivity|]. cbn [json_docs sent].
  destruct (json_docs w !! _) as [[d|q|[|]]|]; reflexivity.
Qed.


Lemma revoke_key_run (env : Env) (pid kid : string) (w : World) :
  let key := RedisKeyManager._apikey_key pid kid in
  let w1 := sent (Single (JSON_GET key)) w in
  let trip := Single (JSON_SET key "$.disabled") in
  Main.revoke_key env pid kid w
  = match fetched env w pid kid with
    | None =>
        (Ok (Main.create_error_response "key_not_found" "API key not found" 404), w1)
    | Some d =>
        match raises env trip with
        | Some _ =>
            (Ok (Main.create_error_response "revocation_error"
                   "Failed to revoke API key" 500), sent trip w1)
        | None =>
            (Ok (Main.ok_response (Main.RevokeKeyResponse true)),
             with_json_docs (insert key (KeyJson (RedisKeyManager.disable d)))
               (sent trip w1))
        end
    end.
Proof.
  cbn zeta. unfold Main.revoke_key, try_except. unfold bind at 1.
  rewrite get_api_key_run. unfold fetched.
  destruct (raises env (Single (JSON_GET _))); [reflexivity|].
  destruct (json_docs w !! _) as [[d|q|b]|] eqn:Hdoc; try reflexivity.
  unfold bind at 1. rewrite revoke_api_key_run. cbn zeta.
  destruct (raises env _); [reflexivity|].
  cbn [json_docs sent]. rewrite Hdoc. reflexivity.
Qed.


Lemma get_project_store_run (env : Env) (pid : string) (w : World) :
  RedisKeyManager.get_project env pid w
  = (Ok (fetched_project env w pid),
     sent (Single (JSON_GET (RedisKeyManager._project_key pid))) w).
Proof.
  unfold RedisKeyManager.get_project, fetched_project, try_except, bind,
    RedisKeyManager.client_json_get, RedisKeyManager.round_trip, lift, ret.
  destruct (raises env _); [reflexivity|].
  cbn [json_docs sent].
  destruct (json_docs w !! _) as [[d|q|b]|]; reflexivity.
Qed.


Lemma create_project_run (env : Env) (pid label owner : string) (w : World) :
  let key := RedisKeyManager._project_key pid in
  let w1 := sent (Single (JSON_GET key)) w in
  let trip := Single (JSON_SET key "$") in
  let doc := {| proj_project_id := pid; proj_label := label; proj_owner := owner;
                proj_created_at := clock env (ticks w) |} in
  Main.create_project env pid label owner w
  = match fetched_project env w pid with
    | Some _ =>
        (Ok (Main.create_error_response "project_exists" "Project already exists" 409),
         w1)
    | None =>
        match raises env trip with
        | Some _ =>
            (Ok (Main.create_error_response "storage_error"
                   "Failed to create project" 500), sent trip (tick w1))
        | None =>
            (Ok (Main.ok_response
                   (JObj [("project_id", JStr pid); ("created", JBool true)])),
             with_json_docs (insert key (ProjectJson doc)) (sent trip (tick w1)))
        end
    end.
Proof.
  cbn zeta. unfold Main.create_project, try_except. unfold bind at 1.
  rewrite get_project_store_run.
  destruct (fetched_project env w pid); [reflexivity|].
  unfold bind at 1. unfold RedisKeyManager.datetime_now.
  unfold bind at 1. unfold RedisKeyManager.store_project, try_except, bind,
    RedisKeyManager.round_trip, ret.
  cbn [proj_project_id ticks sent].
  destruct (raises env _); reflexivity.
Qed.


Lemma get_project_run (env : Env) (pid : string) (w : World) :
  Main.get_project env pid w
  = (Ok (match fetched_project env w pid with
         | None => Main.create_error_response "project_not_found" "Project not found" 404
         | Some p => Main.ok_response (Main.ProjectDocument_dump p)
         end),
     sent (Single (JSON_GET (RedisKeyManager._project_key pid))) w).
Proof.
  unfold Main.get_project, try_except, bind. rewrite get_project_store_run.
  destruct (fetched_project env w pid); reflexivity.
Qed.


(** ** What a response shows *)

Lemma post_ret {A} (a : A) (P : A -> Prop) : P a -> post (ret a) P.
Proof. intros H w b w' [= <- _]. exact H. Qed.

Lemma post_bind {A B} (m : M A) (k : A -> M B) (Q : B -> Prop) :
  (forall a, post (k a) Q) -> post (bind m k) Q.
Proof.
  intros H w b w' Hrun. unfold bind in Hrun.
  destruct (m w) as [[a|e] w1]; [exact (H a w1 b w' Hrun)|discriminate].
Qed.

(** A handler whose body only returns clean responses answers, and answers
    a clean response: what escapes the body becomes [internal_error]. *)
Lemma guarded_clean (body : M Response) (w : World) :
  post body clean ->
  exists resp w',
    try_except body [(is_Exception, fun _ => ret Main.internal_error)] w = (Ok resp, w')
    /\ clean resp.
Proof.
  intros H. unfold try_except. destruct (body w) as [[resp|e] w1] eqn:Hrun.
  - exists resp, w1. split; [reflexivity|]. exact (H w resp w1 Hrun).
  - exists Main.internal_error, w1. split; reflexivity.
Qed.

Lemma clean_exception_response (e : Exn) : clean (Main.exception_response e).
Proof. destruct e; reflexivity. Qed.

Lemma clean_validate_response (r : option APIKeyDocument) : clean (validate_response r).
Proof. destruct r; reflexivity. Qed.

Lemma clean_items (docs : list APIKeyDocument) :
  existsb (mentions "secret_hash") (map Main.KeyMetadata_dump (map Main.to_metadata docs))
  = false.
Proof.
  induction docs as [|d docs IH]; [reflexivity|].
  cbn [map existsb]. rewrite IH.
  unfold Main.KeyMetadata_dump, Main.to_metadata. cbn [km_expires_at].
  destruct (expires_at d); reflexivity.
Qed.

Lemma clean_list_response (docs : list APIKeyDocument) (c : option string) :
  clean (Main.ok_response (Main.ListKeysResponse (map Main.to_metadata docs) c)).
Proof.
  unfold clean, Main.ok_response, Main.ListKeysResponse. cbn [content mentions existsb].
  rewrite clean_items. destruct c; reflexivity.
Qed.

Section Responses.

Context (env : Env).

Lemma admin_only_clean (credentials : option string) (handler : M Response) (w : World) :
  (forall w0, exists resp w', handler w0 = (Ok resp, w') /\ clean resp) ->
  exists resp w', Main.admin_only env credentials handler w = (Ok resp, w') /\ clean resp.
Proof.
  intros H. unfold Main.admin_only.
  destruct (Main.verify_admin_auth env credentials) as [b|e]; [apply H|].
  eexists _, _. split; [reflexivity|]. apply clean_exception_response.
Qed.

Lemma health_check_clean (w : World) :
  exists resp w', Main.health_check env w = (Ok resp, w') /\ clean resp.
Proof.
  unfold Main.health_check.
  destruct (RedisKeyManager.ping env w) as [[[|]|e] w1].
  - eexists _, _. split; reflexivity.
  - eexists _, _. split; reflexivity.
  - eexists _, _. split; [reflexivity|]. apply clean_exception_response.
Qed.

Lemma validate_key_clean (api_key : string) (w : World) :
  exists resp w', Main.validate_key env api_key w = (Ok resp, w') /\ clean resp.
Proof.
  destruct (validate_key_total env api_key w) as (r & w' & Hrun).
  eexists _, _. split; [exact Hrun|]. apply clean_validate_response.
Qed.

Lemma mint_key_clean (request : Main.MintKeyRequest) (w : World) :
  exists resp w', Main.mint_key env request w = (Ok resp, w') /\ clean resp.
Proof.
  destruct (mint_key_run env request w) as (kid & secret & w1 & w2 & w' & _ & _ & _ & Hm).
  eexists _, _. split; [exact Hm|].
  destruct (raises env _); reflexivity.
Qed.

Lemma revoke_key_clean (pid kid : string) (w : World) :
  exists resp w', Main.revoke_key env pid kid w = (Ok resp, w') /\ clean resp.
Proof.
  apply guarded_clean. apply post_bind. intros [d|].
  - apply post_bind. intros [|]; apply post_ret; reflexivity.
  - apply post_ret. reflexivity.
Qed.

Lemma list_keys_clean (pid : string) (offset limit : Z) (w : World) :
  exists resp w', Main.list_keys env pid offset limit w = (Ok resp, w') /\ clean resp.
Proof.
  destruct (list_keys_run env pid offset limit w) as (w' & Hrun).
  eexists _, _. split; [exact Hrun|]. apply clean_list_response.
Qed.

Lemma create_project_clean (pid label owner : string) (w : World) :
  exists resp w', Main.create_project env pid label owner w = (Ok resp, w') /\ clean resp.
Proof.
  apply guarded_clean. apply post_bind. intros [p|].
  - apply post_ret. reflexivity.
  - apply post_bind. intros now. apply post_bind.
    intros [|]; apply post_ret; reflexivity.
Qed.

Lemma get_project_clean (pid : string) (w : World) :
  exists resp w', Main.get_project env pid w = (Ok resp, w') /\ clean resp.
Proof.
  apply guarded_clean. apply post_bind. intros [p|]; apply post_ret; reflexivity.
Qed.

Lemma serve_clean (r : Main.Request) (w : World) :
  exists resp w',
    Main.serve env r w = (Ok resp, w') /\ (reaches_a_route r -> clean resp).
Proof.
  assert (Hweaken : forall m : M Response,
             (exists resp w', m w = (Ok resp, w') /\ clean resp) ->
             exists resp w', m w = (Ok resp, w') /\ (True -> clean resp)).
  { intros m (resp & w' & Hrun & Hc). exists resp, w'. split; [exact Hrun|]. intros _. exact Hc. }
  destruct r; cbn [Main.serve reaches_a_route].
  - eexists _, _. split; [reflexivity|]. intros [].
  - apply Hweaken, health_check_clean.
  - apply Hweaken, validate_key_clean.
  - apply Hweaken, admin_only_clean. intros w0. apply mint_key_clean.
  - apply Hweaken, admin_only_clean. intros w0. apply revoke_key_clean.
  - apply Hweaken. unfold Main.list_keys_route. apply admin_only_clean. intros w0.
    destruct (offset <? 0); [eexists _, _; split; reflexivity|].
    destruct ((limit <? 1) || (100 <? limit)); [eexists _, _; split; reflexivity|].
    apply list_keys_clean.
  - apply Hweaken, admin_only_clean. intros w0. apply create_project_clean.
  - apply Hweaken, admin_only_clean. intros w0. apply get_project_clean.
Qed.

(** The document of a 200 is the one the lookup fetched. *)
Lemma validate_run_fetched (p : ParsedAPIKey) (d : APIKeyDocument) (w : World) :
  fst (validate_run env p w) = Some d ->
  fetched env w (pk_project_id p) (pk_key_id p) = Some d.
Proof.
  unfold validate_run.
  destruct (fetched env w _ _) as [d'|]; cbn [fst]; [|discriminate].
  destruct (valid_at _ d'); cbn [negb fst]; [|discriminate].
  destruct (Security.verify_password _ _ _) as [[|]|e]; cbn [fst];
    [|discriminate|discriminate].
  destruct (allows_at _ _ _ _ _); cbn [negb fst]; [|discriminate].
  intros [= ->]. reflexivity.
Qed.

Lemma fetched_stored (w : World) (pid kid : string) (d : APIKeyDocument) :
  fetched env w pid kid = Some d ->
  json_docs w !! RedisKeyManager._apikey_key pid kid = Some (KeyJson d).
Proof.
  unfold fetched. destruct (raises env _); [discriminate|].
  destruct (json_docs w !! _) as [[d'|q|b]|]; try discriminate.
  intros [= ->]. reflexivity.
Qed.

End Responses.

(** ** Responses do not depend on the stored hashes

    The same request against the same store with every stored hash
    rewritten by [h], under a hasher [a2] that answers for the rewritten
    hashes as the original hasher does for the original ones. *)

Section Noninterference.

Context (env : Env) (a2 : Argon2) (h : string -> string).

Let env' : Env := with_argon2 a2 env.

Lemma fetched_rehash (w : World) (pid kid : string) :
  fetched env' (rehash h w) pid kid = rehash_doc h <$> fetched env w pid kid.
Proof.
  unfold fetched. change (raises env') with (raises env).
  destruct (raises env _); [reflexivity|].
  unfold rehash. cbn [json_docs with_json_docs]. rewrite lookup_fmap.
  destruct (json_docs w !! _) as [[d|q|b]|]; reflexivity.
Qed.

Lemma fetched_project_rehash (w : World) (pid : string) :
  fetched_project env' (rehash h w) pid = fetched_project env w pid.
Proof.
  unfold fetched_project. change (raises env') with (raises env).
  destruct (raises env _); [reflexivity|].
  unfold rehash. cbn [json_docs with_json_docs]. rewrite lookup_fmap.
  destruct (json_docs w !! _) as [[d|q|b]|]; reflexivity.
Qed.

Lemma listed_rehash (w : World) (pid : string) (offset limit : Z) :
  listed env' (rehash h w) pid offset limit
  = map (rehash_doc h) (listed env w pid offset limit).
Proof.
  unfold listed. change (raises env') with (raises env).
  destruct (raises env _); [reflexivity|].
  change (key_ids_of (rehash h w) pid) with (key_ids_of w pid).
  induction (PyStr.slice (elements (key_ids_of w pid)) offset (offset + limit))
    as [|kid ids IH]; [reflexivity|].
  cbn [omap list_omap]. rewrite fetched_rehash.
  destruct (fetched env w pid kid); cbn [fmap option_fmap option_map map];
    [f_equal|]; exact IH.
Qed.

Lemma list_keys_rehash (w : World) (pid : string) (offset limit : Z) :
  fst (Main.list_keys env' pid offset limit (rehash h w))
  = fst (Main.list_keys env pid offset limit w).
Proof.
  destruct (list_keys_run env pid offset limit w) as (w1 & ->).
  destruct (list_keys_run env' pid offset limit (rehash h w)) as (w2 & ->).
  cbn [fst]. rewrite listed_rehash, length_map, map_map. reflexivity.
Qed.

Lemma allows_at_rehash (pid kid : string) (d : APIKeyDocument) (c : RoundTrip) (w : World) :
  allows_at env' pid kid 100 (after_liveness (rehash_doc h d) (sent c (rehash h w)))
  = allows_at env pid kid 100 (after_liveness d (sent c w)).
Proof.
  unfold allows_at, rate_key_at, counter_of, after_liveness.
  cbn [disabled expires_at rehash_doc]. change (raises env') with (raises env).
  change (clock env') with (clock env).
  destruct (disabled d), (expires_at d); reflexivity.
Qed.

Lemma validate_run_rehash (p : ParsedAPIKey) (w : World) :
  (forall secret hash,
      Security.verify_password a2 secret (h hash)
      = Security.verify_password (argon2 env) secret hash) ->
  fst (validate_run env' p (rehash h w)) = rehash_doc h <$> fst (validate_run env p w).
Proof.
  intros Hver. unfold validate_run. rewrite fetched_rehash.
  destruct (fetched env w _ _) as [d|]; [|reflexivity].
  cbn [fmap option_fmap option_map].
  change (valid_at (clock env' (ticks (rehash h w))) (rehash_doc h d))
    with (valid_at (clock env (ticks w)) d).
  destruct (valid_at _ d); cbn [negb]; [|reflexivity].
  change (Security.verify_password (argon2 env') (pk_secret p)
            (secret_hash (rehash_doc h d)))
    with (Security.verify_password a2 (pk_secret p) (h (secret_hash d))).
  rewrite Hver.
  destruct (Security.verify_password _ _ _) as [[|]|e]; [|reflexivity|reflexivity].
  rewrite allows_at_rehash.
  destruct (allows_at _ _ _ _ _); reflexivity.
Qed.

Lemma validate_key_rehash (api_key : string) (w : World) :
  (forall secret hash,
      Security.verify_password a2 secret (h hash)
      = Security.verify_password (argon2 env) secret hash) ->
  fst (Main.validate_key env' api_key (rehash h w))
  = fst (Main.validate_key env api_key w).
Proof.
  intros Hver. destruct (ParsedAPIKey.parse api_key) as [p|e] eqn:Hparse.
  - rewrite !(validate_key_run _ _ _ _ Hparse). cbn [fst].
    rewrite (validate_run_rehash p w Hver).
    destruct (fst (validate_run env p w)); reflexivity.
  - rewrite !(validate_key_malformed _ _ _ _ Hparse). reflexivity.
Qed.

Lemma choices_rehash (chars : string) (n : nat) (w : World) :
  Security.choices env' chars n (rehash h w)
  = (fst (Security.choices env chars n w), rehash h (snd (Security.choices env chars n w))).
Proof.
  revert w. induction n as [|n IH]; intros w; [reflexivity|].
  cbn [Security.choices]. unfold bind, Security.secrets_choice.
  change (entropy env') with (entropy env).
  change (draws (rehash h w)) with (draws w).
  destruct (PyStr.index chars _) as [c|]; [|reflexivity].
  change (drawn (rehash h w)) with (rehash h (drawn w)). rewrite IH.
  destruct (Security.choices env chars n (drawn w)) as [[s|e] w1]; reflexivity.
Qed.

Lemma mint_key_rehash (request : Main.MintKeyRequest) (w : World) :
  fst (Main.mint_key env' request (rehash h w)) = fst (Main.mint_key env request w).
Proof.
  destruct (mint_key_run env request w)
    as (kid & secret & w1 & w2 & w' & Hk & Hs & _ & Hm).
  destruct (mint_key_run env' request (rehash h w))
    as (kid' & secret' & w1' & w2' & w'' & Hk' & Hs' & _ & Hm').
  unfold Security.generate_key_id, bind in Hk, Hk'.
  rewrite choices_rehash in Hk'.
  destruct (Security.choices env _ 7 w) as [[s|e] wk]; [|discriminate].
  cbn [fst snd] in Hk'. injection Hk as <- <-. injection Hk' as <- <-.
  unfold Security.generate_secret in Hs, Hs'. rewrite choices_rehash, Hs in Hs'.
  cbn [fst snd] in Hs'. injection Hs' as <- _.
  rewrite Hm, Hm'. reflexivity.
Qed.

Lemma revoke_key_rehash (pid kid : string) (w : World) :
  fst (Main.revoke_key env' pid kid (rehash h w)) = fst (Main.revoke_key env pid kid w).
Proof.
  rewrite !revoke_key_run. cbn zeta. rewrite fetched_rehash.
  change (raises env') with (raises env).
  destruct (fetched env w pid kid); cbn [fmap option_fmap option_map]; [|reflexivity].
  destruct (raises env _); reflexivity.
Qed.

Lemma create_project_rehash (pid label owner : string) (w : World) :
  fst (Main.create_project env' pid label owner (rehash h w))
  = fst (Main.create_project env pid label owner w).
Proof.
  rewrite !create_project_run. cbn zeta. rewrite fetched_project_rehash.
  change (raises env') with (raises env).
  destruct (fetched_project env w pid); [reflexivity|].
  destruct (raises env _); reflexivity.
Qed.

Lemma get_project_rehash (pid : string) (w : World) :
  fst (Main.get_project env' pid (rehash h w)) = fst (Main.get_project env pid w).
Proof. rewrite !get_project_run. cbn [fst]. rewrite fetched_project_rehash. reflexivity. Qed.

Lemma health_check_rehash (w : World) :
  fst (Main.health_check env' (rehash h w)) = fst (Main.health_check env w).
Proof.
  unfold Main.health_check, RedisKeyManager.ping, try_except, RedisKeyManager.round_trip.
  change (raises env') with (raises env).
  destruct (raises env _) as [[| |]|]; reflexivity.
Qed.

Lemma admin_only_rehash (credentials : option string) (handler handler' : M Response)
    (w : World) :
  fst (handler' (rehash h w)) = fst (handler w) ->
  fst (Main.admin_only env' credentials handler' (rehash h w))
  = fst (Main.admin_only env credentials handler w).
Proof.
  intros H. unfold Main.admin_only.
  change (Main.verify_admin_auth env' credentials)
    with (Main.verify_admin_auth env credentials).
  destruct (Main.verify_admin_auth env credentials); [exact H|reflexivity].
Qed.

Lemma serve_rehash (r : Main.Request) (w : World) :
  (forall api_key, r = Main.PostValidateKey api_key ->
     forall secret hash,
       Security.verify_password a2 secret (h hash)
       = Security.verify_password (argon2 env) secret hash) ->
  fst (Main.serve env' r (rehash h w)) = fst (Main.serve env r w).
Proof.
  intros Hver. destruct r; cbn [Main.serve].
  - reflexivity.
  - apply health_check_rehash.
  - apply validate_key_rehash. exact (Hver api_key eq_refl).
  - apply admin_only_rehash, mint_key_rehash.
  - apply admin_only_rehash, revoke_key_rehash.
  - unfold Main.list_keys_route. apply admin_only_rehash.
    destruct (offset <? 0); [reflexivity|].
    destruct ((limit <? 1) || (100 <? limit)); [reflexivity|].
    apply list_keys_rehash.
  - apply admin_only_rehash, create_project_rehash.
  - apply admin_only_rehash, get_project_rehash.
Qed.

End Noninterference.

(** C2.  No answer of the service shows the [secret_hash] of a stored API
    key.  Every request is answered; the answer to a request that reaches a
    route has no member called [secret_hash] at any depth, and the answer to
    a request turned away in validation is the 422 made of the client's own
    input, with the store untouched.  A 200 of validate is exactly
    [project_id], [key_id], [owner] and [metadata] with the values of the
    stored document; every item of a listing is exactly [key_id], [owner],
    [metadata], [created_at], [disabled] and [expires_at] with the values of
    a stored document.  And the answer to any request, success or error, is
    the same when every stored hash is replaced by another: only a validate
    looks at a hash, and only through the hasher's answer. *)
Theorem secret_hash_never_leaves :
  (forall (env : Env) (r : Main.Request) (w : World),
      exists resp w',
        Main.serve env r w = (Ok resp, w')
        /\ (reaches_a_route r -> mentions "secret_hash" (content resp) = false))
  /\ (forall (env : Env) (issues : list Main.ValidationIssue) (w : World),
        Main.serve env (Main.Unprocessable issues) w
        = (Ok (Main.validation_error_response issues), w))
  /\ (forall (env : Env) (api_key : string) (w : World) (resp : Response) (w' : World),
        Main.validate_key env api_key w = (Ok resp, w') ->
        status_code resp = 200 ->
        exists p d,
          ParsedAPIKey.parse api_key = Ok p
          /\ json_docs w !! RedisKeyManager._apikey_key (pk_project_id p) (pk_key_id p)
             = Some (KeyJson d)
          /\ content resp
             = JObj [("project_id", JStr (project_id d)); ("key_id", JStr (key_id d));
                     ("owner", JStr (owner d)); ("metadata", JStr (metadata d))])
  /\ (forall (env : Env) (pid : string) (offset limit : Z) (w : World),
        exists docs next w',
          Main.list_keys env pid offset limit w
          = (Ok {| status_code := 200;
                   content :=
                     JObj [("items",
                            JArr (map (fun d =>
                                         JObj [("key_id", JStr (key_id d));
                                               ("owner", JStr (owner d));
                                               ("metadata", JStr (metadata d));
                                               ("created_at", JNum (created_at d));
                                               ("disabled", JBool (disabled d));
                                               ("expires_at", optional JNum (expires_at d))])
                                      docs));
                           ("next", optional JStr next)] |}, w')
          /\ forall d, d ∈ docs ->
                       exists kid, json_docs w !! RedisKeyManager._apikey_key pid kid
                                   = Some (KeyJson d))
  /\ (forall (env : Env) (a2 : Argon2) (h : string -> string) (r : Main.Request)
             (w : World),
        (forall api_key, r = Main.PostValidateKey api_key ->
           forall secret hash,
             Security.verify_password a2 secret (h hash)
             = Security.verify_password (argon2 env) secret hash) ->
        fst (Main.serve (with_argon2 a2 env) r (rehash h w)) = fst (Main.serve env r w)).
Proof.
  split; [exact serve_clean|]. split; [reflexivity|]. split; [|split].
  - intros env api_key w resp w' Hrun Hst.
    destruct (ParsedAPIKey.parse api_key) as [p|e] eqn:Hparse.
    + rewrite (validate_key_run env _ _ _ Hparse) in Hrun. injection Hrun as <- _.
      destruct (fst (validate_run env p w)) as [d|] eqn:Hd; [|discriminate].
      exists p, d. split; [reflexivity|]. split; [|reflexivity].
      apply (fetched_stored env). apply validate_run_fetched. exact Hd.
    + rewrite (validate_key_malformed env _ _ _ Hparse) in Hrun.
      injection Hrun as <- _. discriminate.
  - intros env pid offset limit w.
    destruct (list_keys_run env pid offset limit w) as (w' & Hrun).
    exists (listed env w pid offset limit),
      (cursor (length (listed env w pid offset limit)) offset limit), w'.
    split.
    + rewrite Hrun. unfold Main.ok_response, Main.ListKeysResponse.
      rewrite map_map. reflexivity.
    + intros d Hd. unfold listed in Hd. destruct (raises env _); [inversion Hd|].
      apply list_elem_of_omap in Hd. destruct Hd as (kid & _ & Hf).
      exists kid. exact (fetched_stored env _ _ _ _ Hf).
  - intros env a2 h r w Hver. apply serve_rehash. exact Hver.
Qed.

(** Alice validates her key and the admin lists the project: the answers
    are the same with every stored hash replaced, and the 200 of validate
    holds the four fields of her document. *)
Lemma secret_hash_never_leaves_witness :
  let env := Demo.env_with Demo.no_faults in
  let w := Demo.one_key_world (Demo.alice_doc false None) in
  (exists p d,
      ParsedAPIKey.parse Demo.alice_key = Ok p
      /\ json_docs w !! RedisKeyManager._apikey_key (pk_project_id p) (pk_key_id p)
         = Some (KeyJson d)
      /\ content (Main.ok_response (Main.ValidateKeyResponse "p1" "k1" "alice" "srv-a"))
         = JObj [("project_id", JStr (project_id d)); ("key_id", JStr (key_id d));
                 ("owner", JStr (owner d)); ("metadata", JStr (metadata d))])
  /\ fst (Main.serve (with_argon2 Demo.toy_argon2 env)
            (Main.GetListKeys (Some "admin") "p1" 0 10) (rehash (fun _ => "other") w))
     = fst (Main.serve env (Main.GetListKeys (Some "admin") "p1" 0 10) w)
  /\ fst (Main.serve (with_argon2 Demo.toy_argon2 env)
            (Main.PostValidateKey Demo.alice_key) (rehash (fun x => x) w))
     = fst (Main.serve env (Main.PostValidateKey Demo.alice_key) w).
Proof.
  intros env w.
  destruct secret_hash_never_leaves as (_ & _ & Hvalues & _ & Hsame).
  split; [|split].
  - apply (Hvalues env Demo.alice_key w
             (Main.ok_response (Main.ValidateKeyResponse "p1" "k1" "alice" "srv-a"))
             (snd (Main.validate_key env Demo.alice_key w))).
    + vm_compute. reflexivity.
    + reflexivity.
  - apply Hsame. intros api_key [=].
  - apply Hsame. intros api_key _ secret hash. reflexivity.
Defined.

(** What a turned-away request echoes is the client's: a body with a member
    called [secret_hash] comes back in the 422, whatever the store holds. *)
Example echoed_input_is_the_clients :
  forall (env : Env) (w : World),
    let issue := {| Main.issue_type := "missing"; Main.issue_loc := ["body"; "api_key"];
                    Main.issue_msg := "Field required";
                    Main.issue_input := JObj [("secret_hash", JStr "x")] |} in
    fst (Main.serve env (Main.Unprocessable [issue]) w)
    = Ok (Main.validation_error_response [issue])
    /\ mentions "secret_hash" (content (Main.validation_error_response [issue])) = true.
Proof. intros env w. split; reflexivity. Qed.

(** * Further properties of the code *)

(** ** The parser, exactly *)

Lemma partition_no_sep (sep : ascii) (s a b : string) :
  PyStr.partition sep s = Some (a, b) -> PyStr.count sep a = O.
Proof.
  revert a. induction s as [|c s IH]; intros a H; simpl in H; [discriminate|].
  destruct (Ascii.eqb c sep) eqn:E.
  - injection H as <- _. reflexivity.
  - destruct (PyStr.partition sep s) as [[a' b']|]; [|discriminate].
    injection H as <- <-. simpl. rewrite E. exact (IH a' eq_refl).
Qed.

Lemma parse_components_dot_free (s : string) (p : ParsedAPIKey) :
  ParsedAPIKey.parse s = Ok p ->
  PyStr.count "." (pk_project_id p) = O /\ PyStr.count "." (pk_key_id p) = O.
Proof.
  unfold ParsedAPIKey.parse. intros H.
  destruct (PyStr.startswith s "sk-proj.") eqn:Hs; [|discriminate].
  apply startswith_app in Hs. destruct Hs as [r ->].
  cbn [negb] in H. unfold PyStr.split in H. rewrite partition_prefix in H.
  destruct (PyStr.partition "." r) as [[a b]|] eqn:Hr; [|discriminate].
  destruct (PyStr.partition "." b) as [[c d]|] eqn:Hb; [|discriminate].
  injection H as <-. cbn [pk_project_id pk_key_id].
  split; eapply partition_no_sep; eassumption.
Qed.

(** X1. [parse] accepts exactly the strings [format_key] writes for a
    project id and a key id without dots, and returns those components:
    the secret keeps its dots, the two ids never have one. *)
Theorem parse_accepts_exactly (s : string) (p : ParsedAPIKey) :
  ParsedAPIKey.parse s = Ok p
  <-> s = ParsedAPIKey.format_key p
      /\ PyStr.contains "." (pk_project_id p) = false
      /\ PyStr.contains "." (pk_key_id p) = false.
Proof.
  split.
  - intros H. split; [symmetry; apply format_parse; exact H|].
    destruct (parse_components_dot_free s p H) as [Hp Hk].
    split; apply contains_false; assumption.
  - intros (-> & Hp & Hk). apply parse_format; apply contains_false; assumption.
Qed.

(** X2. [parse] succeeds iff the string starts with ["sk-proj."] and holds
    three dots or more; every failure is the ValueError
    ["Invalid API key format"]. *)
Theorem parse_rejects_exactly (s : string) :
  ((exists p, ParsedAPIKey.parse s = Ok p)
   <-> PyStr.startswith s "sk-proj." = true /\ (3 <= PyStr.count "." s)%nat)
  /\ (forall e, ParsedAPIKey.parse s = Raise e ->
                e = ValueError "Invalid API key format").
Proof.
  split.
  - split.
    + intros [p H]. pose proof (format_parse s p H) as <-.
      rewrite format_key_eq. split; [apply startswith_prefix|].
      rewrite !count_app. cbn [PyStr.count]. simpl. lia.
    + intros [Hs Hc]. apply startswith_app in Hs. destruct Hs as [r ->].
      apply parse_two_dots. rewrite count_app in Hc. simpl in Hc. lia.
  - intros e. unfold ParsedAPIKey.parse.
    destruct (negb (PyStr.startswith s "sk-proj.")); [congruence|].
    destruct (PyStr.split "." 3 s) as [|? [|? [|? [|? [|? ?]]]]]; congruence.
Qed.

(** ** Random identifiers, exactly *)

Lemma index_contains (s : string) (i : nat) (c : ascii) :
  PyStr.index s i = Some c -> PyStr.contains c s = true.
Proof.
  unfold PyStr.contains. revert i. induction s as [|d s IH]; simpl; intros i H;
    [discriminate|].
  destruct i.
  - injection H as ->. rewrite Ascii.eqb_refl. reflexivity.
  - specialize (IH i H). destruct (Ascii.eqb d c); [reflexivity|].
    simpl. exact IH.
Qed.

Lemma choices_all_in (env : Env) (chars : string) (n : nat) (w : World) (s : string)
    (w' : World) :
  Security.choices env chars n w = (Ok s, w') ->
  PyStr.all_in chars s = true /\ String.length s = n.
Proof.
  revert w s w'. induction n as [|n IH]; intros w s w' H.
  - injection H as <- _. split; reflexivity.
  - cbn [Security.choices] in H. unfold bind, Security.secrets_choice in H.
    destruct (PyStr.index chars _) as [c|] eqn:Hc; [|discriminate].
    destruct (Security.choices env chars n (drawn w)) as [[rest|e] w1] eqn:Hr;
      [|discriminate].
    injection H as <- _. destruct (IH _ _ _ Hr) as [Hall Hlen].
    split; [|simpl; f_equal; exact Hlen].
    simpl. rewrite (index_contains _ _ _ Hc), Hall. reflexivity.
Qed.

(** X3. [generate_key_id] always returns: ["k_"] followed by seven
    characters of [A-Za-z0-9], after exactly seven draws from the random
    source and nothing else. *)
Theorem generate_key_id_format (env : Env) (w : World) :
  exists random_part,
    Security.generate_key_id env w = (Ok ("k_" +:+ random_part), Nat.iter 7 drawn w)
    /\ String.length random_part = 7%nat
    /\ PyStr.all_in key_id_alphabet random_part = true
    /\ String.length key_id_alphabet = 62%nat.
Proof.
  destruct (choices_run env key_id_alphabet 7 w) as (s & Hs & _).
  { vm_compute. lia. }
  destruct (choices_all_in env _ _ _ _ _ Hs) as [Hall Hlen].
  exists s. split; [|split; [exact Hlen|split; [exact Hall|reflexivity]]].
  unfold Security.generate_key_id, bind. fold key_id_alphabet. rewrite Hs. reflexivity.
Qed.

(** X4. [generate_secret(n)] always returns: [n] characters (none for a
    negative [n]) of the 64-character alphabet [A-Za-z0-9-_], which has no
    dot, after exactly that many draws. *)
Theorem generate_secret_format (env : Env) (n : Z) (w : World) :
  exists secret,
    Security.generate_secret env n w = (Ok secret, Nat.iter (Z.to_nat n) drawn w)
    /\ Z.of_nat (String.length secret) = Z.max 0 n
    /\ PyStr.all_in secret_alphabet secret = true
    /\ PyStr.contains "." secret = false
    /\ String.length secret_alphabet = 64%nat.
Proof.
  destruct (choices_run env secret_alphabet (Z.to_nat n) w) as (s & Hs & _ & Hdot).
  { vm_compute. lia. }
  destruct (choices_all_in env _ _ _ _ _ Hs) as [Hall Hlen].
  exists s. split; [exact Hs|]. split; [lia|]. split; [exact Hall|].
  split; [|reflexivity]. apply contains_false. apply Hdot. reflexivity.
Qed.

(** ** The store adapter: documents *)

Section Documents.

Context (env : Env).

Lemma store_api_key_run (doc : APIKeyDocument) (w : World) :
  let key := RedisKeyManager._apikey_key (project_id doc) (key_id doc) in
  let project_keys := RedisKeyManager._apiprojectkeys_key (project_id doc) in
  let meta_key := RedisKeyManager._apimeta_key (project_id doc) (key_id doc) in
  let trip := store_trip (project_id doc) (key_id doc) in
  RedisKeyManager.store_api_key env doc w
  = match raises env trip with
    | Some _ =>
        (Ok false,
         apply_some (applied env trip) (RedisKeyManager.store_writes doc) (sent trip w))
    | None =>
        (Ok true,
         with_hashes (insert meta_key {| usage_count := 0; last_used := "" |})
           (with_sets (insert project_keys
                         ({[ key_id doc ]} ∪ default ∅ (sets w !! project_keys)))
              (with_json_docs (insert key (KeyJson doc)) (sent trip w))))
    end.
Proof.
  cbn zeta. unfold RedisKeyManager.store_api_key, try_except, bind,
    RedisKeyManager.batch_trip, ret, store_trip.
  destruct (raises env _); reflexivity.
Qed.

End Documents.

(** X5. What [store_api_key] stored, [get_api_key] returns: when the
    pipeline goes through, the store answers True, a later fetch of the same
    project and key (that does not fail) returns the document as it was
    given, the key id is in the project's set, the usage record is
    [{usage_count: 0, last_used: ""}], and every other document is as it
    was. *)
Theorem store_then_get (env env' : Env) (doc : APIKeyDocument) (w : World) :
  raises env (store_trip (project_id doc) (key_id doc)) = None ->
  raises env' (Single (JSON_GET (RedisKeyManager._apikey_key (project_id doc) (key_id doc))))
    = None ->
  let w1 := snd (RedisKeyManager.store_api_key env doc w) in
  fst (RedisKeyManager.store_api_key env doc w) = Ok true
  /\ fst (RedisKeyManager.get_api_key env' (project_id doc) (key_id doc) w1) = Ok (Some doc)
  /\ key_id doc ∈ key_ids_of w1 (project_id doc)
  /\ hashes w1 !! RedisKeyManager._apimeta_key (project_id doc) (key_id doc)
     = Some {| usage_count := 0; last_used := "" |}
  /\ (forall k, k <> RedisKeyManager._apikey_key (project_id doc) (key_id doc) ->
                json_docs w1 !! k = json_docs w !! k).
Proof.
  intros Hstore Hget w1. subst w1. rewrite store_api_key_run. cbn zeta.
  rewrite Hstore. cbn [fst snd]. split; [reflexivity|]. split; [|split; [|split]].
  - rewrite get_api_key_run. cbn [fst]. unfold fetched. rewrite Hget.
    cbn [json_docs with_hashes with_sets with_json_docs sent].
    rewrite lookup_insert_eq. reflexivity.
  - unfold key_ids_of. cbn [sets with_hashes with_sets with_json_docs sent].
    rewrite lookup_insert_eq. cbn [default]. set_solver.
  - cbn [hashes with_hashes]. apply lookup_insert_eq.
  - intros k Hk. cbn [json_docs with_hashes with_sets with_json_docs sent].
    apply lookup_insert_ne. congruence.
Qed.

Lemma store_then_get_witness :
  let env := Demo.env_with Demo.no_faults in
  fst (RedisKeyManager.get_api_key env "p1" "k1"
         (snd (RedisKeyManager.store_api_key env (Demo.alice_doc false None)
                 Demo.empty_world)))
  = Ok (Some (Demo.alice_doc false None)).
Proof.
  intros env.
  destruct (store_then_get env env (Demo.alice_doc false None) Demo.empty_world
              eq_refl eq_refl) as (_ & H & _).
  exact H.
Defined.

Lemma apply_some_view {T} (v : World -> T) (flags : list bool)
    (steps : list (World -> World)) (w : World) :
  Forall (fun step => forall w0, v (step w0) = v w0) steps ->
  v (apply_some flags steps w) = v w.
Proof.
  revert flags w. induction steps as [|step steps IH]; intros flags w Hall.
  - destruct flags; reflexivity.
  - inversion Hall as [|? ? Hstep Hrest]; subst.
    destruct flags as [|[|] flags]; cbn [apply_some]; [reflexivity| |].
    + rewrite (IH flags (step w) Hrest). apply Hstep.
    + apply (IH flags w Hrest).
Qed.

Ltac unchanged_by_batch v :=
  etransitivity;
  [ apply (apply_some_view v);
    repeat constructor; intros ?;
    cbn [json_docs sets hashes counters streams with_json_docs with_sets with_hashes];
    try reflexivity;
    apply lookup_insert_ne; cbn [project_id key_id]; congruence
  | reflexivity ].

(** X6. A [store_api_key] whose pipeline fails answers False and does not
    raise.  The batch is not rolled back, so some of its three writes may
    have taken effect; but nothing else has: every document other than the
    key's, every set other than the project's and every usage record other
    than the key's is as it was, as are the counters and the streams; the
    key's document is the old one or the new one; and when no command of the
    batch ran, documents, sets and usage records are all as they were. *)
Theorem store_failure_is_contained (env : Env) (doc : APIKeyDocument)
    (f : RedisFault) (w : World) :
  raises env (store_trip (project_id doc) (key_id doc)) = Some f ->
  let r := RedisKeyManager.store_api_key env doc w in
  let key := RedisKeyManager._apikey_key (project_id doc) (key_id doc) in
  fst r = Ok false
  /\ (forall k, k <> key -> json_docs (snd r) !! k = json_docs w !! k)
  /\ (forall k, k <> RedisKeyManager._apiprojectkeys_key (project_id doc) ->
                sets (snd r) !! k = sets w !! k)
  /\ (forall k, k <> RedisKeyManager._apimeta_key (project_id doc) (key_id doc) ->
                hashes (snd r) !! k = hashes w !! k)
  /\ counters (snd r) = counters w
  /\ streams (snd r) = streams w
  /\ (json_docs (snd r) !! key = json_docs w !! key
      \/ json_docs (snd r) !! key = Some (KeyJson doc))
  /\ (applied env (store_trip (project_id doc) (key_id doc)) = [] ->
      json_docs (snd r) = json_docs w /\ sets (snd r) = sets w
      /\ hashes (snd r) = hashes w).
Proof.
  intros Hf r key. subst r key. rewrite store_api_key_run. cbn zeta. rewrite Hf.
  cbn [fst snd]. split; [reflexivity|].
  set (trip := store_trip (project_id doc) (key_id doc)).
  split; [|split; [|split; [|split; [|split; [|split]]]]].
  - intros k Hk. unchanged_by_batch (fun w0 : World => json_docs w0 !! k).
  - intros k Hk. unchanged_by_batch (fun w0 : World => sets w0 !! k).
  - intros k Hk. unchanged_by_batch (fun w0 : World => hashes w0 !! k).
  - unchanged_by_batch counters.
  - unchanged_by_batch streams.
  - unfold RedisKeyManager.store_writes.
    destruct (applied env trip) as [|[|] flags]; cbn [apply_some]; [left; reflexivity| |].
    + right.
      etransitivity;
        [apply (apply_some_view
                  (fun w0 : World =>
                     json_docs w0 !! RedisKeyManager._apikey_key (project_id doc)
                                       (key_id doc)));
         repeat constructor; intros ?; reflexivity|].
      cbn [json_docs with_json_docs]. apply lookup_insert_eq.
    + left.
      etransitivity;
        [apply (apply_some_view
                  (fun w0 : World =>
                     json_docs w0 !! RedisKeyManager._apikey_key (project_id doc)
                                       (key_id doc)));
         repeat constructor; intros ?; reflexivity|reflexivity].
  - intros ->. unfold RedisKeyManager.store_writes. cbn [apply_some].
    repeat split.
Qed.

(** A batch whose second command is refused after the first and the third
    ran: the answer is False and the document is in the store. *)
Lemma store_failure_is_contained_witness :
  let env := {| raises := fun _ => Some ResponseFault;
                applied := fun _ => [true; false; true];
                clock := fun _ => inject_Z 1000; entropy := fun n => n;
                isoformat := fun _ => "1970-01-01T00:16:40";
                argon2 := Demo.toy_argon2; ADMIN_SECRET := Some "admin" |} in
  let r := RedisKeyManager.store_api_key env (Demo.alice_doc false None)
             Demo.empty_world in
  fst r = Ok false
  /\ json_docs (snd r) !! "apikey:p1:k1" = Some (KeyJson (Demo.alice_doc false None))
  /\ sets (snd r) !! "apiprojectkeys:p1" = None.
Proof.
  intros env r.
  destruct (store_failure_is_contained env (Demo.alice_doc false None) ResponseFault
              Demo.empty_world eq_refl) as [H _].
  split; [exact H|]. split; vm_compute; reflexivity.
Defined.

(** X7. [get_api_key] never raises and never writes: it returns a document
    exactly when the fetch goes through and the stored value validates as
    an API key document, and None for a failed fetch, a missing key and a
    value that does not validate alike; the store holds what it held. *)
Theorem get_api_key_reads_only (env : Env) (pid kid : string) (w : World) :
  exists r w',
    RedisKeyManager.get_api_key env pid kid w = (Ok r, w')
    /\ (forall d, r = Some d
                  <-> raises env (Single (JSON_GET (RedisKeyManager._apikey_key pid kid)))
                      = None
                      /\ json_docs w !! RedisKeyManager._apikey_key pid kid
                         = Some (KeyJson d))
    /\ json_docs w' = json_docs w /\ sets w' = sets w /\ hashes w' = hashes w
    /\ counters w' = counters w /\ streams w' = streams w
    /\ wire w' = (wire w ++ [Single (JSON_GET (RedisKeyManager._apikey_key pid kid))])%list.
Proof.
  eexists _, _. split; [apply get_api_key_run|].
  split; [|repeat split].
  intros d. unfold fetched.
  destruct (raises env _); [split; [discriminate|intros [H _]; discriminate]|].
  destruct (json_docs w !! _) as [[d'|q|b]|].
  - split; [intros [= ->]; split; reflexivity|intros [_ [= ->]]; reflexivity].
  - split; [discriminate|intros [_ H]; discriminate].
  - split; [discriminate|intros [_ H]; discriminate].
  - split; [discriminate|intros [_ H]; discriminate].
Qed.

(** X8. [revoke_api_key] on a stored key document whose round-trip goes
    through answers True and sets [disabled]; every other field of the
    document and every other document stay, and revoking a document that is
    already disabled leaves the documents exactly as they were. *)
Theorem revoke_sets_disabled_only (env : Env) (pid kid : string)
    (d : APIKeyDocument) (w : World) :
  raises env (Single (JSON_SET (RedisKeyManager._apikey_key pid kid) "$.disabled")) = None ->
  json_docs w !! RedisKeyManager._apikey_key pid kid = Some (KeyJson d) ->
  let r := RedisKeyManager.revoke_api_key env pid kid w in
  fst r = Ok true
  /\ (exists d', json_docs (snd r) !! RedisKeyManager._apikey_key pid kid = Some (KeyJson d')
                 /\ disabled d' = true
                 /\ key_id d' = key_id d /\ project_id d' = project_id d
                 /\ owner d' = owner d /\ metadata d' = metadata d
                 /\ secret_hash d' = secret_hash d /\ created_at d' = created_at d
                 /\ expires_at d' = expires_at d)
  /\ (forall k, k <> RedisKeyManager._apikey_key pid kid ->
                json_docs (snd r) !! k = json_docs w !! k)
  /\ (disabled d = true -> json_docs (snd r) = json_docs w)
  /\ sets (snd r) = sets w /\ hashes (snd r) = hashes w.
Proof.
  intros Hok Hdoc r. subst r. rewrite revoke_api_key_run. cbn zeta.
  rewrite Hok, Hdoc. cbn [fst snd json_docs with_json_docs sent].
  split; [reflexivity|]. split; [|split; [|split]].
  - exists (RedisKeyManager.disable d). rewrite lookup_insert_eq. repeat split.
  - intros k Hk. apply lookup_insert_ne. congruence.
  - intros Hd. apply insert_id. rewrite Hdoc. f_equal. f_equal.
    destruct d; cbn in Hd |- *. subst. reflexivity.
  - split; reflexivity.
Qed.

Lemma revoke_sets_disabled_only_witness :
  fst (RedisKeyManager.revoke_api_key (Demo.env_with Demo.no_faults) "p1" "k1"
         (Demo.one_key_world (Demo.alice_doc false None)))
  = Ok true.
Proof.
  destruct (revoke_sets_disabled_only (Demo.env_with Demo.no_faults) "p1" "k1"
              (Demo.alice_doc false None)
              (Demo.one_key_world (Demo.alice_doc false None)) eq_refl eq_refl)
    as [H _].
  exact H.
Defined.

(** X9. [revoke_api_key] on a key that is not stored, or whose round-trip
    fails, answers False (it does not raise) and creates nothing: the
    documents are as they were. *)
Theorem revoke_missing_is_false (env : Env) (pid kid : string) (w : World) :
  json_docs w !! RedisKeyManager._apikey_key pid kid = None
  \/ raises env (Single (JSON_SET (RedisKeyManager._apikey_key pid kid) "$.disabled"))
     <> None ->
  let r := RedisKeyManager.revoke_api_key env pid kid w in
  fst r = Ok false /\ json_docs (snd r) = json_docs w.
Proof.
  intros H r. subst r. rewrite revoke_api_key_run. cbn zeta.
  destruct (raises env _) as [f|]; [split; reflexivity|].
  destruct H as [-> | H]; [split; reflexivity|congruence].
Qed.

Lemma revoke_missing_is_false_witness :
  fst (RedisKeyManager.revoke_api_key (Demo.env_with Demo.no_faults) "p1" "nope"
         (Demo.one_key_world (Demo.alice_doc false None)))
  = Ok false.
Proof.
  destruct (revoke_missing_is_false (Demo.env_with Demo.no_faults) "p1" "nope"
              (Demo.one_key_world (Demo.alice_doc false None)) (or_introl eq_refl))
    as [H _].
  exact H.
Defined.

(** ** Revoking, then validating *)

(** X10. The revoke endpoint answers 404 [key_not_found] exactly when the
    lookup yields no document, and then, as for a 500, the documents are as
    they were; it answers 200 exactly when the lookup yields a document and
    the update goes through, and then that document, and no other, has
    become disabled. *)
Theorem revoke_key_answers (env : Env) (pid kid : string) (w : World) :
  exists resp w',
    Main.revoke_key env pid kid w = (Ok resp, w')
    /\ (status_code resp = 404 <-> fetched env w pid kid = None)
    /\ (status_code resp <> 200 -> json_docs w' = json_docs w)
    /\ (status_code resp = 200 ->
        exists d, fetched env w pid kid = Some d
                  /\ json_docs w'
                     = <[RedisKeyManager._apikey_key pid kid
                         := KeyJson (RedisKeyManager.disable d)]> (json_docs w))
    /\ (status_code resp = 200 \/ status_code resp = 404 \/ status_code resp = 500).
Proof.
  rewrite revoke_key_run. cbn zeta.
  destruct (fetched env w pid kid) as [d|].
  - destruct (raises env _); eexists _, _; (split; [reflexivity|]); cbn.
    + split; [split; discriminate|]. split; [reflexivity|].
      split; [discriminate|]. right; right; reflexivity.
    + split; [split; discriminate|]. split; [congruence|].
      split; [|left; reflexivity]. intros _. exists d. split; reflexivity.
  - eexists _, _. split; [reflexivity|]. cbn.
    split; [split; reflexivity|]. split; [reflexivity|].
    split; [discriminate|]. right; left; reflexivity.
Qed.

(** X11. Once the revoke endpoint has answered 200 for a project and a key,
    a validate of any credential naming that project and key, with any
    secret and under any later conditions of the store, answers 401
    [invalid_key] as long as the document is not written again. *)
Theorem revoked_key_is_rejected (env env' : Env) (pid kid : string) (w w1 : World)
    (resp : Response) (api_key : string) (p : ParsedAPIKey) :
  Main.revoke_key env pid kid w = (Ok resp, w1) ->
  status_code resp = 200 ->
  ParsedAPIKey.parse api_key = Ok p ->
  pk_project_id p = pid ->
  pk_key_id p = kid ->
  fst (Main.validate_key env' api_key w1) = Ok invalid_key_response.
Proof.
  intros Hrun Hst Hparse <- <-. rewrite revoke_key_run in Hrun. cbn zeta in Hrun.
  destruct (fetched env w _ _) as [d|]; [|injection Hrun as <- _; discriminate].
  destruct (raises env _); injection Hrun as <- <-; [discriminate|].
  rewrite (validate_key_run env' _ _ _ Hparse). cbn [fst].
  rewrite (validate_run_dead env' p (RedisKeyManager.disable d)); [reflexivity| |reflexivity].
  cbn [json_docs with_json_docs]. apply lookup_insert_eq.
Qed.

Lemma revoked_key_is_rejected_witness :
  let env := Demo.env_with Demo.no_faults in
  let w := Demo.one_key_world (Demo.alice_doc false None) in
  fst (Main.validate_key env Demo.alice_key (snd (Main.revoke_key env "p1" "k1" w)))
  = Ok invalid_key_response.
Proof.
  intros env w.
  apply (revoked_key_is_rejected env env "p1" "k1" w _
           (Main.ok_response (Main.RevokeKeyResponse true)) Demo.alice_key
           {| pk_project_id := "p1"; pk_key_id := "k1"; pk_secret := "s3cret" |});
    reflexivity.
Defined.

(** ** What a validate leaves alone *)

Section Untouched.

Context (env : Env).

Lemma documents_after_event p r w :
  json_docs (after_event env p r w) = json_docs w
  /\ sets (after_event env p r w) = sets w
  /\ counters (after_event env p r w) = counters w
  /\ expiries (after_event env p r w) = expiries w.
Proof. unfold after_event, after_audit. destruct (raises env _); repeat split. Qed.

Lemma documents_after_liveness d w :
  json_docs (after_liveness d w) = json_docs w
  /\ sets (after_liveness d w) = sets w
  /\ counters (after_liveness d w) = counters w
  /\ expiries (after_liveness d w) = expiries w.
Proof. unfold after_liveness. destruct (disabled d), (expires_at d); repeat split. Qed.

Lemma documents_after_gate pid kid w :
  json_docs (after_gate env pid kid w) = json_docs w
  /\ sets (after_gate env pid kid w) = sets w.
Proof. unfold after_gate. destruct (raises env _); repeat split. Qed.

Lemma documents_after_usage pid kid w :
  json_docs (after_usage env pid kid w) = json_docs w
  /\ sets (after_usage env pid kid w) = sets w.
Proof. unfold after_usage. destruct (raises env _); repeat split. Qed.

Lemma validate_run_documents (p : ParsedAPIKey) (w : World) :
  json_docs (snd (validate_run env p w)) = json_docs w
  /\ sets (snd (validate_run env p w)) = sets w.
Proof.
  unfold validate_run.
  repeat match goal with
         | |- context [match ?x with _ => _ end] => destruct x
         end;
    cbn [snd];
    repeat first
      [ rewrite (proj1 (documents_after_usage _ _ _))
      | rewrite (proj2 (documents_after_usage _ _ _))
      | rewrite (proj1 (documents_after_event _ _ _))
      | rewrite (proj1 (proj2 (documents_after_event _ _ _)))
      | rewrite (proj1 (documents_after_gate _ _ _))
      | rewrite (proj2 (documents_after_gate _ _ _))
      | rewrite (proj1 (documents_after_liveness _ _))
      | rewrite (proj1 (proj2 (documents_after_liveness _ _))) ];
    split; reflexivity.
Qed.

Lemma validate_run_counters (p : ParsedAPIKey) (w : World) :
  counters (snd (validate_run env p w)) <> counters w ->
  exists d, fetched env w (pk_project_id p) (pk_key_id p) = Some d
            /\ valid_at (clock env (ticks w)) d = true
            /\ Security.verify_password (argon2 env) (pk_secret p) (secret_hash d)
               = Ok true.
Proof.
  unfold validate_run.
  destruct (fetched env w _ _) as [d|]; cbn [snd].
  2:{ rewrite (proj1 (proj2 (proj2 (documents_after_event _ _ _)))).
      intros H. destruct (H eq_refl). }
  destruct (valid_at _ d) eqn:Hvalid; cbn [negb snd].
  2:{ rewrite (proj1 (proj2 (proj2 (documents_after_event _ _ _)))),
        (proj1 (proj2 (proj2 (documents_after_liveness _ _)))).
      intros H. destruct (H eq_refl). }
  destruct (Security.verify_password _ _ _) as [[|]|e] eqn:Hverify; cbn [snd].
  - intros _. exists d. split; [reflexivity|]. split; assumption.
  - rewrite (proj1 (proj2 (proj2 (documents_after_event _ _ _)))),
      (proj1 (proj2 (proj2 (documents_after_liveness _ _)))).
    intros H. destruct (H eq_refl).
  - rewrite (proj1 (proj2 (proj2 (documents_after_liveness _ _)))).
    intros H. destruct (H eq_refl).
Qed.

End Untouched.

(** X12. A validate never writes a document or a key-id set: whatever the
    credential, the store's answers and its failures, the JSON documents
    and the sets after the request are those before it. *)
Theorem validate_writes_no_document (env : Env) (api_key : string) (w : World) :
  json_docs (snd (Main.validate_key env api_key w)) = json_docs w
  /\ sets (snd (Main.validate_key env api_key w)) = sets w.
Proof.
  destruct (ParsedAPIKey.parse api_key) as [p|e] eqn:Hparse.
  - rewrite (validate_key_run env _ _ _ Hparse). cbn [snd].
    apply validate_run_documents.
  - rewrite (validate_key_malformed env _ _ _ Hparse). split; reflexivity.
Qed.

(** X13. The rate counters move only for a caller who knows the secret: if
    a validate changed any counter, the credential parsed, its document was
    fetched and live, and the presented secret verified against the stored
    hash. *)
Theorem rate_counter_needs_the_secret (env : Env) (api_key : string) (w : World) :
  counters (snd (Main.validate_key env api_key w)) <> counters w ->
  exists p d,
    ParsedAPIKey.parse api_key = Ok p
    /\ fetched env w (pk_project_id p) (pk_key_id p) = Some d
    /\ valid_at (clock env (ticks w)) d = true
    /\ Security.verify_password (argon2 env) (pk_secret p) (secret_hash d) = Ok true.
Proof.
  intros H. destruct (ParsedAPIKey.parse api_key) as [p|e] eqn:Hparse.
  - rewrite (validate_key_run env _ _ _ Hparse) in H. cbn [snd] in H.
    destruct (validate_run_counters env p w H) as (d & Hd).
    exists p, d. split; [reflexivity|exact Hd].
  - rewrite (validate_key_malformed env _ _ _ Hparse) in H. destruct (H eq_refl).
Qed.

Lemma rate_counter_needs_the_secret_witness :
  exists p d,
    ParsedAPIKey.parse Demo.alice_key = Ok p
    /\ fetched (Demo.env_with Demo.no_faults)
         (Demo.one_key_world (Demo.alice_doc false None))
         (pk_project_id p) (pk_key_id p) = Some d
    /\ valid_at (inject_Z 1000) d = true
    /\ Security.verify_password Demo.toy_argon2 (pk_secret p) (secret_hash d) = Ok true.
Proof.
  apply (rate_counter_needs_the_secret (Demo.env_with Demo.no_faults) Demo.alice_key
           (Demo.one_key_world (Demo.alice_doc false None))).
  intros H. apply (f_equal (fun m => m !! "ratelimit:key:p1:k1:16")) in H.
  vm_compute in H. discriminate.
Defined.

(** ** Minting, then validating *)

Lemma iter_drawn_fields (n : nat) (w : World) :
  json_docs (Nat.iter n drawn w) = json_docs w
  /\ sets (Nat.iter n drawn w) = sets w
  /\ hashes (Nat.iter n drawn w) = hashes w
  /\ counters (Nat.iter n drawn w) = counters w
  /\ streams (Nat.iter n drawn w) = streams w
  /\ ticks (Nat.iter n drawn w) = ticks w.
Proof.
  induction n as [|n IH]; [repeat split|].
  cbn [Nat.iter nat_rect]. exact IH.
Qed.

(** The document a mint composes from its request and its draws. *)
Lemma mint_key_world (env : Env) (request : Main.MintKeyRequest) (w : World) :
  exists kid secret salt now w3,
    Security.generate_key_id env w = (Ok kid, Nat.iter 7 drawn w)
    /\ PyStr.count "." kid = O
    /\ String.length secret = 32%nat
    /\ json_docs w3 = json_docs w /\ sets w3 = sets w /\ hashes w3 = hashes w
    /\ let pid := Main.mint_project_id request in
       let doc :=
         {| key_id := kid; project_id := pid; owner := Main.mint_owner request;
            metadata := Main.mint_metadata request;
            secret_hash := hash_secret (argon2 env) secret salt; disabled := false;
            created_at := now; expires_at := Main.mint_expires_at request |} in
       Main.mint_key env request w
       = match raises env (store_trip pid kid) with
         | Some _ =>
             (Ok (Main.create_error_response "storage_error"
                    "Failed to store API key" 500),
              apply_some (applied env (store_trip pid kid))
                (RedisKeyManager.store_writes doc) (sent (store_trip pid kid) w3))
         | None =>
             (Ok (Main.ok_response
                    (Main.MintKeyResponse
                       (ParsedAPIKey.format_key
                          {| pk_project_id := pid; pk_key_id := kid;
                             pk_secret := secret |}))),
              with_hashes
                (insert (RedisKeyManager._apimeta_key pid kid)
                   {| usage_count := 0; last_used := "" |})
                (with_sets
                   (insert (RedisKeyManager._apiprojectkeys_key pid)
                      ({[ kid ]} ∪ default ∅ (sets w3 !! RedisKeyManager._apiprojectkeys_key pid)))
                   (with_json_docs (insert (RedisKeyManager._apikey_key pid kid) (KeyJson doc))
                      (sent (store_trip pid kid) w3))))
         end.
Proof.
  destruct (generate_key_id_run env w) as (s & Hk & _ & Hc).
  destruct (generate_secret_run env 32 (Nat.iter 7 drawn w)) as (sec & Hs & Hlen).
  set (w2 := Nat.iter (Z.to_nat 32) drawn (Nat.iter 7 drawn w)) in *.
  exists ("k_" +:+ s), sec, (entropy env (draws w2)), (clock env (ticks w2)),
    (tick (drawn w2)).
  split; [exact Hk|]. split; [exact Hc|]. split; [exact Hlen|].
  destruct (iter_drawn_fields (Z.to_nat 32) (Nat.iter 7 drawn w)) as (J2 & S2 & H2 & _).
  destruct (iter_drawn_fields 7 w) as (J1 & S1 & H1 & _).
  fold w2 in J2, S2, H2.
  split; [cbn [json_docs tick drawn]; congruence|].
  split; [cbn [sets tick drawn]; congruence|].
  split; [cbn [hashes tick drawn]; congruence|].
  cbn zeta. unfold Main.mint_key, try_except.
  unfold bind at 1. rewrite Hk. unfold bind at 1. rewrite Hs. fold w2.
  unfold bind at 1. unfold Security.hash_password.
  unfold bind at 1. unfold RedisKeyManager.datetime_now.
  unfold bind at 1. rewrite store_api_key_run. cbn zeta.
  cbn [key_id project_id ticks drawn].
  destruct (raises env _); reflexivity.
Qed.

(** X14. A mint that answers 200 has stored, under the key of the
    request's project and the fresh key id, a document with the request's
    owner, metadata and expiry, enabled, whose hash is the hash of the
    32-character secret of the returned wire form; the key id is in the
    project's set and the usage record starts at zero. *)
Theorem mint_stores_the_document (env : Env) (request : Main.MintKeyRequest)
    (w w' : World) (resp : Response) :
  Main.mint_key env request w = (Ok resp, w') ->
  status_code resp = 200 ->
  exists kid secret salt doc,
    content resp
    = Main.MintKeyResponse
        (ParsedAPIKey.format_key
           {| pk_project_id := Main.mint_project_id request; pk_key_id := kid;
              pk_secret := secret |})
    /\ String.length secret = 32%nat
    /\ json_docs w' !! RedisKeyManager._apikey_key (Main.mint_project_id request) kid
       = Some (KeyJson doc)
    /\ key_id doc = kid
    /\ project_id doc = Main.mint_project_id request
    /\ owner doc = Main.mint_owner request
    /\ metadata doc = Main.mint_metadata request
    /\ expires_at doc = Main.mint_expires_at request
    /\ disabled doc = false
    /\ secret_hash doc = hash_secret (argon2 env) secret salt
    /\ kid ∈ key_ids_of w' (Main.mint_project_id request)
    /\ hashes w' !! RedisKeyManager._apimeta_key (Main.mint_project_id request) kid
       = Some {| usage_count := 0; last_used := "" |}.
Proof.
  intros Hrun Hst.
  destruct (mint_key_world env request w)
    as (kid & secret & salt & now & w3 & _ & _ & Hlen & _ & _ & _ & Hm).
  cbn zeta in Hm. rewrite Hm in Hrun.
  destruct (raises env _); injection Hrun as <- <-; [discriminate|].
  exists kid, secret, salt. eexists. split; [reflexivity|]. split; [exact Hlen|].
  split; [cbn [json_docs with_hashes with_sets with_json_docs]; apply lookup_insert_eq|].
  repeat (split; [reflexivity|]). split.
  - unfold key_ids_of. cbn [sets with_hashes with_sets]. rewrite lookup_insert_eq.
    cbn [default]. set_solver.
  - cbn [hashes with_hashes]. apply lookup_insert_eq.
Qed.

Lemma mint_stores_the_document_witness :
  let env := Demo.env_with Demo.no_faults in
  let request := {| Main.mint_project_id := "p1"; Main.mint_owner := "alice";
                    Main.mint_metadata := "srv-a"; Main.mint_expires_at := None |} in
  exists kid doc,
    json_docs (snd (Main.mint_key env request Demo.empty_world))
      !! RedisKeyManager._apikey_key "p1" kid = Some (KeyJson doc)
    /\ owner doc = "alice" /\ disabled doc = false.
Proof.
  intros env request.
  destruct (mint_stores_the_document env request Demo.empty_world
              (snd (Main.mint_key env request Demo.empty_world))
              (Main.ok_response
                 (Main.MintKeyResponse
                    "sk-proj.p1.k_abcdefg.hijklmnopqrstuvwxyzABCDEFGHIJKLM"))
              ltac:(vm_compute; reflexivity) eq_refl)
    as (kid & secret & salt & doc & _ & _ & Hdoc & _ & _ & Ho & _ & _ & Hd & _).
  exists kid, doc. split; [exact Hdoc|]. split; [exact Ho|exact Hd].
Defined.



(** X16. A minted key validates.  Take a hasher that verifies what it
    hashed, a project id without dot, and a mint that answered 200 for the
    key id it drew.  A validate of the returned wire form against the store
    the mint left answers 200 with the project id, the minted key id and the
    owner and metadata of the mint request, provided the document fetch goes
    through, the clock is not past the requested expiry, and the bucket of
    this key for the current minute holds fewer than 100. *)
Theorem minted_key_validates (env env' : Env) (request : Main.MintKeyRequest)
    (w wk w1 : World) (resp : Response) (kid : string) :
  (forall secret salt,
      PasswordHasher.verify (argon2 env') (hash_secret (argon2 env) secret salt) secret
      = Ok true) ->
  PyStr.contains "." (Main.mint_project_id request) = false ->
  Security.generate_key_id env w = (Ok kid, wk) ->
  Main.mint_key env request w = (Ok resp, w1) ->
  status_code resp = 200 ->
  raises env' (Single (JSON_GET (RedisKeyManager._apikey_key
                                   (Main.mint_project_id request) kid))) = None ->
  (forall e, Main.mint_expires_at request = Some e -> (clock env' (ticks w1) <= e)%Q) ->
  counter_of w1
    (RedisKeyManager._ratelimit_key (Main.mint_project_id request) kid
       (Qfloor (clock env' (match Main.mint_expires_at request with
                            | Some _ => S (ticks w1)
                            | None => ticks w1
                            end) / inject_Z 60))) < 100 ->
  exists secret,
    content resp
    = Main.MintKeyResponse
        (ParsedAPIKey.format_key
           {| pk_project_id := Main.mint_project_id request; pk_key_id := kid;
              pk_secret := secret |})
    /\ fst (Main.validate_key env'
              (ParsedAPIKey.format_key
                 {| pk_project_id := Main.mint_project_id request; pk_key_id := kid;
                    pk_secret := secret |}) w1)
       = Ok (Main.ok_response
               (Main.ValidateKeyResponse (Main.mint_project_id request) kid
                  (Main.mint_owner request) (Main.mint_metadata request))).
Proof.
  intros Hsound Hpid Hkid Hrun Hst Hreach Hexp Hbucket.
  destruct (mint_key_world env request w)
    as (kid' & secret & salt & now & w3 & Hk & Hdot & _ & _ & _ & _ & Hm).
  rewrite Hkid in Hk. injection Hk as <- _.
  cbn zeta in Hm. rewrite Hm in Hrun.
  destruct (raises env _); injection Hrun as <- <-; [discriminate|].
  exists secret. split; [reflexivity|].
  set (p := {| pk_project_id := Main.mint_project_id request; pk_key_id := kid;
               pk_secret := secret |}).
  set (doc := {| key_id := kid; project_id := Main.mint_project_id request;
                 owner := Main.mint_owner request;
                 metadata := Main.mint_metadata request;
                 secret_hash := hash_secret (argon2 env) secret salt;
                 disabled := false; created_at := now;
                 expires_at := Main.mint_expires_at request |}) in *.
  set (w1 := with_hashes _ _) in *.
  assert (Hparse : ParsedAPIKey.parse (ParsedAPIKey.format_key p) = Ok p).
  { apply parse_format; [apply contains_false; exact Hpid|exact Hdot]. }
  rewrite (validate_key_run env' _ _ _ Hparse). cbn [fst].
  unfold validate_run, fetched. cbn [pk_project_id pk_key_id pk_secret p].
  rewrite Hreach.
  assert (Hdoc : json_docs w1 !! RedisKeyManager._apikey_key (Main.mint_project_id request) kid
                 = Some (KeyJson doc)).
  { subst w1. cbn [json_docs with_hashes with_sets with_json_docs].
    apply lookup_insert_eq. }
  rewrite Hdoc.
  assert (Hvalid : valid_at (clock env' (ticks w1)) doc = true).
  { unfold valid_at, expired_at, Qgtb. subst doc. cbn [disabled expires_at negb andb].
    destruct (Main.mint_expires_at request) as [e|]; [|reflexivity].
    apply negb_true_iff, negb_false_iff, Qle_bool_iff, Hexp. reflexivity. }
  rewrite Hvalid. cbn [negb].
  replace (Security.verify_password (argon2 env') secret (secret_hash doc)) with (Ok true : Result bool).
  2:{ unfold Security.verify_password. subst doc. cbn [secret_hash].
      rewrite Hsound. reflexivity. }
  cbn [negb].
  replace (allows_at env' (Main.mint_project_id request) kid 100
             (after_liveness doc (sent (fetch_trip p) w1))) with true.
  - reflexivity.
  - symmetry. unfold allows_at.
    destruct (raises env' (rate_pipeline _)); [reflexivity|].
    apply Z.leb_le.
    assert (Hkey : rate_key_at env' (Main.mint_project_id request) kid
                     (after_liveness doc (sent (fetch_trip p) w1))
                   = RedisKeyManager._ratelimit_key (Main.mint_project_id request) kid
                       (Qfloor (clock env' (match Main.mint_expires_at request with
                                            | Some _ => S (ticks w1)
                                            | None => ticks w1
                                            end) / inject_Z 60))).
    { unfold rate_key_at, after_liveness. subst doc. cbn [disabled expires_at].
      destruct (Main.mint_expires_at request); reflexivity. }
    rewrite Hkey.
    assert (Hc : forall k, counter_of (after_liveness doc (sent (fetch_trip p) w1)) k
                           = counter_of w1 k).
    { intros k. unfold counter_of. rewrite counters_after_liveness. reflexivity. }
    rewrite Hc. lia.
Qed.

Lemma toy_argon2_verifies (secret : string) (salt : nat) :
  PasswordHasher.verify Demo.toy_argon2 (hash_secret Demo.toy_argon2 secret salt) secret
  = Ok true.
Proof.
  unfold PasswordHasher.verify. cbn [hash_secret verify_secret Demo.toy_argon2].
  replace (PasswordHasher.header_known ("$argon2id$" +:+ secret)) with true
    by reflexivity.
  cbn [negb]. rewrite String.eqb_refl. reflexivity.
Qed.

Lemma minted_key_validates_witness :
  let env := Demo.env_with Demo.no_faults in
  let request := {| Main.mint_project_id := "p1"; Main.mint_owner := "alice";
                    Main.mint_metadata := "srv-a"; Main.mint_expires_at := None |} in
  exists secret,
    fst (Main.validate_key env
           (ParsedAPIKey.format_key
              {| pk_project_id := "p1"; pk_key_id := "k_abcdefg"; pk_secret := secret |})
           (snd (Main.mint_key env request Demo.empty_world)))
    = Ok (Main.ok_response (Main.ValidateKeyResponse "p1" "k_abcdefg" "alice" "srv-a")).
Proof.
  intros env request.
  destruct (minted_key_validates env env request Demo.empty_world
              (snd (Security.generate_key_id env Demo.empty_world))
              (snd (Main.mint_key env request Demo.empty_world))
              (Main.ok_response
                 (Main.MintKeyResponse
                    "sk-proj.p1.k_abcdefg.hijklmnopqrstuvwxyzABCDEFGHIJKLM"))
              "k_abcdefg")
    as (secret & _ & H).
  - exact toy_argon2_verifies.
  - reflexivity.
  - vm_compute. reflexivity.
  - vm_compute. reflexivity.
  - reflexivity.
  - reflexivity.
  - intros e He. discriminate.
  - vm_compute. reflexivity.
  - exists secret. exact H.
Defined.

(** ** Projects *)

(** X17. The create-project endpoint answers 409 [project_exists] exactly
    when its lookup yields a project, 200 exactly when the lookup yields
    none and the write goes through, and 500 [storage_error] otherwise; only
    a 200 changes the documents, and it writes the project with the given
    label and owner under [project:{id}].  A lookup that fails yields none,
    so the write then replaces a project that is already there. *)
Theorem create_project_answers (env : Env) (pid label owner : string) (w : World) :
  exists resp w',
    Main.create_project env pid label owner w = (Ok resp, w')
    /\ (status_code resp = 409 <-> fetched_project env w pid <> None)
    /\ (status_code resp = 200
        <-> fetched_project env w pid = None
            /\ raises env (Single (JSON_SET (RedisKeyManager._project_key pid) "$")) = None)
    /\ (status_code resp <> 200 -> json_docs w' = json_docs w)
    /\ (status_code resp = 200 ->
        json_docs w'
        = <[RedisKeyManager._project_key pid
            := ProjectJson {| proj_project_id := pid; proj_label := label;
                              proj_owner := owner;
                              proj_created_at := clock env (ticks w) |}]> (json_docs w))
    /\ (status_code resp = 200 \/ status_code resp = 409 \/ status_code resp = 500).
Proof.
  rewrite create_project_run. cbn zeta.
  destruct (fetched_project env w pid) as [p|].
  - eexists _, _. split; [reflexivity|]. cbn.
    split; [split; [discriminate|reflexivity]|].
    split; [split; [discriminate|intros [H _]; discriminate]|].
    split; [reflexivity|]. split; [discriminate|]. right; left; reflexivity.
  - destruct (raises env _) as [f|]; eexists _, _; (split; [reflexivity|]); cbn.
    + split; [split; [discriminate|congruence]|].
      split; [split; [discriminate|intros [_ H]; discriminate]|].
      split; [reflexivity|]. split; [discriminate|]. right; right; reflexivity.
    + split; [split; [discriminate|congruence]|].
      split; [split; [split; reflexivity|reflexivity]|].
      split; [congruence|]. split; [reflexivity|]. left; reflexivity.
Qed.

(** X18. Creating a project twice: after a create that answered 200, a
    second create of the same id whose lookup goes through answers 409 and
    leaves the documents as the first create left them, and a get of the
    project answers the first create's label and owner. *)
Theorem second_create_is_refused (env env' : Env) (pid label owner label' owner' : string)
    (w w1 : World) (resp : Response) :
  Main.create_project env pid label owner w = (Ok resp, w1) ->
  status_code resp = 200 ->
  raises env' (Single (JSON_GET (RedisKeyManager._project_key pid))) = None ->
  (exists w2,
      Main.create_project env' pid label' owner' w1
      = (Ok (Main.create_error_response "project_exists" "Project already exists" 409), w2)
      /\ json_docs w2 = json_docs w1)
  /\ fst (Main.get_project env' pid w1)
     = Ok (Main.ok_response
             (JObj [("project_id", JStr pid); ("label", JStr label);
                    ("owner", JStr owner);
                    ("created_at", JNum (clock env (ticks w)))])).
Proof.
  intros Hrun Hst Hget. rewrite create_project_run in Hrun. cbn zeta in Hrun.
  destruct (fetched_project env w pid); [injection Hrun as <- _; discriminate|].
  destruct (raises env _); injection Hrun as <- <-; [discriminate|].
  assert (Hf : fetched_project env'
                 (with_json_docs
                    (insert (RedisKeyManager._project_key pid)
                       (ProjectJson
                          {| proj_project_id := pid; proj_label := label;
                             proj_owner := owner;
                             proj_created_at := clock env (ticks w) |}))
                    (sent (Single (JSON_SET (RedisKeyManager._project_key pid) "$"))
                       (tick (sent (Single (JSON_GET (RedisKeyManager._project_key pid))) w))))
                 pid
               = Some {| proj_project_id := pid; proj_label := label;
                         proj_owner := owner;
                         proj_created_at := clock env (ticks w) |}).
  { unfold fetched_project. rewrite Hget. cbn [json_docs with_json_docs].
    rewrite lookup_insert_eq. reflexivity. }
  split.
  - rewrite create_project_run. cbn zeta. rewrite Hf. eexists. split; reflexivity.
  - rewrite get_project_run, Hf. reflexivity.
Qed.

Lemma second_create_is_refused_witness :
  let env := Demo.env_with Demo.no_faults in
  fst (Main.get_project env "p1"
         (snd (Main.create_project env "p1" "Project One" "alice" Demo.empty_world)))
  = Ok (Main.ok_response
          (JObj [("project_id", JStr "p1"); ("label", JStr "Project One");
                 ("owner", JStr "alice"); ("created_at", JNum (inject_Z 1000))])).
Proof.
  intros env.
  destruct (second_create_is_refused env env "p1" "Project One" "alice" "Other" "bob"
              Demo.empty_world
              (snd (Main.create_project env "p1" "Project One" "alice" Demo.empty_world))
              (Main.ok_response (JObj [("project_id", JStr "p1"); ("created", JBool true)]))
              ltac:(vm_compute; reflexivity) eq_refl eq_refl)
    as [_ H].
  exact H.
Defined.

(** ** The admin gate *)

Lemma verify_admin_auth_ok (env : Env) (credentials : option string) :
  Main.verify_admin_auth env credentials = Ok true <-> authorized env credentials.
Proof.
  unfold Main.verify_admin_auth, Main.admin_secret_missing, authorized.
  destruct (ADMIN_SECRET env) as [s|] eqn:Hs.
  - destruct (String.eqb_spec s "") as [->|Hne].
    + split; [discriminate|]. intros (s' & [= <-] & Hne & _). congruence.
    + destruct credentials as [token|].
      * destruct (bool_decide_reflect (Some token = Some s)) as [[= ->]|Hneq]; cbn [negb].
        -- split; [|reflexivity]. intros _. exists s. repeat split; assumption.
        -- split; [discriminate|]. intros (s' & [= <-] & _ & H). congruence.
      * split; [discriminate|]. intros (s' & _ & _ & H). discriminate.
  - split; [discriminate|]. intros (s' & H & _). discriminate.
Qed.

(** X19. The admin gate lets a request through exactly when the admin
    secret is configured, not empty, and equal to the presented bearer
    token; then the handler runs as it is.  Otherwise the handler does not
    run and nothing reaches the store: the world is as it was, and the
    answer is 503 when the secret is unset or empty and 401 when the token is
    missing or wrong. *)
Theorem admin_gate (env : Env) (credentials : option string) (handler : M Response)
    (w : World) :
  (authorized env credentials ->
   Main.admin_only env credentials handler w = handler w)
  /\ (~ authorized env credentials ->
      exists resp,
        Main.admin_only env credentials handler w = (Ok resp, w)
        /\ (status_code resp = 503 <-> Main.admin_secret_missing env = true)
        /\ (status_code resp = 401 <-> Main.admin_secret_missing env = false)).
Proof.
  split.
  - intros Ha. apply verify_admin_auth_ok in Ha. unfold Main.admin_only.
    rewrite Ha. reflexivity.
  - intros Hna. unfold Main.admin_only.
    pose proof (verify_admin_auth_ok env credentials) as Hiff.
    unfold Main.verify_admin_auth in *.
    destruct (Main.admin_secret_missing env).
    + eexists. split; [reflexivity|]. cbn.
      split; split; try reflexivity; discriminate.
    + destruct credentials as [token|].
      * destruct (negb (bool_decide (Some token = ADMIN_SECRET env))).
        -- eexists. split; [reflexivity|]. cbn.
           split; split; try reflexivity; discriminate.
        -- destruct (Hna (proj1 Hiff eq_refl)).
      * eexists. split; [reflexivity|]. cbn.
        split; split; try reflexivity; discriminate.
Qed.

Lemma admin_gate_witness :
  exists resp,
    Main.admin_only (Demo.env_with Demo.no_faults) (Some "guess")
      (Main.revoke_key (Demo.env_with Demo.no_faults) "p1" "k1")
      (Demo.one_key_world (Demo.alice_doc false None))
    = (Ok resp, Demo.one_key_world (Demo.alice_doc false None))
    /\ status_code resp = 401.
Proof.
  destruct (admin_gate (Demo.env_with Demo.no_faults) (Some "guess")
              (Main.revoke_key (Demo.env_with Demo.no_faults) "p1" "k1")
              (Demo.one_key_world (Demo.alice_doc false None))) as [_ H].
  destruct H as (resp & Hrun & _ & H401).
  - intros (s & [= <-] & _ & [=]).
  - exists resp. split; [exact Hrun|]. apply H401. reflexivity.
Defined.

(** X20. The list route rejects a negative offset and a limit outside
    [1, 100] with a 422 before the handler runs: nothing reaches the store.
    Within the bounds an authorized request gets the handler's answer. *)
Theorem list_route_bounds (env : Env) (credentials : option string) (pid : string)
    (offset limit : Z) (w : World) :
  authorized env credentials ->
  (offset < 0 \/ limit < 1 \/ 100 < limit ->
   exists resp,
     Main.list_keys_route env credentials pid offset limit w = (Ok resp, w)
     /\ status_code resp = 422)
  /\ (0 <= offset -> 1 <= limit <= 100 ->
      Main.list_keys_route env credentials pid offset limit w
      = Main.list_keys env pid offset limit w).
Proof.
  intros Ha. apply verify_admin_auth_ok in Ha.
  unfold Main.list_keys_route, Main.admin_only. rewrite Ha. split.
  - intros Hout. destruct (Z.ltb_spec offset 0); [eexists; split; reflexivity|].
    destruct (Z.ltb_spec limit 1); [eexists; split; reflexivity|].
    destruct (Z.ltb_spec 100 limit); [eexists; split; reflexivity|]. lia.
  - intros Ho Hl. destruct (Z.ltb_spec offset 0); [lia|].
    destruct (Z.ltb_spec limit 1); [lia|].
    destruct (Z.ltb_spec 100 limit); [lia|]. reflexivity.
Qed.

Lemma list_route_bounds_witness :
  exists resp,
    Main.list_keys_route (Demo.env_with Demo.no_faults) (Some "admin") "p1" 0 101
      (Demo.one_key_world (Demo.alice_doc false None))
    = (Ok resp, Demo.one_key_world (Demo.alice_doc false None))
    /\ status_code resp = 422.
Proof.
  destruct (list_route_bounds (Demo.env_with Demo.no_faults) (Some "admin") "p1" 0 101
              (Demo.one_key_world (Demo.alice_doc false None))) as [H _].
  - exists "admin". split; [reflexivity|]. split; [discriminate|reflexivity].
  - apply H. right; right. reflexivity.
Defined.

(** ** Listing, page by page *)

Lemma list_project_keys_store (env : Env) (pid : string) (offset limit : Z) (w : World) :
  exists w', RedisKeyManager.list_project_keys env pid offset limit w
             = (Ok (listed env w pid offset limit), w')
             /\ json_docs w' = json_docs w /\ sets w' = sets w.
Proof.
  unfold RedisKeyManager.list_project_keys, listed, key_ids_of, try_except.
  unfold bind at 1. unfold RedisKeyManager.client_smembers, RedisKeyManager.round_trip.
  destruct (raises env _).
  - eexists. repeat split.
  - cbn [sets sent].
    destruct (fetch_docs_run env pid
                (PyStr.slice (elements (default ∅ (sets w !! RedisKeyManager._apiprojectkeys_key pid)))
                   offset (offset + limit))
                (sent (Single (SMEMBERS (RedisKeyManager._apiprojectkeys_key pid))) w))
      as (w' & Hrun & Hj & Hs).
    exists w'. rewrite Hrun. repeat split; assumption.
Qed.

Lemma slice_subseteq {A} (l : list A) (start stop : Z) : PyStr.slice l start stop ⊆ l.
Proof.
  unfold PyStr.slice. etransitivity; [apply subseteq_take|apply subseteq_drop].
Qed.

Lemma slice_length_le {A} (l : list A) (offset limit : Z) :
  0 <= offset -> 0 <= limit ->
  Z.of_nat (length (PyStr.slice l offset (offset + limit))) <= limit.
Proof.
  intros Ho Hl. unfold PyStr.slice, PyStr.clamp_index.
  rewrite length_take, length_drop.
  destruct (offset <? 0) eqn:E1; destruct (offset + limit <? 0) eqn:E2; lia.
Qed.

(** X21. [list_project_keys] never raises and never writes.  Every
    document it returns is stored, as a document that validates, under the
    key of a key id that is in the project's set; for an offset and a limit
    that are not negative it returns at most [limit] documents; and when
    the set cannot be read it returns none. *)
Theorem listing_is_sound (env : Env) (pid : string) (offset limit : Z) (w : World) :
  exists docs w',
    RedisKeyManager.list_project_keys env pid offset limit w = (Ok docs, w')
    /\ json_docs w' = json_docs w /\ sets w' = sets w
    /\ (forall d, d ∈ docs ->
          exists kid, kid ∈ key_ids_of w pid
                      /\ json_docs w !! RedisKeyManager._apikey_key pid kid
                         = Some (KeyJson d))
    /\ (0 <= offset -> 0 <= limit -> Z.of_nat (length docs) <= limit)
    /\ (raises env (Single (SMEMBERS (RedisKeyManager._apiprojectkeys_key pid))) <> None ->
        docs = []).
Proof.
  destruct (list_project_keys_store env pid offset limit w) as (w' & Hrun & Hj & Hs).
  exists (listed env w pid offset limit), w'.
  split; [exact Hrun|]. split; [exact Hj|]. split; [exact Hs|].
  unfold listed. split; [|split].
  - intros d Hd. destruct (raises env _); [inversion Hd|].
    apply list_elem_of_omap in Hd. destruct Hd as (kid & Hkid & Hf).
    exists kid. split.
    + apply elem_of_elements. exact (slice_subseteq _ _ _ _ Hkid).
    + unfold fetched in Hf. destruct (raises env _); [discriminate|].
      destruct (json_docs w !! _) as [[d'|q|b]|]; try discriminate.
      injection Hf as ->. reflexivity.
  - intros Ho Hl. destruct (raises env _); [cbn; lia|].
    pose proof (length_omap_le (fetched env w pid)
                  (PyStr.slice (elements (key_ids_of w pid)) offset (offset + limit))).
    pose proof (slice_length_le (elements (key_ids_of w pid)) offset limit Ho Hl).
    lia.
  - intros Hf. destruct (raises env _); [reflexivity|congruence].
Qed.

Lemma slice_compose {A} (l : list A) (offset k m : Z) :
  0 <= offset -> 0 <= k -> 0 <= m ->
  (PyStr.slice l offset (offset + k) ++ PyStr.slice l (offset + k) (offset + k + m))%list
  = PyStr.slice l offset (offset + (k + m)).
Proof.
  intros Ho Hk Hm. unfold PyStr.slice, PyStr.clamp_index.
  replace (offset <? 0) with false by lia.
  replace (offset + k <? 0) with false by lia.
  replace (offset + k + m <? 0) with false by lia.
  replace (offset + (k + m) <? 0) with false by lia.
  set (n := Z.of_nat (length l)).
  replace (drop (Z.to_nat (Z.min (offset + k) n)) l)
    with (drop (Z.to_nat (Z.min (offset + k) n - Z.min offset n))
            (drop (Z.to_nat (Z.min offset n)) l)).
  2:{ rewrite drop_drop. f_equal. lia. }
  rewrite take_take_drop. f_equal. lia.
Qed.

(** X22. Pages join up.  Against the same store, for an offset and two page
    widths that are not negative, the page at [offset] of width [k]
    followed by the page at [offset + k] of width [m] is the page at
    [offset] of width [k + m]: paging in steps loses no document and
    repeats none. *)
Theorem pages_join_up (env : Env) (pid : string) (offset k m : Z) (w : World) :
  0 <= offset -> 0 <= k -> 0 <= m ->
  exists first second both,
    fst (RedisKeyManager.list_project_keys env pid offset k w) = Ok first
    /\ fst (RedisKeyManager.list_project_keys env pid (offset + k) m w) = Ok second
    /\ fst (RedisKeyManager.list_project_keys env pid offset (k + m) w) = Ok both
    /\ both = (first ++ second)%list.
Proof.
  intros Ho Hk Hm.
  destruct (list_project_keys_store env pid offset k w) as (w1 & -> & _).
  destruct (list_project_keys_store env pid (offset + k) m w) as (w2 & -> & _).
  destruct (list_project_keys_store env pid offset (k + m) w) as (w3 & -> & _).
  eexists _, _, _. repeat (split; [reflexivity|]).
  unfold listed. destruct (raises env _); [reflexivity|].
  rewrite <- omap_app. f_equal. symmetry. apply slice_compose; assumption.
Qed.

Lemma pages_join_up_witness :
  exists first second,
    fst (RedisKeyManager.list_project_keys (Demo.env_with Demo.no_faults) "p1" 0 1
           (Demo.one_key_world (Demo.alice_doc false None))) = Ok first
    /\ fst (RedisKeyManager.list_project_keys (Demo.env_with Demo.no_faults) "p1" 1 2
              (Demo.one_key_world (Demo.alice_doc false None))) = Ok second
    /\ fst (RedisKeyManager.list_project_keys (Demo.env_with Demo.no_faults) "p1" 0 3
              (Demo.one_key_world (Demo.alice_doc false None)))
       = Ok (first ++ second)%list.
Proof.
  destruct (pages_join_up (Demo.env_with Demo.no_faults) "p1" 0 1 2
              (Demo.one_key_world (Demo.alice_doc false None)))
    as (first & second & both & H1 & H2 & H3 & ->); [lia|lia|lia|].
  exists first, second. split; [exact H1|]. split; [exact H2|exact H3].
Defined.

(** ** Key names *)

Lemma append_inj_l (a b c : string) : a +:+ b = a +:+ c -> b = c.
Proof.
  induction a as [|x a IH]; [intros H; exact H|].
  rewrite !append_cons. intros [= H]. exact (IH H).
Qed.

Lemma joined_ids_inj (pid kid pid' kid' : string) :
  PyStr.contains ":" pid = false ->
  PyStr.contains ":" pid' = false ->
  pid +:+ ":" +:+ kid = pid' +:+ ":" +:+ kid' ->
  pid = pid' /\ kid = kid'.
Proof.
  intros Hp Hp' H. apply contains_false in Hp, Hp'.
  pose proof (partition_app ":" pid kid Hp) as H1.
  pose proof (partition_app ":" pid' kid' Hp') as H2.
  change (String ":" kid) with (":" +:+ kid) in H1.
  change (String ":" kid') with (":" +:+ kid') in H2.
  rewrite H in H1. rewrite H1 in H2. injection H2 as -> ->. split; reflexivity.
Qed.

(** X23. The names of the document and of the usage record of a key
    determine the key: for project ids without a colon, two (project, key)
    pairs with the same [apikey:...] name, or the same [apimeta:...] name,
    are the same pair.  (With a colon in a project id they need not be:
    [a:b] with [c] and [a] with [b:c] share their names.) *)
Theorem key_names_are_injective (pid kid pid' kid' : string) :
  PyStr.contains ":" pid = false ->
  PyStr.contains ":" pid' = false ->
  (RedisKeyManager._apikey_key pid kid = RedisKeyManager._apikey_key pid' kid' ->
   pid = pid' /\ kid = kid')
  /\ (RedisKeyManager._apimeta_key pid kid = RedisKeyManager._apimeta_key pid' kid' ->
      pid = pid' /\ kid = kid')
  /\ RedisKeyManager._apikey_key pid kid <> RedisKeyManager._apimeta_key pid' kid'
  /\ RedisKeyManager._apikey_key "a:b" "c" = RedisKeyManager._apikey_key "a" "b:c".
Proof.
  intros Hp Hp'. split; [|split; [|split]].
  - unfold RedisKeyManager._apikey_key. intros H.
    apply append_inj_l in H. exact (joined_ids_inj _ _ _ _ Hp Hp' H).
  - unfold RedisKeyManager._apimeta_key. intros H.
    apply append_inj_l in H. exact (joined_ids_inj _ _ _ _ Hp Hp' H).
  - unfold RedisKeyManager._apikey_key, RedisKeyManager._apimeta_key.
    intros H. discriminate H.
  - reflexivity.
Qed.

Lemma key_names_are_injective_witness :
  RedisKeyManager._apikey_key "p1" "k1" <> RedisKeyManager._apikey_key "p2" "k1".
Proof.
  intros H.
  destruct (proj1 (key_names_are_injective "p1" "k1" "p2" "k1" eq_refl eq_refl) H)
    as [Hp _].
  discriminate Hp.
Defined.

(** ** Health *)

(** X24. The health endpoint sends one PING.  It answers 200 [healthy] when
    the PING goes through and 503 when it fails with a connection error,
    which [ping] catches; any other store error is not caught by [ping] and
    leaves the endpoint as a 500.  The store is never written. *)
Theorem health_check_answers (env : Env) (w : World) :
  exists resp w',
    Main.health_check env w = (Ok resp, w')
    /\ wire w' = (wire w ++ [Single PING])%list
    /\ json_docs w' = json_docs w /\ hashes w' = hashes w /\ streams w' = streams w
    /\ (status_code resp = 200 <-> raises env (Single PING) = None)
    /\ (status_code resp = 503 <-> raises env (Single PING) = Some ConnectionFault)
    /\ (status_code resp = 500
        <-> exists f, raises env (Single PING) = Some f /\ f <> ConnectionFault)
    /\ (status_code resp = 200 ->
        content resp = JObj [("status", JStr "healthy");
                             ("timestamp", JStr (isoformat env (clock env (ticks w))))]).
Proof.
  unfold Main.health_check, RedisKeyManager.ping, try_except,
    RedisKeyManager.round_trip.
  destruct (raises env (Single PING)) as [f|] eqn:Hping.
  - destruct f; cbn; eexists _, _; (split; [reflexivity|]); cbn;
      (split; [reflexivity|]); (split; [reflexivity|]); (split; [reflexivity|]);
      (split; [reflexivity|]); (split; [split; discriminate|]).
    + split; [split; reflexivity|].
      split; [|discriminate].
      split; [discriminate|]. intros (f & [= <-] & Hf). congruence.
    + split; [split; discriminate|].
      split; [|discriminate].
      split; [|reflexivity]. intros _. eexists. split; [reflexivity|discriminate].
    + split; [split; discriminate|].
      split; [|discriminate].
      split; [|reflexivity]. intros _. eexists. split; [reflexivity|discriminate].
  - cbn. eexists _, _. split; [reflexivity|]. cbn.
    repeat (split; [reflexivity|]).
    split; [split; reflexivity|]. split; [split; discriminate|].
    split; [|reflexivity].
    split; [discriminate|]. intros (f & H & _). discriminate.
Qed.

(** ** The rate gate inside a validate *)

Lemma counters_after_usage (env : Env) pid kid w :
  counters (after_usage env pid kid w) = counters w.
Proof. unfold after_usage. destruct (raises env _); reflexivity. Qed.

Lemma counter_after_gate (env : Env) (pid kid : string) (w : World) :
  raises env (rate_pipeline (rate_key_at env pid kid w)) = None ->
  counter_of (after_gate env pid kid w) (rate_key_at env pid kid w)
  = counter_of w (rate_key_at env pid kid w) + 1.
Proof.
  intros Hok. unfold after_gate. rewrite Hok. unfold counter_of at 1.
  cbn [counters with_expiries with_counters]. rewrite lookup_insert_eq. reflexivity.
Qed.

(** X25. The hundred-and-first request.  For a credential whose document is
    fetched and live and whose secret verifies, with the rate pipeline going
    through, the validate answers 200 exactly when the key's bucket of the
    current minute held fewer than 100 before the request; either way the
    bucket is one higher afterwards, so a rate-limited request still counts
    against the bucket. *)
Theorem validate_at_the_limit (env : Env) (api_key : string) (p : ParsedAPIKey)
    (d : APIKeyDocument) (w : World) :
  ParsedAPIKey.parse api_key = Ok p ->
  fetched env w (pk_project_id p) (pk_key_id p) = Some d ->
  valid_at (clock env (ticks w)) d = true ->
  Security.verify_password (argon2 env) (pk_secret p) (secret_hash d) = Ok true ->
  raises env (rate_pipeline (gate_key env w d p)) = None ->
  let r := Main.validate_key env api_key w in
  let bucket := gate_key env w d p in
  (fst r = Ok (validate_response (Some d)) <-> counter_of w bucket < 100)
  /\ (fst r = Ok invalid_key_response <-> 100 <= counter_of w bucket)
  /\ counter_of (snd r) bucket = counter_of w bucket + 1.
Proof.
  intros Hparse Hf Hvalid Hver Hpipe r bucket. subst r bucket.
  rewrite (validate_key_run env _ _ _ Hparse). cbn [fst snd].
  unfold validate_run. rewrite Hf, Hvalid, Hver. cbn [negb].
  rewrite (allows_at_gate env p d w (fetch_trip p) Hvalid).
  assert (Hkey : rate_key_at env (pk_project_id p) (pk_key_id p)
                   (after_liveness d (sent (fetch_trip p) w))
                 = gate_key env w d p).
  { assert (Hd : disabled d = false).
    { unfold valid_at in Hvalid. apply andb_prop in Hvalid.
      destruct Hvalid as [Hd _]. apply negb_true_iff. exact Hd. }
    unfold rate_key_at, gate_key.
    rewrite (ticks_after_liveness d (sent (fetch_trip p) w) Hd). reflexivity. }
  assert (Hcount : counter_of
                     (after_gate env (pk_project_id p) (pk_key_id p)
                        (after_liveness d (sent (fetch_trip p) w)))
                     (gate_key env w d p)
                   = counter_of w (gate_key env w d p) + 1).
  { pose proof (counter_after_gate env (pk_project_id p) (pk_key_id p)
                  (after_liveness d (sent (fetch_trip p) w))) as Hg.
    rewrite Hkey in Hg. rewrite (Hg Hpipe).
    unfold counter_of. rewrite counters_after_liveness. reflexivity. }
  unfold gate_allows. rewrite Hpipe.
  destruct (Z.leb_spec (counter_of w (gate_key env w d p) + 1) 100) as [Hle|Hgt];
    cbn [negb fst snd validate_response].
  - split; [split; [lia|reflexivity]|]. split; [split; [discriminate|lia]|].
    unfold counter_of at 1. rewrite counters_after_usage.
    rewrite (proj1 (proj2 (proj2 (documents_after_event _ _ _ _)))). exact Hcount.
  - split; [split; [discriminate|lia]|]. split; [split; [lia|reflexivity]|].
    unfold counter_of at 1.
    rewrite (proj1 (proj2 (proj2 (documents_after_event _ _ _ _)))). exact Hcount.
Qed.

Lemma validate_at_the_limit_witness :
  let env := Demo.env_with Demo.no_faults in
  let w := with_counters (insert "ratelimit:key:p1:k1:16" 100)
             (Demo.one_key_world (Demo.alice_doc false None)) in
  fst (Main.validate_key env Demo.alice_key w) = Ok invalid_key_response
  /\ counter_of (snd (Main.validate_key env Demo.alice_key w)) "ratelimit:key:p1:k1:16"
     = 101.
Proof.
  intros env w.
  destruct (validate_at_the_limit env Demo.alice_key
              {| pk_project_id := "p1"; pk_key_id := "k1"; pk_secret := "s3cret" |}
              (Demo.alice_doc false None) w)
    as (_ & Hrej & Hcount).
  - reflexivity.
  - vm_compute. reflexivity.
  - reflexivity.
  - reflexivity.
  - reflexivity.
  - split.
    + apply Hrej. vm_compute. discriminate.
    + change (gate_key env w (Demo.alice_doc false None)
                {| pk_project_id := "p1"; pk_key_id := "k1"; pk_secret := "s3cret" |})
        with "ratelimit:key:p1:k1:16" in Hcount.
      rewrite Hcount. vm_compute. reflexivity.
Defined.

(** ** Instances *)

Lemma parse_accepts_exactly_witness :
  ParsedAPIKey.parse "sk-proj.p1.k1.s.3"
  = Ok {| pk_project_id := "p1"; pk_key_id := "k1"; pk_secret := "s.3" |}.
Proof.
  exact (proj2 (parse_accepts_exactly "sk-proj.p1.k1.s.3"
                  {| pk_project_id := "p1"; pk_key_id := "k1"; pk_secret := "s.3" |})
           (conj eq_refl (conj eq_refl eq_refl))).
Defined.

Lemma parse_rejects_exactly_witness :
  exists p, ParsedAPIKey.parse "sk-proj.a.b.c" = Ok p.
Proof.
  apply (proj2 (proj1 (parse_rejects_exactly "sk-proj.a.b.c"))).
  split; [reflexivity|]. vm_compute. lia.
Defined.

Lemma get_api_key_reads_only_witness :
  exists r,
    fst (RedisKeyManager.get_api_key (Demo.env_with Demo.no_faults) "p1" "k1"
           (Demo.one_key_world (Demo.alice_doc false None))) = Ok r
    /\ r = Some (Demo.alice_doc false None).
Proof.
  destruct (get_api_key_reads_only (Demo.env_with Demo.no_faults) "p1" "k1"
              (Demo.one_key_world (Demo.alice_doc false None)))
    as (r & w' & Hrun & Hiff & _).
  exists r. split; [rewrite Hrun; reflexivity|].
  apply Hiff. split; reflexivity.
Defined.

Lemma revoke_key_answers_witness :
  exists resp,
    fst (Main.revoke_key (Demo.env_with Demo.no_faults) "p1" "nope"
           (Demo.one_key_world (Demo.alice_doc false None))) = Ok resp
    /\ status_code resp = 404.
Proof.
  destruct (revoke_key_answers (Demo.env_with Demo.no_faults) "p1" "nope"
              (Demo.one_key_world (Demo.alice_doc false None)))
    as (resp & w' & Hrun & H404 & _).
  exists resp. split; [rewrite Hrun; reflexivity|].
  apply H404. vm_compute. reflexivity.
Defined.

Lemma create_project_answers_witness :
  exists resp,
    fst (Main.create_project (Demo.env_with Demo.no_faults) "p1" "Project One" "alice"
           Demo.empty_world) = Ok resp
    /\ status_code resp = 200.
Proof.
  destruct (create_project_answers (Demo.env_with Demo.no_faults) "p1" "Project One"
              "alice" Demo.empty_world)
    as (resp & w' & Hrun & _ & H200 & _).
  exists resp. split; [rewrite Hrun; reflexivity|].
  apply H200. split; vm_compute; reflexivity.
Defined.

Lemma listing_is_sound_witness :
  exists docs,
    fst (RedisKeyManager.list_project_keys (Demo.env_with Demo.no_faults) "p1" 0 3
           (Demo.one_key_world (Demo.alice_doc false None))) = Ok docs
    /\ Z.of_nat (length docs) <= 3.
Proof.
  destruct (listing_is_sound (Demo.env_with Demo.no_faults) "p1" 0 3
              (Demo.one_key_world (Demo.alice_doc false None)))
    as (docs & w' & Hrun & _ & _ & _ & Hlen & _).
  exists docs. split; [rewrite Hrun; reflexivity|].
  apply Hlen; lia.
Defined.

Lemma health_check_answers_witness :
  exists resp,
    fst (Main.health_check (Demo.env_with Demo.no_faults) Demo.empty_world) = Ok resp
    /\ status_code resp = 200.
Proof.
  destruct (health_check_answers (Demo.env_with Demo.no_faults) Demo.empty_world)
    as (resp & w' & Hrun & _ & _ & _ & _ & H200 & _).
  exists resp. split; [rewrite Hrun; reflexivity|].
  apply H200. reflexivity.
Defined.
